(** * A shallow embedding of the task / time-tracking / scoring core of crm-server

    Sources:
    - src/routes/attendanceRoutes.js : the Task model (schema, pre-save hooks,
      instance methods, the static [calculateEmployeeOfTheMonth]);
    - src/models/SalesCall.js : the Performance model ([calculateOverallScore],
      its virtuals and its static [calculateEmployeeOfTheMonth]);
    - src/unnamed/part_005 : PerformanceController.

    Modelling conventions.
    - Instants ([Date]) are milliseconds since the epoch, as [Z]; a nullable
      date is [option Z].  Subtracting a [null] date in JavaScript converts it
      to [0]; [js_date_num] writes that out.
    - Mongoose ObjectIds are compared through [toString()]; they are modelled
      as [Z] and compared with [Z.eqb].
    - JavaScript Numbers that hold fractions (estimated hours, percentages,
      rates) are exact rationals [Q]; [Math.round x] is [floor (x + 1/2)].
      Where the rounding of double arithmetic shows in a result, the
      computation is also written over Rocq's primitive IEEE-754 doubles
      ([float]): [Performance.calculateOverallScore_f] and [getTaskStats].
    - Mongoose validates on [save()]; documents read from the store passed
      validation when they were written, so each method checks only the
      values it writes itself.  A rejected save persists nothing.
    - Every [new Date()] evaluated during one call is the same instant [now],
      a parameter of the call. *)

From Stdlib Require Import ZArith QArith Qround List String Bool Lia.
From Stdlib Require Import Permutation Sorted Lqa Floats.
Import ListNotations.
Open Scope Z_scope.

(** ** JavaScript helpers *)

Definition js_round (q : Q) : Z := Qfloor (q + (1 # 2)).

Definition Qltb (a b : Q) : bool := negb (Qle_bool b a).

Definition js_date_num (d : option Z) : Z :=
  match d with Some z => z | None => 0 end.

(** [String.prototype.trim] (the schema option [trim: true] applies it when a
    value is assigned), on strings of 7-bit ASCII characters: the white space
    it removes there is tab, LF, VT, FF, CR and space. *)
Definition is_js_space (c : Ascii.ascii) : bool :=
  let n := Ascii.nat_of_ascii c in ((9 <=? n)%nat && (n <=? 13)%nat) || (n =? 32)%nat.

Fixpoint drop_spaces (l : list Ascii.ascii) : list Ascii.ascii :=
  match l with
  | [] => []
  | c :: l' => if is_js_space c then drop_spaces l' else l
  end.

Definition js_trim (s : string) : string :=
  string_of_list_ascii (rev (drop_spaces (rev (drop_spaces (list_ascii_of_string s))))).

(** Doubles.  [f2q] is the exact value of a finite double (0 for the
    others); [z2f z] is the double a JavaScript Number holding the integer
    [z] is, exact for the integers of magnitude below 2^53 used here
    (counts and millisecond amounts). *)
Definition f2q (x : float) : Q :=
  match Prim2SF x with
  | S754_finite s m e =>
      let q := if e <? 0 then (Zpos m # Pos.pow 2 (Z.to_pos (- e)))%Q
               else inject_Z (Zpos m * 2 ^ e) in
      if s then Qopp q else q
  | _ => 0%Q
  end.

Definition z2f (z : Z) : float :=
  if z <? 0 then PrimFloat.opp (PrimFloat.of_uint63 (Uint63.of_Z (- z)))
  else PrimFloat.of_uint63 (Uint63.of_Z z).

Definition float_neg (x : float) : bool :=
  match Prim2SF x with
  | S754_zero s | S754_infinity s | S754_finite s _ _ => s
  | S754_nan => false
  end.

(** [Math.round] on a double: a double of magnitude at least 2^52, an
    infinity or NaN is returned as it is (the first are integers already);
    otherwise the result is [floor (x + 1/2)], negative zero when [x] lies
    in [-1/2, -0]. *)
Definition js_round_f (x : float) : float :=
  if PrimFloat.ltb (PrimFloat.abs x) 0x1p52%float then
    let r := js_round (f2q x) in
    if (r =? 0) && float_neg x then PrimFloat.opp 0%float else z2f r
  else x.

(** Two doubles that are equal, or both zeros of any signs. *)
Definition zero_or_eq (x y : float) : Prop :=
  Prim2SF x = Prim2SF y \/ exists a b, Prim2SF x = S754_zero a /\ Prim2SF y = S754_zero b.

(** ** The Task model (attendanceRoutes.js, taskSchema) *)

Inductive TaskStatus := PENDING | IN_PROGRESS | COMPLETED | CANCELLED | OVERDUE.

Definition status_eqb (a b : TaskStatus) : bool :=
  match a, b with
  | PENDING, PENDING | IN_PROGRESS, IN_PROGRESS | COMPLETED, COMPLETED
  | CANCELLED, CANCELLED | OVERDUE, OVERDUE => true
  | _, _ => false
  end.

Inductive Phase := planning | development | testing | review | deployment | completed.

Inductive Role := primary | collaborator | reviewer.

Record Assignee := mkAssignee { a_user : Z; a_role : Role; assignedAt : Z }.

Record Session := mkSession {
  startTime : option Z; endTime : Z; duration : Z; notes : string }.

Record TimeTracking := mkTT {
  tt_user : Z;
  totalTimeSpent : Z;
  sessions : list Session;
  isActive : bool;
  currentSessionStart : option Z;
  lastActivity : Z }.

Record Progress := mkProgress { currentPhase : Phase; percentage : Q }.

Record StatusChange := mkStatusChange {
  sc_status : TaskStatus; changedBy : Z; changedAt : Z; sc_reason : string }.

(** [savedStatus] and [isNew] are Mongoose's dirty tracking: [isModified('status')]
    holds when the status differs from the last persisted one. *)
Record Task := mkTask {
  assignedTo : list Assignee;
  assignedBy : Z;
  status : TaskStatus;
  progress : Progress;
  dueDate : Z;
  startDate : option Z;
  completedDate : option Z;
  estimatedHours : option Q;
  timeTracking : list TimeTracking;
  statusHistory : list StatusChange;
  createdAt : Z;
  modifiedBy : option Z;
  isNew : bool;
  savedStatus : TaskStatus }.

Definition set_status (s : TaskStatus) (t : Task) : Task :=
  mkTask (assignedTo t) (assignedBy t) s (progress t) (dueDate t) (startDate t)
    (completedDate t) (estimatedHours t) (timeTracking t) (statusHistory t)
    (createdAt t) (modifiedBy t) (isNew t) (savedStatus t).

Definition set_progress (p : Progress) (t : Task) : Task :=
  mkTask (assignedTo t) (assignedBy t) (status t) p (dueDate t) (startDate t)
    (completedDate t) (estimatedHours t) (timeTracking t) (statusHistory t)
    (createdAt t) (modifiedBy t) (isNew t) (savedStatus t).

Definition set_startDate (d : option Z) (t : Task) : Task :=
  mkTask (assignedTo t) (assignedBy t) (status t) (progress t) (dueDate t) d
    (completedDate t) (estimatedHours t) (timeTracking t) (statusHistory t)
    (createdAt t) (modifiedBy t) (isNew t) (savedStatus t).

Definition set_completedDate (d : option Z) (t : Task) : Task :=
  mkTask (assignedTo t) (assignedBy t) (status t) (progress t) (dueDate t)
    (startDate t) d (estimatedHours t) (timeTracking t) (statusHistory t)
    (createdAt t) (modifiedBy t) (isNew t) (savedStatus t).

Definition set_timeTracking (l : list TimeTracking) (t : Task) : Task :=
  mkTask (assignedTo t) (assignedBy t) (status t) (progress t) (dueDate t)
    (startDate t) (completedDate t) (estimatedHours t) l (statusHistory t)
    (createdAt t) (modifiedBy t) (isNew t) (savedStatus t).

Definition set_assignedTo (l : list Assignee) (t : Task) : Task :=
  mkTask l (assignedBy t) (status t) (progress t) (dueDate t)
    (startDate t) (completedDate t) (estimatedHours t) (timeTracking t)
    (statusHistory t) (createdAt t) (modifiedBy t) (isNew t) (savedStatus t).

Definition set_statusHistory (l : list StatusChange) (t : Task) : Task :=
  mkTask (assignedTo t) (assignedBy t) (status t) (progress t) (dueDate t)
    (startDate t) (completedDate t) (estimatedHours t) (timeTracking t) l
    (createdAt t) (modifiedBy t) (isNew t) (savedStatus t).

Definition set_modifiedBy (u : option Z) (t : Task) : Task :=
  mkTask (assignedTo t) (assignedBy t) (status t) (progress t) (dueDate t)
    (startDate t) (completedDate t) (estimatedHours t) (timeTracking t)
    (statusHistory t) (createdAt t) u (isNew t) (savedStatus t).

(** After a save the document is persisted: no longer new, status clean. *)
Definition mark_saved (t : Task) : Task :=
  mkTask (assignedTo t) (assignedBy t) (status t) (progress t) (dueDate t)
    (startDate t) (completedDate t) (estimatedHours t) (timeTracking t)
    (statusHistory t) (createdAt t) (modifiedBy t) false (status t).

(** ** Pre-save middleware *)

Definition status_isModified (t : Task) : bool :=
  negb (status_eqb (status t) (savedStatus t)).

(** [this.timeTracking] is the array of ledger entries; an array has no
    [isActive] property, so [this.timeTracking.isActive] is [undefined]. *)
Definition array_isActive (l : list TimeTracking) : bool := false.

(** First hook: status history, completion date, start date. *)
Definition preSaveHistory (now : Z) (t : Task) : Task :=
  if status_isModified t && negb (isNew t) then
    let t1 := set_statusHistory
                (statusHistory t ++
                 [mkStatusChange (status t)
                    (match modifiedBy t with Some u => u | None => assignedBy t end)
                    now "Status updated"%string]) t in
    let t2 := if status_eqb (status t1) COMPLETED then
                let t1' := set_completedDate (Some now) t1 in
                if array_isActive (timeTracking t1') then t1' (* dead branch *)
                else t1'
              else t1 in
    if status_eqb (status t2) IN_PROGRESS && match startDate t2 with None => true | Some _ => false end
    then set_startDate (Some now) t2 else t2
  else t.

(** Second hook: overdue recomputation ([dueDate] is required, so truthy). *)
Definition preSaveOverdue (now : Z) (t : Task) : Task :=
  if (dueDate t <? now)
     && negb (status_eqb (status t) COMPLETED)
     && negb (status_eqb (status t) CANCELLED)
     && negb (status_eqb (status t) OVERDUE)
  then set_status OVERDUE t else t.

Definition save_doc (now : Z) (t : Task) : Task :=
  mark_saved (preSaveOverdue now (preSaveHistory now t)).

Arguments save_doc : simpl never.

(** ** An error-and-state monad over the in-memory document and the store *)

Inductive TaskError :=
| NotAssignedError          (* 'User is not assigned to this task' *)
| AlreadyActiveError        (* 'Time tracking is already active ...' *)
| NoEntryError              (* 'No time tracking entry found for this user' *)
| NoActiveSessionError      (* 'No active time tracking session ...' *)
| AlreadyAssignedError      (* 'User is already assigned to this task' *)
| LastAssigneeError         (* 'Cannot remove the last assignee from task' *)
| ValidationError.          (* Mongoose's 'Task validation failed: ...' *)

(** [cur] is the in-memory document, [db] every snapshot persisted by
    [save()], newest first.  A thrown error carries the state at the throw:
    the snapshots saved before it stay in the store. *)
Record St := mkSt { cur : Task; db : list Task }.

Definition M (A : Type) : Type := St -> (TaskError * St) + (A * St).

Definition ret {A} (a : A) : M A := fun s => inr (a, s).
Definition bind {A B} (m : M A) (k : A -> M B) : M B :=
  fun s => match m s with inl e => inl e | inr (a, s') => k a s' end.
Definition throw {A} (e : TaskError) : M A := fun s => inl (e, s).
Definition get_task : M Task := fun s => inr (cur s, s).
Definition put_task (t : Task) : M unit := fun s => inr (tt, mkSt t (db s)).
Definition save (now : Z) : M unit :=
  fun s => let t := save_doc now (cur s) in inr (tt, mkSt t (t :: db s)).

Notation "x <- m ;; k" := (bind m (fun x => k)) (at level 61, m at next level, right associativity).
Notation "m ;; k" := (bind m (fun _ => k)) (at level 61, right associativity).

(** The state the next request works on after a call from [s0] threw in
    state [s1]: the document is read again from the store, which is the one
    the call started from when the call saved nothing. *)
Definition reload (s0 s1 : St) : St :=
  if Nat.eqb (List.length (db s1)) (List.length (db s0)) then s0
  else match db s1 with t :: _ => mkSt t (db s1) | [] => s0 end.

(** ** Ledger lookups: [Array.prototype.find] returns the first match, and
    mutating the found entry updates that element in place. *)

Fixpoint find_tt (u : Z) (l : list TimeTracking) : option TimeTracking :=
  match l with
  | [] => None
  | e :: l' => if tt_user e =? u then Some e else find_tt u l'
  end.

Fixpoint update_first (u : Z) (f : TimeTracking -> TimeTracking)
         (l : list TimeTracking) : list TimeTracking :=
  match l with
  | [] => []
  | e :: l' => if tt_user e =? u then f e :: l' else e :: update_first u f l'
  end.

Definition is_assigned (u : Z) (t : Task) : bool :=
  existsb (fun a => a_user a =? u) (assignedTo t).

Definition new_tt (u now : Z) : TimeTracking :=
  mkTT u 0 [] false None now.

Definition start_entry (now : Z) (e : TimeTracking) : TimeTracking :=
  mkTT (tt_user e) (totalTimeSpent e) (sessions e) true (Some now) now.

(** The closing of a session: [duration = endTime - startTime]; the
    session's [notes] path has [trim: true]. *)
Definition stop_entry (now : Z) (nts : string) (e : TimeTracking) : TimeTracking :=
  let st := currentSessionStart e in
  let dur := now - js_date_num st in
  mkTT (tt_user e) (totalTimeSpent e + dur)
       (sessions e ++ [mkSession st now dur (js_trim nts)]) false None now.

(** ** Instance methods *)

(** A user without a ledger entry gets a new one pushed as a plain object:
    [push] stores a copy (a subdocument cast from it), so the writes to
    [isActive], [currentSessionStart] and [lastActivity] that follow go to
    the plain object and the stored entry is the new, inactive one. *)
Definition startTimeTracking (now u : Z) : M unit :=
  t <- get_task ;;
  if negb (is_assigned u t) then throw NotAssignedError else
  let t1 := match find_tt u (timeTracking t) with
            | Some e =>
                if isActive e then None
                else Some (set_timeTracking (update_first u (start_entry now) (timeTracking t)) t)
            | None => Some (set_timeTracking (timeTracking t ++ [new_tt u now]) t)
            end in
  match t1 with
  | None => throw AlreadyActiveError
  | Some t1 =>
      let t2 := if status_eqb (status t1) PENDING then set_status IN_PROGRESS t1 else t1 in
      put_task t2 ;;
      save now
  end.

Definition stopTimeTracking (now u : Z) (nts : string) : M unit :=
  t <- get_task ;;
  match find_tt u (timeTracking t) with
  | None => throw NoEntryError
  | Some e =>
      if negb (isActive e) then throw NoActiveSessionError else
      put_task (set_timeTracking (update_first u (stop_entry now nts) (timeTracking t)) t) ;;
      match currentSessionStart e with
      | Some _ => save now
      | None => throw ValidationError   (* the pushed session's startTime is required *)
      end
  end.

(** [for (const tt of this.timeTracking) if (tt.isActive) await this.stopTimeTracking(tt.user, ...)]:
    the loop reads the live element at each index. *)
Fixpoint stop_all_active (now : Z) (i : nat) (n : nat) : M unit :=
  match n with
  | O => ret tt
  | S n' =>
      t <- get_task ;;
      match nth_error (timeTracking t) i with
      | None => ret tt
      | Some e =>
          (if isActive e then stopTimeTracking now (tt_user e) "Task completed"%string
           else ret tt) ;;
          stop_all_active now (S i) n'
      end
  end.

Definition markAsCompleted (now u : Z) : M unit :=
  t <- get_task ;;
  let t1 := set_progress (mkProgress completed 100)
              (set_modifiedBy (Some u)
                 (set_completedDate (Some now) (set_status COMPLETED t))) in
  put_task t1 ;;
  stop_all_active now 0 (List.length (timeTracking t1)) ;;
  save now.

Definition addAssignee (now u : Z) (r : Role) : M unit :=
  t <- get_task ;;
  if is_assigned u t then throw AlreadyAssignedError else
  put_task (set_timeTracking (timeTracking t ++ [new_tt u now])
              (set_assignedTo (assignedTo t ++ [mkAssignee u r now]) t)) ;;
  save now.

Definition removeAssignee (now u : Z) : M unit :=
  t <- get_task ;;
  if Nat.leb (List.length (assignedTo t)) 1 then throw LastAssigneeError else
  (match find_tt u (timeTracking t) with
   | Some e => if isActive e then stopTimeTracking now u "Removed from task"%string
               else ret tt
   | None => ret tt
   end) ;;
  t' <- get_task ;;
  put_task (set_timeTracking (filter (fun e => negb (tt_user e =? u)) (timeTracking t'))
              (set_assignedTo (filter (fun a => negb (a_user a =? u)) (assignedTo t')) t')) ;;
  save now.

(** An explicit status update saved through [save()]: the pre-save hooks are
    the code that reacts to the new status. *)
Definition updateStatus (now : Z) (s : TaskStatus) : M unit :=
  t <- get_task ;;
  put_task (set_status s t) ;;
  save now.

(** ** Scoring engine: [taskSchema.statics.calculateEmployeeOfTheMonth] *)

(** The per-employee record of [employeeScores[userId]]; the fields
    [completionRate], [onTimeRate] and [totalHoursWorked] are written by the
    post-pass and hold [0] before it (nothing reads them earlier). *)
Record EmpScore := mkScore {
  es_user : Z;
  totalScore : Z;
  tasksCompleted : Z;
  tasksInProgress : Z;
  es_totalTimeSpent : Z;
  onTimeCompletions : Z;
  overdueCompletions : Z;
  averageProgress : Q;
  progressCount : Z;
  completionRate : Z;
  onTimeRate : Z;
  totalHoursWorked : Q }.

Definition init_score (u : Z) : EmpScore := mkScore u 0 0 0 0 0 0 0 0 0 0 0.

Definition ms_per_hour : Z := 1000 * 60 * 60.

(** [task.completedDate && task.dueDate && task.completedDate <= task.dueDate] *)
Definition on_time (task : Task) : bool :=
  match completedDate task with Some c => c <=? dueDate task | None => false end.

(** [task.estimatedHours && userTimeTracking] and [actualHours < task.estimatedHours] *)
Definition efficient (task : Task) (utt : option TimeTracking) : bool :=
  match estimatedHours task, utt with
  | Some h, Some e =>
      negb (Qeq_bool h 0) && Qltb (inject_Z (totalTimeSpent e) / inject_Z ms_per_hour)%Q h
  | _, _ => false
  end.

Definition b2z (b : bool) : Z := if b then 1 else 0.

(** One task-assignee pair of the loop body. *)
Definition accumulate_pair (task : Task) (s : EmpScore) : EmpScore :=
  let u := es_user s in
  let utt := find_tt u (timeTracking task) in
  let tts := es_totalTimeSpent s
             + match utt with Some e => totalTimeSpent e | None => 0 end in
  let '(sc1, tc, tip, ot, od) :=
    if status_eqb (status task) COMPLETED then
      let ontime := on_time task in
      (totalScore s + 50 + (if ontime then 30 else 10)
         + (if efficient task utt then 20 else 0),
       tasksCompleted s + 1, tasksInProgress s,
       onTimeCompletions s + b2z ontime, overdueCompletions s + b2z (negb ontime))
    else if status_eqb (status task) IN_PROGRESS then
      (totalScore s + 10, tasksCompleted s, tasksInProgress s + 1,
       onTimeCompletions s, overdueCompletions s)
    else
      (totalScore s, tasksCompleted s, tasksInProgress s,
       onTimeCompletions s, overdueCompletions s) in
  let p := percentage (progress task) in
  let '(sc2, avg, cnt) :=
    if Qltb 0 p then (sc1 + js_round (p / inject_Z 10)%Q, (averageProgress s + p)%Q, progressCount s + 1)
    else (sc1, averageProgress s, progressCount s) in
  mkScore u sc2 tc tip tts ot od avg cnt
          (completionRate s) (onTimeRate s) (totalHoursWorked s).

(** [employeeScores] as a JavaScript object: keys in insertion order, a
    missing key initialised lazily before the update. *)
Fixpoint upd_score (u : Z) (f : EmpScore -> EmpScore) (m : list EmpScore) : list EmpScore :=
  match m with
  | [] => [f (init_score u)]
  | s :: m' => if es_user s =? u then f s :: m' else s :: upd_score u f m'
  end.

Definition accumulate_task (m : list EmpScore) (task : Task) : list EmpScore :=
  fold_left (fun m a => upd_score (a_user a) (accumulate_pair task) m) (assignedTo task) m.

Definition accumulate (tasks : list Task) : list EmpScore :=
  fold_left accumulate_task tasks [].

(** The query [createdAt in [startDate, endDate], status in {completed, in_progress}]
    over the stored tasks, in the store's order. *)
Definition window_tasks (startD endD : Z) (store : list Task) : list Task :=
  filter (fun t => (startD <=? createdAt t) && (createdAt t <=? endD)
                   && (status_eqb (status t) COMPLETED || status_eqb (status t) IN_PROGRESS))
         store.

Definition post_pass (s : EmpScore) : EmpScore :=
  let avg := if 0 <? progressCount s
             then inject_Z (js_round (averageProgress s / inject_Z (progressCount s))%Q) else 0%Q in
  let total := tasksCompleted s + tasksInProgress s in
  let cr := if 0 <? total
            then js_round (inject_Z (tasksCompleted s) / inject_Z total * inject_Z 100)%Q else 0 in
  let otr := if 0 <? tasksCompleted s
             then js_round (inject_Z (onTimeCompletions s) / inject_Z (tasksCompleted s) * inject_Z 100)%Q
             else 0 in
  let hrs := (inject_Z (js_round (inject_Z (es_totalTimeSpent s) / inject_Z ms_per_hour * inject_Z 10)%Q)
             / inject_Z 10)%Q in
  mkScore (es_user s) (totalScore s) (tasksCompleted s) (tasksInProgress s)
          (es_totalTimeSpent s) (onTimeCompletions s) (overdueCompletions s)
          avg (progressCount s) cr otr hrs.

(** [Array.prototype.sort] with comparator [(a, b) => b.totalScore - a.totalScore];
    the built-in sort is stable, modelled by insertion sort. *)
Fixpoint insert_desc (x : EmpScore) (l : list EmpScore) : list EmpScore :=
  match l with
  | [] => [x]
  | y :: l' => if totalScore y <? totalScore x then x :: y :: l' else y :: insert_desc x l'
  end.

Definition sort_desc (l : list EmpScore) : list EmpScore :=
  fold_left (fun acc x => insert_desc x acc) l [].

Record EotmResult := mkEotm {
  employeeOfTheMonth : option EmpScore;
  topPerformers : list EmpScore;
  allRankings : list EmpScore;
  periodStart : Z;
  periodEnd : Z }.

Definition calculateEmployeeOfTheMonth (startD endD : Z) (store : list Task) : EotmResult :=
  let tasks := window_tasks startD endD store in
  let rankings := sort_desc (filter (fun s => 0 <? tasksCompleted s)
                                    (map post_pass (accumulate tasks))) in
  mkEotm (hd_error rankings) (firstn 5 rankings) rankings startD endD.

(** ** The Performance model (models/SalesCall.js, performanceSchema) *)

Module Performance.

Inductive Period := weekly | monthly | quarterly | yearly.

Definition period_eqb (a b : Period) : bool :=
  match a, b with
  | weekly, weekly | monthly, monthly | quarterly, quarterly | yearly, yearly => true
  | _, _ => false
  end.

Record Performance := mkPerformance {
  employee : Z;
  period : Period;
  startDate : Z;
  endDate : Z;
  tasksCompleted : Z;
  tasksAssigned : Z;
  tasksOverdue : Z;
  attendanceDays : Z;
  totalWorkingDays : Z;
  salesCalls : Z;
  salesConversions : Z;
  overallScore : Z;
  grade : string;
  isActive : bool }.

(** Virtuals. *)
Definition taskCompletionRate (p : Performance) : Q :=
  if 0 <? tasksAssigned p
  then (inject_Z (tasksCompleted p) / inject_Z (tasksAssigned p) * inject_Z 100)%Q else 0%Q.

Definition attendanceRate (p : Performance) : Q :=
  if 0 <? totalWorkingDays p
  then (inject_Z (attendanceDays p) / inject_Z (totalWorkingDays p) * inject_Z 100)%Q else 0%Q.

Definition salesConversionRate (p : Performance) : Q :=
  if 0 <? salesCalls p
  then (inject_Z (salesConversions p) / inject_Z (salesCalls p) * inject_Z 100)%Q else 0%Q.

(** The running [score] of [calculateOverallScore]; [weightSum] is
    accumulated alongside but never read. *)
Definition weighted_score (p : Performance) : Q :=
  let score := (0 + taskCompletionRate p * (3 # 10))%Q in
  let score := (score + attendanceRate p * (25 # 100))%Q in
  let onTimeRate :=
    if 0 <? tasksAssigned p
    then (inject_Z (tasksAssigned p - tasksOverdue p) / inject_Z (tasksAssigned p) * inject_Z 100)%Q
    else inject_Z 100 in
  let score := (score + onTimeRate * (2 # 10))%Q in
  if 0 <? salesCalls p then (score + salesConversionRate p * (25 # 100))%Q else score.

Definition grade_of (overall : Z) : string :=
  if 95 <=? overall then "A+"
  else if 90 <=? overall then "A"
  else if 85 <=? overall then "B+"
  else if 80 <=? overall then "B"
  else if 75 <=? overall then "C+"
  else if 70 <=? overall then "C"
  else if 60 <=? overall then "D"
  else "F".

(** [calculateOverallScore] in exact arithmetic. *)
Definition calculateOverallScore (p : Performance) : Performance :=
  let overall := js_round (weighted_score p) in
  mkPerformance (employee p) (period p) (startDate p) (endDate p) (tasksCompleted p)
    (tasksAssigned p) (tasksOverdue p) (attendanceDays p) (totalWorkingDays p)
    (salesCalls p) (salesConversions p) overall (grade_of overall) (isActive p).

(** The virtuals and [calculateOverallScore] in double arithmetic, as the
    code computes them; the literals 0.3 and 0.2 are the doubles nearest to
    them (0.25 and 100 are exact).  The score is a finite double, so
    [Math.round] of it is [js_round] of its exact value. *)
Definition taskCompletionRate_f (p : Performance) : float :=
  if 0 <? tasksAssigned p then (z2f (tasksCompleted p) / z2f (tasksAssigned p) * 100)%float
  else 0%float.

Definition attendanceRate_f (p : Performance) : float :=
  if 0 <? totalWorkingDays p then (z2f (attendanceDays p) / z2f (totalWorkingDays p) * 100)%float
  else 0%float.

Definition salesConversionRate_f (p : Performance) : float :=
  if 0 <? salesCalls p then (z2f (salesConversions p) / z2f (salesCalls p) * 100)%float
  else 0%float.

Definition weighted_score_f (p : Performance) : float :=
  let score := (0 + taskCompletionRate_f p * 0x1.3333333333333p-2)%float in
  let score := (score + attendanceRate_f p * 0.25)%float in
  let onTimeRate :=
    if 0 <? tasksAssigned p
    then ((z2f (tasksAssigned p) - z2f (tasksOverdue p)) / z2f (tasksAssigned p) * 100)%float
    else 100%float in
  let score := (score + onTimeRate * 0x1.999999999999ap-3)%float in
  if 0 <? salesCalls p then (score + salesConversionRate_f p * 0.25)%float else score.

Definition calculateOverallScore_f (p : Performance) : Performance :=
  let overall := js_round (f2q (weighted_score_f p)) in
  mkPerformance (employee p) (period p) (startDate p) (endDate p) (tasksCompleted p)
    (tasksAssigned p) (tasksOverdue p) (attendanceDays p) (totalWorkingDays p)
    (salesCalls p) (salesConversions p) overall (grade_of overall) (isActive p).

(** [performanceSchema.statics.calculateEmployeeOfTheMonth(month, year)]:
    the month bounds are [new Date(year, month - 1, 1)] and
    [new Date(year, month, 0)], dates in the server's local time zone, which
    [local_date] stands for. *)
Section EmployeeOfTheMonth.

Variable local_date : Z -> Z -> Z -> Z.

Definition month_query (month year : Z) (store : list Performance) : list Performance :=
  let startD := local_date year (month - 1) 1 in
  let endD := local_date year month 0 in
  filter (fun p => period_eqb (period p) monthly && (startD <=? startDate p)
                   && (endDate p <=? endD) && isActive p) store.

(** [performances.reduce((best, current) => current.overallScore > best.overallScore ? current : best)] *)
Definition best_of (p0 : Performance) (rest : list Performance) : Performance :=
  fold_left (fun best current => if overallScore best <? overallScore current then current else best)
            rest p0.

Definition calculateEmployeeOfTheMonth (month year : Z) (store : list Performance)
  : option Performance :=
  match month_query month year store with
  | [] => None
  | p0 :: rest => Some (best_of p0 rest)
  end.

End EmployeeOfTheMonth.

End Performance.

(** ** PerformanceController.calculateEmployeeOfTheMonth (unnamed/part_005)
    [month] and [year] come from the request body; [0] stands for a missing
    (falsy) value.  The notification side effect is not modelled. *)
Inductive EotmResponse :=
| BadRequest            (* 'Month and year are required' *)
| NotFound              (* 'No performance data found for the specified month' *)
| Ok (p : Performance.Performance).

Definition PerformanceController_calculateEmployeeOfTheMonth
  (local_date : Z -> Z -> Z -> Z) (month year : Z) (store : list Performance.Performance)
  : EotmResponse :=
  if (month =? 0) || (year =? 0) then BadRequest else
  match Performance.calculateEmployeeOfTheMonth local_date month year store with
  | None => NotFound
  | Some p => Ok p
  end.

(** ** More of the Task model: [updateProgress], virtuals and static queries *)

(** [Math.min] and [Math.max] on two Numbers (NaN is not modelled). *)
Definition js_min (a b : Q) : Q := if Qle_bool a b then a else b.

Definition js_max (a b : Q) : Q := if Qle_bool b a then a else b.

(** The enum of [progress.currentPhase]. *)
Definition phase_of_string (p : string) : option Phase :=
  if String.eqb p "planning" then Some planning
  else if String.eqb p "development" then Some development
  else if String.eqb p "testing" then Some testing
  else if String.eqb p "review" then Some review
  else if String.eqb p "deployment" then Some deployment
  else if String.eqb p "completed" then Some completed
  else None.

(** [taskSchema.methods.updateProgress(percentage, phase, userId)].
    [pct] is the Number [percentage] converts to in [Math.min], [None] when
    it is NaN ([undefined], a non-numeric string): the clamp is then NaN and
    the save fails casting it.  [phase] is [None] when absent ([undefined]
    or [null]); the empty string is falsy as well.  A phase outside the enum
    fails the enum validator on save. *)
Definition updateProgress (now : Z) (pct : option Q) (phase : option string) (u : Z) : M unit :=
  t <- get_task ;;
  match pct with
  | None => throw ValidationError
  | Some q =>
      let p1 := mkProgress (currentPhase (progress t)) (js_max 0 (js_min (inject_Z 100) q)) in
      let p2 := match phase with
                | Some ph =>
                    if String.eqb ph EmptyString then Some p1
                    else match phase_of_string ph with
                         | Some ph' => Some (mkProgress ph' (percentage p1))
                         | None => None
                         end
                | None => Some p1
                end in
      match p2 with
      | Some p2 => put_task (set_modifiedBy (Some u) (set_progress p2 t)) ;; save now
      | None => throw ValidationError
      end
  end.

(** Virtual [isOverdue], read at instant [now]. *)
Definition isOverdue (now : Z) (t : Task) : bool :=
  if status_eqb (status t) COMPLETED || status_eqb (status t) CANCELLED then false
  else dueDate t <? now.

(** Virtual [isBeingTracked]: [tt.isActive && tt.currentSessionStart]. *)
Definition isBeingTracked (t : Task) : bool :=
  existsb (fun e => isActive e && match currentSessionStart e with Some _ => true | None => false end)
          (timeTracking t).

(** Virtual [activeTimeTrackers]. *)
Definition activeTimeTrackers (t : Task) : list TimeTracking :=
  filter isActive (timeTracking t).

Definition role_eqb (a b : Role) : bool :=
  match a, b with
  | primary, primary | collaborator, collaborator | reviewer, reviewer => true
  | _, _ => false
  end.

(** Virtual [primaryAssignee]: the first primary assignee, else the first
    assignee, else [null]. *)
Definition primaryAssignee (t : Task) : option Z :=
  match find (fun a => role_eqb (a_role a) primary) (assignedTo t) with
  | Some a => Some (a_user a)
  | None => match assignedTo t with a :: _ => Some (a_user a) | [] => None end
  end.

(** [taskSchema.statics.findOverdueTasks]: [dueDate < now] and status not in
    {completed, cancelled}, in the store's order. *)
Definition findOverdueTasks (now : Z) (store : list Task) : list Task :=
  filter (fun t => (dueDate t <? now) && negb (status_eqb (status t) COMPLETED)
                   && negb (status_eqb (status t) CANCELLED)) store.

(** [taskSchema.statics.getTaskStats(userId)]: [stats] as a JavaScript object
    keyed by status, in insertion order; each value is [(count, totalHours)],
    the hours a double. *)
Fixpoint stats_bump (k : TaskStatus) (h : float) (m : list (TaskStatus * (Z * float)))
  : list (TaskStatus * (Z * float)) :=
  match m with
  | [] => [(k, (0 + 1, (0 + h)%float))]
  | (k', (c, hh)) :: m' =>
      if status_eqb k' k then (k', (c + 1, (hh + h)%float)) :: m'
      else (k', (c, hh)) :: stats_bump k h m'
  end.

(** [Math.round((totalTime / (1000 * 60 * 60)) * 100) / 100] in doubles. *)
Definition task_hours (u : Z) (task : Task) : float :=
  let totalTime := match find_tt u (timeTracking task) with
                   | Some e => totalTimeSpent e | None => 0 end in
  (js_round_f (z2f totalTime / (1000 * 60 * 60) * 100) / 100)%float.

Definition getTaskStats (u : Z) (store : list Task) : list (TaskStatus * (Z * float)) :=
  fold_left (fun m task => stats_bump (status task) (task_hours u task) m)
            (filter (is_assigned u) store) [].

Definition stats_lookup (k : TaskStatus) (m : list (TaskStatus * (Z * float)))
  : option (Z * float) :=
  match find (fun p => status_eqb (fst p) k) m with Some (_, v) => Some v | None => None end.

(** ** TaskController (controllers/taskController.js) *)

Inductive HttpStatus :=
| HTTP_OK | HTTP_BAD_REQUEST | HTTP_FORBIDDEN | HTTP_NOT_FOUND | HTTP_INTERNAL_SERVER_ERROR.

(** The [message] of each error the instance methods throw. *)
Definition error_message (e : TaskError) : string :=
  match e with
  | NotAssignedError => "User is not assigned to this task"
  | AlreadyActiveError => "Time tracking is already active for this user on this task"
  | NoEntryError => "No time tracking entry found for this user"
  | NoActiveSessionError => "No active time tracking session for this user on this task"
  | AlreadyAssignedError => "User is already assigned to this task"
  | LastAssigneeError => "Cannot remove the last assignee from task"
  | ValidationError => "Task validation failed"
  end.

Fixpoint starts_with (p s : string) : bool :=
  match p, s with
  | EmptyString, _ => true
  | String a p', String b s' => Ascii.eqb a b && starts_with p' s'
  | _, _ => false
  end.

(** [String.prototype.includes]. *)
Fixpoint str_includes (s p : string) : bool :=
  starts_with p s || match s with EmptyString => false | String _ s' => str_includes s' p end.

(** The controllers take the result of [Task.findById(id)] together with the
    store ([None]: no such task) and give the response status with the
    resulting document and store; notifications and e-mails are not modelled
    (their errors are caught and logged). *)
Definition TaskController_startTask (now uid : Z) (doc : option St) : HttpStatus * option St :=
  match doc with
  | None => (HTTP_NOT_FOUND, None)
  | Some s =>
      if negb (is_assigned uid (cur s)) then (HTTP_FORBIDDEN, Some s) else
      match startTimeTracking now uid s with
      | inr (_, s') => (HTTP_OK, Some s')
      | inl (e, s1) => if str_includes (error_message e) "already active"
                       then (HTTP_BAD_REQUEST, Some (reload s s1))
                       else (HTTP_INTERNAL_SERVER_ERROR, Some (reload s s1))
      end
  end.

(** [notes] from the request body; [undefined] takes the default [''].*)
Definition TaskController_stopTask (now uid : Z) (notes : option string) (doc : option St)
  : HttpStatus * option St :=
  match doc with
  | None => (HTTP_NOT_FOUND, None)
  | Some s =>
      if negb (is_assigned uid (cur s)) then (HTTP_FORBIDDEN, Some s) else
      let nts := match notes with Some n => n | None => EmptyString end in
      match stopTimeTracking now uid nts s with
      | inr (_, s') => (HTTP_OK, Some s')
      | inl (e, s1) => if str_includes (error_message e) "No active time tracking"
                       then (HTTP_BAD_REQUEST, Some (reload s s1))
                       else (HTTP_INTERNAL_SERVER_ERROR, Some (reload s s1))
      end
  end.

Definition TaskController_completeTask (now uid : Z) (doc : option St) : HttpStatus * option St :=
  match doc with
  | None => (HTTP_NOT_FOUND, None)
  | Some s =>
      if negb (is_assigned uid (cur s)) then (HTTP_FORBIDDEN, Some s) else
      match markAsCompleted now uid s with
      | inr (_, s') => (HTTP_OK, Some s')
      | inl (_, s1) => (HTTP_INTERNAL_SERVER_ERROR, Some (reload s s1))
      end
  end.

(** [TaskController.updateTask] with a body [{ status }]: [employee] is
    whether the requester has the employee role (employees may update their
    own tasks' status).  [Task.findByIdAndUpdate] writes the new status to
    the store directly; document middleware ([pre('save')]) does not run for
    it, and validators check the status against its enum only. *)
Definition TaskController_updateTask_status (uid : Z) (employee : bool) (st : TaskStatus)
  (doc : option St) : HttpStatus * option St :=
  match doc with
  | None => (HTTP_NOT_FOUND, None)
  | Some s =>
      if employee && negb (is_assigned uid (cur s)) then (HTTP_FORBIDDEN, Some s) else
      let t := mark_saved (set_status st (cur s)) in
      (HTTP_OK, Some (mkSt t (t :: db s)))
  end.

(** ** The SalesCall model (models/SalesCall.js, salesCallSchema)
    [status] and [outcome] are the schema's enum strings; an unset outcome
    is [None]. *)

Module SalesCall.

Record SalesCall := mkSalesCall {
  salesRep : Z;
  status : string;
  scheduledDate : Z;
  duration : Z;
  outcome : option string;
  outcomeDetails : string;
  followUpRequired : bool;
  followUpDate : option Z;
  followUpNotes : string;
  dealValue : Q;
  dealClosed : bool;
  dealClosedDate : option Z }.

(** [this.outcome === o] *)
Definition outcome_is (o : string) (c : SalesCall) : bool :=
  match outcome c with Some x => String.eqb x o | None => false end.

(** [salesCallSchema.pre('save')] *)
Definition pre_save (now : Z) (c : SalesCall) : SalesCall :=
  let fur := if outcome_is "callback_requested" c || outcome_is "interested" c
             then true else followUpRequired c in
  let '(dc, dcd) :=
    if outcome_is "deal_closed" c
    then (true, match dealClosedDate c with Some d => Some d | None => Some now end)
    else (dealClosed c, dealClosedDate c) in
  mkSalesCall (salesRep c) (status c) (scheduledDate c) (duration c) (outcome c)
    (outcomeDetails c) fur (followUpDate c) (followUpNotes c) (dealValue c) dc dcd.

(** The enum of [outcome]. *)
Definition outcomes : list string :=
  ["interested"; "not_interested"; "callback_requested"; "meeting_scheduled";
   "proposal_sent"; "deal_closed"; "qualified"; "disqualified"; "no_answer";
   "wrong_person"; "voicemail_left"; "gatekeeper_blocked"]%string.

(** The validators of the paths [markCompleted] writes: [outcome] is unset
    or in the enum; [outcomeDetails] (already trimmed) has at most 1000
    characters. *)
Definition outcome_valid (o : option string) : bool :=
  match o with Some x => existsb (String.eqb x) outcomes | None => true end.

(** [salesCallSchema.methods.markCompleted(outcome, details)] followed by its
    [save()]: [o] is [None] when [outcome] is [undefined]; [details] has the
    default [''].  [outcomeDetails] has [trim: true].  [None] is a rejected
    save (a ValidationError): nothing is stored. *)
Definition markCompleted (now : Z) (o : option string) (details : string) (c : SalesCall)
  : option SalesCall :=
  let d := js_trim details in
  if outcome_valid o && (String.length d <=? 1000)%nat then
    Some (pre_save now
      (mkSalesCall (salesRep c) "completed" (scheduledDate c) (duration c) o d
         (followUpRequired c) (followUpDate c) (followUpNotes c) (dealValue c)
         (dealClosed c) (dealClosedDate c)))
  else None.

(** Virtual [dealStatus]. *)
Definition dealStatus (c : SalesCall) : string :=
  if dealClosed c then "closed"
  else if outcome_is "interested" c || outcome_is "meeting_scheduled" c
          || outcome_is "proposal_sent" c then "in_progress"
  else "open".

(** Virtual [isSuccessful]. *)
Definition isSuccessful (c : SalesCall) : bool :=
  match outcome c with
  | Some o => existsb (String.eqb o)
                ["interested"; "meeting_scheduled"; "proposal_sent"; "deal_closed"; "qualified"]%string
  | None => false
  end.

Record SalesRepStats := mkSalesRepStats {
  totalCalls : Z;
  completedCalls : Z;
  successfulCalls : Z;
  totalDuration : Z;
  dealsClosed : Z;
  totalDealValue : Q;
  avgCallDuration : Z;
  conversionRate : Z }.

(** [salesCallSchema.statics.getSalesRepStats(salesRepId, startDate, endDate)] *)
Definition getSalesRepStats (rep startD endD : Z) (store : list SalesCall) : SalesRepStats :=
  let calls := filter (fun c => (salesRep c =? rep) && (startD <=? scheduledDate c)
                                && (scheduledDate c <=? endD)) store in
  let total := Z.of_nat (List.length calls) in
  let succ := Z.of_nat (List.length (filter isSuccessful calls)) in
  let td := fold_left (fun sum c => sum + duration c) calls 0 in
  let avg := if 0 <? total then js_round (inject_Z td / inject_Z total)%Q else 0 in
  let rate := if 0 <? total then js_round (inject_Z succ / inject_Z total * inject_Z 100)%Q else 0 in
  mkSalesRepStats total
    (Z.of_nat (List.length (filter (fun c => String.eqb (status c) "completed") calls)))
    succ td
    (Z.of_nat (List.length (filter dealClosed calls)))
    (fold_left (fun sum c => sum + dealValue c)%Q calls 0%Q)
    avg rate.

End SalesCall.

(** ** Well-formed task documents *)

(** A ledger entry is active exactly when it has an open session start. *)
Definition active_ok (e : TimeTracking) : Prop :=
  isActive e = true <-> currentSessionStart e <> None.

(** Roster users are distinct, ledger entries belong to distinct assigned
    users, and every entry's [isActive] agrees with [currentSessionStart]. *)
Definition wf_task (t : Task) : Prop :=
  NoDup (map a_user (assignedTo t)) /\
  NoDup (map tt_user (timeTracking t)) /\
  incl (map tt_user (timeTracking t)) (map a_user (assignedTo t)) /\
  Forall active_ok (timeTracking t).

(** The instance methods, as calls on one document; after a call that
    throws, the document is read again from the store. *)
Inductive TaskCall :=
| TStart (now u : Z)
| TStop (now u : Z) (nts : string)
| TComplete (now u : Z)
| TAddAssignee (now u : Z) (r : Role)
| TRemoveAssignee (now u : Z)
| TUpdateProgress (now : Z) (pct : option Q) (phase : option string) (u : Z)
| TUpdateStatus (now : Z) (st : TaskStatus).

Definition run_task_call (c : TaskCall) : M unit :=
  match c with
  | TStart now u => startTimeTracking now u
  | TStop now u nts => stopTimeTracking now u nts
  | TComplete now u => markAsCompleted now u
  | TAddAssignee now u r => addAssignee now u r
  | TRemoveAssignee now u => removeAssignee now u
  | TUpdateProgress now pct ph u => updateProgress now pct ph u
  | TUpdateStatus now st => updateStatus now st
  end.

Fixpoint run_task_calls (cs : list TaskCall) (s : St) : St :=
  match cs with
  | [] => s
  | c :: cs' =>
      run_task_calls cs' (match run_task_call c s with
                          | inl (_, s1) => reload s s1
                          | inr (_, s') => s' end)
  end.

(** ** Definitions following the claims' words, to compare with the code *)

(** Performance: the four rates and the weighted score as the spec states them. *)
Definition spec_taskCompletionRate (p : Performance.Performance) : Q :=
  if Performance.tasksAssigned p =? 0 then 0%Q
  else (inject_Z (Performance.tasksCompleted p) / inject_Z (Performance.tasksAssigned p) * inject_Z 100)%Q.

Definition spec_attendanceRate (p : Performance.Performance) : Q :=
  if Performance.totalWorkingDays p =? 0 then 0%Q
  else (inject_Z (Performance.attendanceDays p) / inject_Z (Performance.totalWorkingDays p) * inject_Z 100)%Q.

Definition spec_onTimeRate (p : Performance.Performance) : Q :=
  if Performance.tasksAssigned p =? 0 then inject_Z 100
  else (inject_Z (Performance.tasksAssigned p - Performance.tasksOverdue p)
          / inject_Z (Performance.tasksAssigned p) * inject_Z 100)%Q.

Definition spec_salesConversionRate (p : Performance.Performance) : Q :=
  if Performance.salesCalls p =? 0 then 0%Q
  else (inject_Z (Performance.salesConversions p) / inject_Z (Performance.salesCalls p) * inject_Z 100)%Q.

Definition spec_weighted (p : Performance.Performance) : Q :=
  (spec_taskCompletionRate p * (30 # 100) + spec_attendanceRate p * (25 # 100)
   + spec_onTimeRate p * (20 # 100)
   + (if 0 <? Performance.salesCalls p then spec_salesConversionRate p * (25 # 100) else 0))%Q.

(** The same in double arithmetic: each rate is the double quotient times
    100, each weight the double nearest to it, and the terms are summed from
    left to right. *)
Definition spec_taskCompletionRate_f (p : Performance.Performance) : float :=
  if Performance.tasksAssigned p =? 0 then 0%float
  else (z2f (Performance.tasksCompleted p) / z2f (Performance.tasksAssigned p) * 100)%float.

Definition spec_attendanceRate_f (p : Performance.Performance) : float :=
  if Performance.totalWorkingDays p =? 0 then 0%float
  else (z2f (Performance.attendanceDays p) / z2f (Performance.totalWorkingDays p) * 100)%float.

Definition spec_onTimeRate_f (p : Performance.Performance) : float :=
  if Performance.tasksAssigned p =? 0 then 100%float
  else ((z2f (Performance.tasksAssigned p) - z2f (Performance.tasksOverdue p))
          / z2f (Performance.tasksAssigned p) * 100)%float.

Definition spec_salesConversionRate_f (p : Performance.Performance) : float :=
  if Performance.salesCalls p =? 0 then 0%float
  else (z2f (Performance.salesConversions p) / z2f (Performance.salesCalls p) * 100)%float.

Definition spec_weighted_f (p : Performance.Performance) : float :=
  let s3 := (spec_taskCompletionRate_f p * 0x1.3333333333333p-2 + spec_attendanceRate_f p * 0.25
             + spec_onTimeRate_f p * 0x1.999999999999ap-3)%float in
  if 0 <? Performance.salesCalls p then (s3 + spec_salesConversionRate_f p * 0.25)%float else s3.

(** The grade table of the spec: the first threshold met, else F. *)
Definition grade_table : list (Z * string) :=
  [(95, "A+"); (90, "A"); (85, "B+"); (80, "B"); (75, "C+"); (70, "C"); (60, "D")]%string.

Fixpoint first_threshold (o : Z) (tbl : list (Z * string)) : string :=
  match tbl with
  | [] => "F"%string
  | (th, g) :: r => if th <=? o then g else first_threshold o r
  end.

Definition spec_grade (o : Z) : string := first_threshold o grade_table.

(** Saving a document several times, at the given instants. *)
Definition save_docs (nows : list Z) (t : Task) : Task :=
  fold_left (fun t n => save_doc n t) nows t.

(** A monthly record with the given counters, in the order
    tasksAssigned, tasksCompleted, tasksOverdue, attendanceDays,
    totalWorkingDays, salesCalls, salesConversions. *)
Definition perf_all (ta tc tod ad wd sc sv : Z) : Performance.Performance :=
  Performance.mkPerformance 1 Performance.monthly 0 0 tc ta tod ad wd sc sv 0 "F" true.

(** Ledger bookkeeping: the sum of the closed sessions' durations. *)
Definition sum_durations (l : list Session) : Z :=
  fold_right (fun s acc => duration s + acc) 0 l.

Definition entry_ok (e : TimeTracking) : Prop :=
  totalTimeSpent e = sum_durations (sessions e).

Definition ledger_ok (t : Task) : Prop := Forall entry_ok (timeTracking t).

(** A sequence of time-tracking calls on one document; after a call that
    throws, the document is read again from the store. *)
Inductive TrackingCall :=
| CallStart (now u : Z)
| CallStop (now u : Z) (nts : string).

Definition run_call (c : TrackingCall) : M unit :=
  match c with
  | CallStart now u => startTimeTracking now u
  | CallStop now u nts => stopTimeTracking now u nts
  end.

Fixpoint run_calls (cs : list TrackingCall) (s : St) : St :=
  match cs with
  | [] => s
  | c :: cs' =>
      run_calls cs' (match run_call c s with inl (_, s1) => reload s s1 | inr (_, s') => s' end)
  end.

(** A task in progress with two assignees, half done, user 1 tracking time. *)
Definition demo_task : Task :=
  mkTask [mkAssignee 1 primary 0; mkAssignee 2 collaborator 0] 9 IN_PROGRESS
         (mkProgress development 50) 1000 (Some 0) None (Some 5%Q)
         [mkTT 1 0 [] true (Some 10) 10; mkTT 2 0 [] false None 0]
         [] 0 None false IN_PROGRESS.

(** [demo_task] with user 1's entry active but without a session start. *)
Definition demo_task_nostart : Task :=
  mkTask [mkAssignee 1 primary 0; mkAssignee 2 collaborator 0] 9 IN_PROGRESS
         (mkProgress development 50) 1000 (Some 0) None (Some 5%Q)
         [mkTT 1 0 [] true None 10; mkTT 2 0 [] false None 0]
         [] 0 None false IN_PROGRESS.

(** Reading a field of [employeeScores[u]] (a fresh record when absent). *)
Definition lookup_score (u : Z) (m : list EmpScore) : option EmpScore :=
  find (fun s => es_user s =? u) m.

Definition field_of {A} (g : EmpScore -> A) (u : Z) (m : list EmpScore) : A :=
  match lookup_score u m with Some s => g s | None => g (init_score u) end.

(** Folding [step] over the task-assignee pairs of user [u], in loop order. *)
Definition pair_fold {A} (step : A -> Task -> A) (u : Z) (tasks : list Task) (a0 : A) : A :=
  fold_left (fun acc task =>
               fold_left (fun acc a => if a_user a =? u then step acc task else acc)
                         (assignedTo task) acc)
            tasks a0.

(** C1's words: the completion / activity points of one task-assignee pair. *)
Definition claim_status_points (task : Task) (u : Z) : Z :=
  match status task with
  | COMPLETED =>
      50
      + (match completedDate task with
         | Some c => if c <=? dueDate task then 30 else 10
         | None => 10
         end)
      + (match estimatedHours task, find_tt u (timeTracking task) with
         | Some h, Some e =>
             if Qltb (inject_Z (totalTimeSpent e) / inject_Z ms_per_hour)%Q h then 20 else 0
         | _, _ => 0
         end)
  | IN_PROGRESS => 10
  | _ => 0
  end.

(** The code's completion / activity points of one pair. *)
Definition code_status_points (task : Task) (u : Z) : Z :=
  if status_eqb (status task) COMPLETED then
    50 + (if on_time task then 30 else 10)
    + (if efficient task (find_tt u (timeTracking task)) then 20 else 0)
  else if status_eqb (status task) IN_PROGRESS then 10 else 0.

(** The code's progress bonus: [Math.round(percentage / 10)] when positive. *)
Definition progress_points (task : Task) : Z :=
  let p := percentage (progress task) in
  if Qltb 0 p then js_round (p / inject_Z 10)%Q else 0.

(** C3's words: [floor(percentage / 10)] when positive. *)
Definition claim_floor_progress_points (task : Task) : Z :=
  let p := percentage (progress task) in
  if Qltb 0 p then Qfloor (p / inject_Z 10)%Q else 0.

(** The scenario task: completed on 2024-01-09 (UTC), due 2024-01-10,
    estimated 5 hours, employee 7 tracked 4 hours, no progress recorded. *)
Definition scenario_task : Task :=
  mkTask [mkAssignee 7 primary 1704067200000] 9 COMPLETED
         (mkProgress development 0) 1704844800000 (Some 1704067200000)
         (Some 1704758400000) (Some 5%Q)
         [mkTT 7 14400000 [mkSession (Some 1704067200000) 1704081600000 14400000 EmptyString]
               false None 1704081600000]
         [] 1704067200000 None false COMPLETED.

(** A task in progress at 15 percent, assigned to employee 3. *)
Definition progress15_task : Task :=
  mkTask [mkAssignee 3 primary 0] 9 IN_PROGRESS (mkProgress development (15 # 1))
         1000 (Some 0) None None [] [] 10 None false IN_PROGRESS.

(** A sample local calendar: the date (y, m, d) numbered as [yyyymmdd]. *)
Definition demo_local_date (y m d : Z) : Z := y * 10000 + m * 100 + d.

(** The effect of one iteration of the completion loop on an entry. *)
Definition complete_entry (now : Z) (e : TimeTracking) : TimeTracking :=
  if isActive e then stop_entry now "Task completed"%string e else e.

(** The state of the completion loop after [i] iterations over the ledger [l0]. *)
Definition loop_inv (now : Z) (l0 : list TimeTracking) (i : nat) (s : St) : Prop :=
  timeTracking (cur s) = map (complete_entry now) (firstn i l0) ++ skipn i l0 /\
  status (cur s) = COMPLETED /\ completedDate (cur s) = Some now /\
  progress (cur s) = mkProgress completed 100.

(** * Theorems *)

(** ** Pre-save hooks *)

Ltac split_ifs :=
  repeat match goal with
         | |- context [if ?b then _ else _] => destruct b
         | |- context [match ?o with Some _ => _ | None => _ end] => destruct o
         end.

Lemma status_preSaveHistory (now : Z) (t : Task) :
  status (preSaveHistory now t) = status t.
Proof. unfold preSaveHistory; split_ifs; reflexivity. Qed.

Lemma dueDate_preSaveHistory (now : Z) (t : Task) :
  dueDate (preSaveHistory now t) = dueDate t.
Proof. unfold preSaveHistory; split_ifs; reflexivity. Qed.

Lemma status_save_doc (now : Z) (t : Task) :
  status (save_doc now t) =
  if (dueDate t <? now) && negb (status_eqb (status t) COMPLETED)
     && negb (status_eqb (status t) CANCELLED) && negb (status_eqb (status t) OVERDUE)
  then OVERDUE else status t.
Proof.
  unfold save_doc, preSaveOverdue.
  rewrite status_preSaveHistory, dueDate_preSaveHistory.
  destruct (_ && _ && _ && _); [reflexivity|].
  exact (status_preSaveHistory now t).
Qed.

Lemma save_docs_overdue_stays (nows : list Z) (t : Task) :
  status t = OVERDUE -> status (save_docs nows t) = OVERDUE.
Proof.
  revert t; induction nows as [|n nows IH]; intros t Ht; [exact Ht|].
  simpl. apply IH. rewrite status_save_doc, Ht.
  destruct (dueDate t <? n); reflexivity.
Qed.

Lemma save_docs_final_stays (nows : list Z) (t : Task) :
  status t = COMPLETED \/ status t = CANCELLED -> status (save_docs nows t) = status t.
Proof.
  revert t; induction nows as [|n nows IH]; intros t Ht; [reflexivity|].
  simpl. rewrite IH.
  - rewrite status_save_doc. destruct Ht as [Ht|Ht]; rewrite Ht;
      destruct (dueDate t <? n); reflexivity.
  - rewrite status_save_doc. destruct Ht as [Ht|Ht]; rewrite Ht;
      destruct (dueDate t <? n); auto.
Qed.

(** C6: every save turns a task whose due date has passed and whose status is
    not completed, cancelled or overdue into an overdue task and leaves every
    other status as it is; a pending task past its due date becomes overdue on
    its first save and stays overdue on every later save; a completed or
    cancelled task keeps its status over any sequence of saves. *)
Theorem overdue_recomputation_on_save :
  (forall (now : Z) (t : Task),
      status (save_doc now t) =
      if (dueDate t <? now) && negb (status_eqb (status t) COMPLETED)
         && negb (status_eqb (status t) CANCELLED) && negb (status_eqb (status t) OVERDUE)
      then OVERDUE else status t) /\
  (forall (now : Z) (nows : list Z) (t : Task),
      status t = PENDING -> dueDate t < now ->
      status (save_doc now t) = OVERDUE /\
      status (save_docs nows (save_doc now t)) = OVERDUE) /\
  (forall (nows : list Z) (t : Task),
      status t = COMPLETED \/ status t = CANCELLED ->
      status (save_docs nows t) = status t).
Proof.
  split; [exact status_save_doc|split].
  - intros now nows t Hp Hd.
    assert (H1 : status (save_doc now t) = OVERDUE).
    { rewrite status_save_doc, Hp. apply Z.ltb_lt in Hd. rewrite Hd. reflexivity. }
    split; [exact H1|]. apply save_docs_overdue_stays; exact H1.
  - exact save_docs_final_stays.
Qed.

(** ** Performance scoring *)

Lemma weighted_score_spec (p : Performance.Performance)
  (Ha : 0 <= Performance.tasksAssigned p) (Hw : 0 <= Performance.totalWorkingDays p)
  (Hc : 0 <= Performance.salesCalls p) :
  (Performance.weighted_score p == spec_weighted p)%Q.
Proof.
  unfold Performance.weighted_score, spec_weighted, spec_taskCompletionRate,
    spec_attendanceRate, spec_onTimeRate, spec_salesConversionRate,
    Performance.taskCompletionRate, Performance.attendanceRate,
    Performance.salesConversionRate.
  destruct (Z.ltb_spec 0 (Performance.tasksAssigned p)) as [Ha1|Ha1];
  destruct (Z.eqb_spec (Performance.tasksAssigned p) 0) as [Ha2|Ha2]; try lia;
  destruct (Z.ltb_spec 0 (Performance.totalWorkingDays p)) as [Hw1|Hw1];
  destruct (Z.eqb_spec (Performance.totalWorkingDays p) 0) as [Hw2|Hw2]; try lia;
  destruct (Z.ltb_spec 0 (Performance.salesCalls p)) as [Hc1|Hc1];
  destruct (Z.eqb_spec (Performance.salesCalls p) 0) as [Hc2|Hc2]; try lia;
  ring.
Qed.

Lemma zero_or_eq_add (x y z : float) : zero_or_eq x y -> zero_or_eq (x + z)%float (y + z)%float.
Proof.
  unfold zero_or_eq. rewrite !add_spec. intros [H|(a & b & Ha & Hb)].
  - left. rewrite H. reflexivity.
  - rewrite Ha, Hb. unfold SF64add. destruct (Prim2SF z) as [c| c| |c m e]; cbn.
    + right. destruct a, b, c; cbn; eauto.
    + left; reflexivity.
    + left; reflexivity.
    + left; reflexivity.
Qed.

Lemma zero_or_eq_0_add (x : float) : zero_or_eq (0 + x)%float x.
Proof.
  unfold zero_or_eq. rewrite add_spec. change (Prim2SF 0%float) with (S754_zero false).
  unfold SF64add. destruct (Prim2SF x) as [c| c| |c m e]; cbn.
  - right. destruct c; cbn; eauto.
  - left; reflexivity.
  - left; reflexivity.
  - left; reflexivity.
Qed.

Lemma zero_or_eq_f2q (x y : float) : zero_or_eq x y -> f2q x = f2q y.
Proof.
  unfold f2q. intros [H|(a & b & Ha & Hb)]; [rewrite H; reflexivity|rewrite Ha, Hb; reflexivity].
Qed.

Lemma ltb_0_nonneg (x : Z) : 0 <= x -> (0 <? x) = negb (x =? 0).
Proof. intros H. destruct (Z.ltb_spec 0 x), (Z.eqb_spec x 0); simpl; lia || reflexivity. Qed.

(** C7 (corrected): the overall score that [calculateOverallScore] stores,
    computed in doubles as in [Performance.calculateOverallScore_f], is
    [Math.round] of taskCompletionRate*0.30 + attendanceRate*0.25 +
    onTimeRate*0.20, plus salesConversionRate*0.25 only when salesCalls > 0,
    with no renormalisation; the rates default to 0 on a zero denominator
    except onTimeRate, which is 100 when tasksAssigned = 0.  Every rate,
    product and sum is a double, the sum taken from left to right, so the
    result is the rounding of that double sum, which may differ from the
    rounding of the exact sum.  The denominators are counts, hence not
    negative. *)
Theorem overallScore_double_formula (p : Performance.Performance)
  (Ha : 0 <= Performance.tasksAssigned p) (Hw : 0 <= Performance.totalWorkingDays p)
  (Hc : 0 <= Performance.salesCalls p) :
  Performance.overallScore (Performance.calculateOverallScore_f p)
  = js_round (f2q (spec_weighted_f p)).
Proof.
  cbn [Performance.overallScore Performance.calculateOverallScore_f]. f_equal.
  apply zero_or_eq_f2q.
  unfold Performance.weighted_score_f, spec_weighted_f, Performance.taskCompletionRate_f,
    Performance.attendanceRate_f, Performance.salesConversionRate_f, spec_taskCompletionRate_f,
    spec_attendanceRate_f, spec_onTimeRate_f, spec_salesConversionRate_f.
  rewrite (ltb_0_nonneg _ Ha), (ltb_0_nonneg _ Hw), (ltb_0_nonneg _ Hc).
  destruct (Performance.tasksAssigned p =? 0), (Performance.totalWorkingDays p =? 0),
    (Performance.salesCalls p =? 0); cbn [negb];
    repeat apply zero_or_eq_add; apply zero_or_eq_0_add.
Qed.

Lemma overallScore_double_formula_witness :
  0 <= Performance.tasksAssigned (perf_all 1 0 1 1 3 6 1) /\
  0 <= Performance.totalWorkingDays (perf_all 1 0 1 1 3 6 1) /\
  0 <= Performance.salesCalls (perf_all 1 0 1 1 3 6 1) /\
  Performance.overallScore (Performance.calculateOverallScore_f (perf_all 1 0 1 1 3 6 1))
  = js_round (f2q (spec_weighted_f (perf_all 1 0 1 1 3 6 1))).
Proof.
  split; [simpl; lia|]. split; [simpl; lia|]. split; [simpl; lia|].
  apply (overallScore_double_formula (perf_all 1 0 1 1 3 6 1)); simpl; lia.
Defined.

(** C7, counterexample: one task assigned and overdue, none completed,
    attendance 1 of 3 days, 1 conversion of 6 sales calls.  The exact
    weighted sum is 100/12 + 100/24 = 12.5, which the stated formula rounds to
    13; in double arithmetic the sum is just below 12.5 and the stored
    overall score is 12. *)
Lemma overallScore_exact_counterexample :
  Performance.overallScore (Performance.calculateOverallScore_f (perf_all 1 0 1 1 3 6 1)) = 12 /\
  (spec_weighted (perf_all 1 0 1 1 3 6 1) == 25 # 2)%Q /\
  js_round (spec_weighted (perf_all 1 0 1 1 3 6 1)) = 13.
Proof. split; [|split]; vm_compute; reflexivity. Qed.

(** C8: the grade is the spec's threshold table applied to the rounded
    overall score; a record whose weighted score is exactly 94.999 gets the
    overall score 95 and grade A+, and an overall score of 94 gives A. *)
Theorem grade_from_rounded_score :
  (forall p : Performance.Performance,
      Performance.grade (Performance.calculateOverallScore p)
      = spec_grade (Performance.overallScore (Performance.calculateOverallScore p))) /\
  (Performance.weighted_score (perf_all 10 10 0 20 20 25000 19999) == 94999 # 1000)%Q /\
  Performance.overallScore (Performance.calculateOverallScore (perf_all 10 10 0 20 20 25000 19999)) = 95 /\
  Performance.grade (Performance.calculateOverallScore (perf_all 10 10 0 20 20 25000 19999)) = "A+"%string /\
  Performance.grade_of 94 = "A"%string.
Proof.
  split; [intros p; reflexivity|].
  repeat split; vm_compute; reflexivity.
Qed.

(** ** Performance-based employee of the month *)

Lemma best_of_first_max (rest : list Performance.Performance) :
  forall (best : Performance.Performance) (pre post : list Performance.Performance),
    Forall (fun q => Performance.overallScore q < Performance.overallScore best) pre ->
    Forall (fun q => Performance.overallScore q <= Performance.overallScore best) post ->
    exists pre' post',
      pre ++ best :: post ++ rest = pre' ++ Performance.best_of best rest :: post' /\
      Forall (fun q => Performance.overallScore q
                       < Performance.overallScore (Performance.best_of best rest)) pre' /\
      Forall (fun q => Performance.overallScore q
                       <= Performance.overallScore (Performance.best_of best rest)) post'.
Proof.
  induction rest as [|x rest IH]; intros best pre post Hpre Hpost.
  - exists pre, post. rewrite app_nil_r. auto.
  - change (Performance.best_of best (x :: rest)) with
      (Performance.best_of (if Performance.overallScore best <? Performance.overallScore x
                            then x else best) rest).
    destruct (Z.ltb_spec (Performance.overallScore best) (Performance.overallScore x)) as [Hlt|Hge].
    + destruct (IH x (pre ++ best :: post) [])
        as (pre' & post' & Heq & H1 & H2).
      * apply Forall_app; split.
        -- eapply Forall_impl; [|exact Hpre]. simpl; intros; lia.
        -- constructor; [lia|]. eapply Forall_impl; [|exact Hpost]. simpl; intros; lia.
      * constructor.
      * exists pre', post'. split; [|split; assumption].
        rewrite <- Heq. simpl. rewrite <- app_assoc. reflexivity.
    + destruct (IH best pre (post ++ [x]))
        as (pre' & post' & Heq & H1 & H2); [exact Hpre| |].
      * apply Forall_app; split; [exact Hpost|]. constructor; [lia|constructor].
      * exists pre', post'. split; [|split; assumption].
        rewrite <- Heq. rewrite <- app_assoc. reflexivity.
Qed.

(** C10: the controller answers with [Performance.calculateEmployeeOfTheMonth]
    (no task-based ranking is involved); that function looks only at active
    monthly records whose window lies between [new Date(year, month - 1, 1)]
    and [new Date(year, month, 0)], returns null exactly when there is none,
    and otherwise returns a record of maximal stored overallScore such that
    every record fetched before it scores strictly less (the earliest one on
    ties). *)
Theorem performance_employee_of_month :
  forall (local_date : Z -> Z -> Z -> Z) (month year : Z) (store : list Performance.Performance),
    (month <> 0 -> year <> 0 ->
     PerformanceController_calculateEmployeeOfTheMonth local_date month year store
     = match Performance.calculateEmployeeOfTheMonth local_date month year store with
       | None => NotFound
       | Some p => Ok p
       end) /\
    (forall q, In q (Performance.month_query local_date month year store) <->
               In q store /\ Performance.period q = Performance.monthly /\
               local_date year (month - 1) 1 <= Performance.startDate q /\
               Performance.endDate q <= local_date year month 0 /\
               Performance.isActive q = true) /\
    (Performance.calculateEmployeeOfTheMonth local_date month year store = None <->
     Performance.month_query local_date month year store = []) /\
    (forall b, Performance.calculateEmployeeOfTheMonth local_date month year store = Some b ->
     exists pre post,
       Performance.month_query local_date month year store = pre ++ b :: post /\
       Forall (fun q => Performance.overallScore q < Performance.overallScore b) pre /\
       Forall (fun q => Performance.overallScore q <= Performance.overallScore b) post).
Proof.
  intros local_date month year store. split; [|split; [|split]].
  - intros Hm Hy. unfold PerformanceController_calculateEmployeeOfTheMonth.
    apply Z.eqb_neq in Hm, Hy. rewrite Hm, Hy. reflexivity.
  - intros q. unfold Performance.month_query. rewrite filter_In.
    destruct (Performance.period q); simpl;
    repeat rewrite Bool.andb_true_iff; rewrite ?Z.leb_le;
    intuition (try discriminate; try congruence).
  - unfold Performance.calculateEmployeeOfTheMonth.
    destruct (Performance.month_query local_date month year store); split; congruence.
  - intros b. unfold Performance.calculateEmployeeOfTheMonth.
    destruct (Performance.month_query local_date month year store) as [|p0 rest]; [discriminate|].
    intros Hb. injection Hb as <-.
    destruct (best_of_first_max rest p0 [] [] (Forall_nil _) (Forall_nil _))
      as (pre & post & Heq & H1 & H2).
    exists pre, post. split; [exact Heq|split; assumption].
Qed.


(** ** Time-tracking ledger *)

Lemma timeTracking_save_doc (now : Z) (t : Task) :
  timeTracking (save_doc now t) = timeTracking t.
Proof.
  unfold save_doc, preSaveOverdue, preSaveHistory.
  split_ifs; reflexivity.
Qed.

Lemma timeTracking_hooks (now : Z) (t : Task) :
  timeTracking (preSaveOverdue now (preSaveHistory now t)) = timeTracking t.
Proof.
  unfold preSaveOverdue, preSaveHistory.
  split_ifs; reflexivity.
Qed.

Lemma assignedTo_save_doc (now : Z) (t : Task) :
  assignedTo (save_doc now t) = assignedTo t.
Proof.
  unfold save_doc, preSaveOverdue, preSaveHistory.
  split_ifs; reflexivity.
Qed.

Lemma Forall_update_first (P : TimeTracking -> Prop) (u : Z) (f : TimeTracking -> TimeTracking)
  (l : list TimeTracking) :
  (forall e, P e -> P (f e)) -> Forall P l -> Forall P (update_first u f l).
Proof.
  intros Hf Hl. induction Hl as [|e l He Hl IH]; simpl; [constructor|].
  destruct (tt_user e =? u); constructor; auto.
Qed.

Lemma find_tt_update_first (u : Z) (f : TimeTracking -> TimeTracking) (l : list TimeTracking) :
  (forall e, tt_user (f e) = tt_user e) ->
  find_tt u (update_first u f l) = option_map f (find_tt u l).
Proof.
  intros Hf. induction l as [|e l IH]; simpl; [reflexivity|].
  destruct (tt_user e =? u) eqn:He; simpl.
  - rewrite Hf, He. reflexivity.
  - rewrite He. exact IH.
Qed.

Lemma map_update_first {B} (g : TimeTracking -> B) (u : Z) (f : TimeTracking -> TimeTracking)
  (l : list TimeTracking) :
  (forall e, g (f e) = g e) -> map g (update_first u f l) = map g l.
Proof.
  intros Hf. induction l as [|e l IH]; simpl; [reflexivity|].
  destruct (tt_user e =? u); simpl; rewrite ?Hf, ?IH; reflexivity.
Qed.

Lemma find_tt_app_none (u : Z) (l : list TimeTracking) (e : TimeTracking) :
  find_tt u l = None -> tt_user e = u -> find_tt u (l ++ [e]) = Some e.
Proof.
  intros Hn He. induction l as [|x l IH]; simpl in *.
  - rewrite He, Z.eqb_refl. reflexivity.
  - destruct (tt_user x =? u); [discriminate|]. auto.
Qed.

Lemma sum_durations_app (l1 l2 : list Session) :
  sum_durations (l1 ++ l2) = sum_durations l1 + sum_durations l2.
Proof. induction l1 as [|x l1 IH]; simpl; lia. Qed.

Lemma entry_ok_start (now : Z) (e : TimeTracking) : entry_ok e -> entry_ok (start_entry now e).
Proof. unfold entry_ok; simpl; auto. Qed.

Lemma entry_ok_stop (now : Z) (nts : string) (e : TimeTracking) :
  entry_ok e -> entry_ok (stop_entry now nts e).
Proof.
  unfold entry_ok, stop_entry; simpl. intros H.
  rewrite sum_durations_app. simpl. lia.
Qed.

Lemma reload_same (s0 s1 : St) : db s1 = db s0 -> reload s0 s1 = s0.
Proof. intros H. unfold reload. rewrite H, Nat.eqb_refl. reflexivity. Qed.

(** The outcome of [startTimeTracking] when it succeeds. *)
Lemma startTimeTracking_shape (now u : Z) (s : St) (x : unit) (s' : St) :
  startTimeTracking now u s = inr (x, s') ->
  is_assigned u (cur s) = true /\ assignedTo (cur s') = assignedTo (cur s) /\
  db s' = cur s' :: db s /\
  (forall e, find_tt u (timeTracking (cur s)) = Some e -> isActive e = false) /\
  timeTracking (cur s') =
    match find_tt u (timeTracking (cur s)) with
    | Some _ => update_first u (start_entry now) (timeTracking (cur s))
    | None => timeTracking (cur s) ++ [new_tt u now]
    end.
Proof.
  unfold startTimeTracking, bind, get_task, throw, put_task, save; simpl.
  destruct (is_assigned u (cur s)) eqn:Hia; simpl; [|discriminate].
  destruct (find_tt u (timeTracking (cur s))) as [e|] eqn:Hf.
  - destruct (isActive e) eqn:Ha; [discriminate|].
    intros H; injection H as <- <-; cbn [cur db].
    rewrite timeTracking_save_doc, assignedTo_save_doc.
    split; [reflexivity|].
    destruct (status_eqb _ PENDING); cbn [set_status set_timeTracking timeTracking assignedTo];
      (split; [reflexivity|split; [reflexivity|split; [|reflexivity]]]);
      intros e' He'; injection He' as <-; exact Ha.
  - intros H; injection H as <- <-; cbn [cur db].
    rewrite timeTracking_save_doc, assignedTo_save_doc.
    split; [reflexivity|].
    destruct (status_eqb _ PENDING); cbn [set_status set_timeTracking timeTracking assignedTo];
      (split; [reflexivity|split; [reflexivity|split; [|reflexivity]]]);
      intros e' He'; discriminate.
Qed.

Lemma startTimeTracking_err (now u : Z) (s : St) (err : TaskError) (s1 : St) :
  startTimeTracking now u s = inl (err, s1) -> s1 = s.
Proof.
  unfold startTimeTracking, bind, get_task, throw, put_task, save; simpl.
  destruct (is_assigned u (cur s)); simpl; [|intros H; injection H as _ <-; reflexivity].
  destruct (find_tt u (timeTracking (cur s))) as [e|];
    [destruct (isActive e); [intros H; injection H as _ <-; reflexivity|]|];
    discriminate.
Qed.

(** The outcome of [stopTimeTracking] when it succeeds. *)
Lemma stopTimeTracking_shape (now u : Z) (nts : string) (s : St) (x : unit) (s' : St) :
  stopTimeTracking now u nts s = inr (x, s') ->
  (exists e st, find_tt u (timeTracking (cur s)) = Some e /\ isActive e = true /\
                currentSessionStart e = Some st) /\
  assignedTo (cur s') = assignedTo (cur s) /\ db s' = cur s' :: db s /\
  timeTracking (cur s') = update_first u (stop_entry now nts) (timeTracking (cur s)).
Proof.
  unfold stopTimeTracking, bind, get_task, throw, put_task, save; simpl.
  destruct (find_tt u (timeTracking (cur s))) as [e|] eqn:Hf; [|discriminate].
  destruct (isActive e) eqn:Ha; simpl; [|discriminate].
  destruct (currentSessionStart e) as [st|] eqn:Hst; [|discriminate].
  intros H; injection H as <- <-; cbn [cur db].
  rewrite timeTracking_save_doc, assignedTo_save_doc.
  split; [exists e, st; auto|]. auto.
Qed.

Lemma stopTimeTracking_err (now u : Z) (nts : string) (s : St) (err : TaskError) (s1 : St) :
  stopTimeTracking now u nts s = inl (err, s1) ->
  db s1 = db s /\ assignedTo (cur s1) = assignedTo (cur s).
Proof.
  unfold stopTimeTracking, bind, get_task, throw, put_task, save; simpl.
  destruct (find_tt u (timeTracking (cur s))) as [e|]; [|intros H; injection H as _ <-; auto].
  destruct (isActive e); simpl; [|intros H; injection H as _ <-; auto].
  destruct (currentSessionStart e); [discriminate|].
  intros H; injection H as _ <-. cbn [cur db]. auto.
Qed.

Lemma run_call_err (c : TrackingCall) (s : St) (err : TaskError) (s1 : St) :
  run_call c s = inl (err, s1) -> reload s s1 = s.
Proof.
  destruct c as [now u|now u nts]; simpl; intros H; apply reload_same.
  - rewrite (startTimeTracking_err _ _ _ _ _ H). reflexivity.
  - exact (proj1 (stopTimeTracking_err _ _ _ _ _ _ H)).
Qed.

Lemma ledger_ok_run_call (c : TrackingCall) (s : St) :
  ledger_ok (cur s) ->
  ledger_ok (cur (match run_call c s with inl (_, s1) => reload s s1 | inr (_, s') => s' end)).
Proof.
  intros Hok. destruct (run_call c s) as [[err s1]|[[] s']] eqn:Hc;
    [rewrite (run_call_err _ _ _ _ Hc); exact Hok|].
  destruct c as [now u|now u nts]; simpl in Hc.
  - destruct (startTimeTracking_shape _ _ _ _ _ Hc) as (_ & _ & _ & _ & Htt).
    unfold ledger_ok. rewrite Htt.
    destruct (find_tt u (timeTracking (cur s))).
    + apply Forall_update_first; [exact (entry_ok_start now)|exact Hok].
    + apply Forall_app; split; [exact Hok|]. constructor; [reflexivity|constructor].
  - destruct (stopTimeTracking_shape _ _ _ _ _ _ Hc) as (_ & _ & _ & Htt).
    unfold ledger_ok. rewrite Htt. apply Forall_update_first; [exact (entry_ok_stop now nts)|].
    exact Hok.
Qed.

(** C4: over any sequence of start/stop calls, failed ones included, every
    ledger entry's totalTimeSpent stays the sum of its closed sessions'
    durations.  A successful start changes no entry's totalTimeSpent: an
    existing (inactive) entry of the user becomes active with
    currentSessionStart the start instant, and a user without an entry gets
    a new inactive one with no sessions and total 0.  A successful stop
    needs an active entry with a recorded currentSessionStart; it appends a
    session whose duration is the stop instant minus currentSessionStart
    (its notes trimmed), adds that duration to the total and clears isActive
    and currentSessionStart. *)
Theorem ledger_total_is_sum_of_sessions :
  (forall (cs : list TrackingCall) (s : St),
      ledger_ok (cur s) -> ledger_ok (cur (run_calls cs s))) /\
  (forall (now u : Z) (s s' : St),
      startTimeTracking now u s = inr (tt, s') ->
      map totalTimeSpent (timeTracking (cur s'))
      = map totalTimeSpent (timeTracking (cur s))
        ++ match find_tt u (timeTracking (cur s)) with Some _ => [] | None => [0] end /\
      match find_tt u (timeTracking (cur s)) with
      | Some e =>
          exists e', find_tt u (timeTracking (cur s')) = Some e' /\
            totalTimeSpent e' = totalTimeSpent e /\ sessions e' = sessions e /\
            isActive e' = true /\ currentSessionStart e' = Some now
      | None => find_tt u (timeTracking (cur s')) = Some (mkTT u 0 [] false None now)
      end) /\
  (forall (now u : Z) (nts : string) (e : TimeTracking) (s s' : St),
      find_tt u (timeTracking (cur s)) = Some e ->
      stopTimeTracking now u nts s = inr (tt, s') ->
      exists st e', currentSessionStart e = Some st /\
        find_tt u (timeTracking (cur s')) = Some e' /\
        sessions e' = sessions e ++ [mkSession (Some st) now (now - st) (js_trim nts)] /\
        totalTimeSpent e' = totalTimeSpent e + (now - st) /\
        isActive e' = false /\ currentSessionStart e' = None).
Proof.
  split; [|split].
  - induction cs as [|c cs IH]; intros s Hok; simpl; [exact Hok|].
    apply IH. apply ledger_ok_run_call. exact Hok.
  - intros now u s s' H. destruct (startTimeTracking_shape _ _ _ _ _ H) as (_ & _ & _ & _ & Htt).
    rewrite Htt.
    destruct (find_tt u (timeTracking (cur s))) as [e|] eqn:Hf.
    + split; [rewrite map_update_first, app_nil_r by reflexivity; reflexivity|].
      rewrite find_tt_update_first by reflexivity. rewrite Hf.
      exists (start_entry now e). auto 6.
    + split; [rewrite map_app; reflexivity|].
      exact (find_tt_app_none u _ (new_tt u now) Hf eq_refl).
  - intros now u nts e s s' He H.
    destruct (stopTimeTracking_shape _ _ _ _ _ _ H) as ((e0 & st & He0 & _ & Hst) & _ & _ & Htt).
    rewrite He in He0. injection He0 as <-.
    rewrite Htt, find_tt_update_first by reflexivity. rewrite He.
    exists st, (stop_entry now nts e). unfold stop_entry; cbn. rewrite Hst. cbn. auto 6.
Qed.

(** ** Assignee roster *)

Lemma filter_update_first (u : Z) (f : TimeTracking -> TimeTracking) (l : list TimeTracking) :
  (forall e, tt_user (f e) = tt_user e) ->
  filter (fun e => negb (tt_user e =? u)) (update_first u f l)
  = filter (fun e => negb (tt_user e =? u)) l.
Proof.
  intros Hf. induction l as [|e l IH]; simpl; [reflexivity|].
  destruct (tt_user e =? u) eqn:He; simpl.
  - rewrite Hf, He. reflexivity.
  - rewrite He. simpl. rewrite IH. reflexivity.
Qed.

Lemma assignedTo_hooks (now : Z) (t : Task) :
  assignedTo (preSaveOverdue now (preSaveHistory now t)) = assignedTo t.
Proof.
  unfold preSaveOverdue, preSaveHistory.
  split_ifs; reflexivity.
Qed.

Lemma bind_inr {A B} (m : M A) (k : A -> M B) (s s1 : St) (a : A) :
  m s = inr (a, s1) -> bind m k s = k a s1.
Proof. intros H. unfold bind. rewrite H. reflexivity. Qed.

Lemma bind_inl {A B} (m : M A) (k : A -> M B) (s s1 : St) (err : TaskError) :
  m s = inl (err, s1) -> bind m k s = inl (err, s1).
Proof. intros H. unfold bind. rewrite H. reflexivity. Qed.

Lemma stopTimeTracking_run (now u : Z) (nts : string) (s : St) (e : TimeTracking) (st : Z) :
  find_tt u (timeTracking (cur s)) = Some e -> isActive e = true ->
  currentSessionStart e = Some st ->
  let t1 := set_timeTracking (update_first u (stop_entry now nts) (timeTracking (cur s))) (cur s) in
  stopTimeTracking now u nts s = inr (tt, mkSt (save_doc now t1) (save_doc now t1 :: db s)).
Proof.
  intros Hf Ha Hst. unfold stopTimeTracking, bind, get_task, put_task, save.
  rewrite Hf, Ha. simpl. rewrite Hst. reflexivity.
Qed.

Lemma stopTimeTracking_nostart (now u : Z) (nts : string) (s : St) (e : TimeTracking) :
  find_tt u (timeTracking (cur s)) = Some e -> isActive e = true ->
  currentSessionStart e = None ->
  stopTimeTracking now u nts s
  = inl (ValidationError,
         mkSt (set_timeTracking (update_first u (stop_entry now nts) (timeTracking (cur s))) (cur s))
              (db s)).
Proof.
  intros Hf Ha Hst. unfold stopTimeTracking, bind, get_task, put_task, throw.
  rewrite Hf, Ha. simpl. rewrite Hst. reflexivity.
Qed.

Lemma removeAssignee_tail (now u : Z) (s1 : St) :
  let t2 := set_timeTracking (filter (fun e => negb (tt_user e =? u)) (timeTracking (cur s1)))
              (set_assignedTo (filter (fun a => negb (a_user a =? u)) (assignedTo (cur s1))) (cur s1)) in
  (t' <- get_task ;;
   put_task (set_timeTracking (filter (fun e => negb (tt_user e =? u)) (timeTracking t'))
               (set_assignedTo (filter (fun a => negb (a_user a =? u)) (assignedTo t')) t')) ;;
   save now) s1
  = inr (tt, mkSt (save_doc now t2) (save_doc now t2 :: db s1)).
Proof. reflexivity. Qed.

Lemma save_doc_fields (now : Z) (t : Task) :
  timeTracking (save_doc now t) = timeTracking t /\ assignedTo (save_doc now t) = assignedTo t.
Proof. unfold save_doc, preSaveOverdue, preSaveHistory; split_ifs; split; reflexivity. Qed.

(** C9: on a roster of at most one assignee [removeAssignee] throws
    LastAssigneeError with nothing changed or saved.  On a roster of two or
    more, when the user's ledger entry is not active, or active with a
    recorded currentSessionStart, it succeeds: an active session of the
    removed user is first closed with the note "Removed from task" and that
    state saved, and then every roster entry and ledger entry of that user is
    deleted.  When the entry is active without a currentSessionStart, the
    closing save fails validation (the session's startTime is required):
    [removeAssignee] throws and the stored task is unchanged. *)
Theorem removeAssignee_roster :
  (forall (now u : Z) (s : St),
      (List.length (assignedTo (cur s)) <= 1)%nat ->
      removeAssignee now u s = inl (LastAssigneeError, s)) /\
  (forall (now u : Z) (s : St),
      (2 <= List.length (assignedTo (cur s)))%nat ->
      (forall e, find_tt u (timeTracking (cur s)) = Some e -> isActive e = true ->
                 currentSessionStart e <> None) ->
      exists s', removeAssignee now u s = inr (tt, s') /\
        assignedTo (cur s') = filter (fun a => negb (a_user a =? u)) (assignedTo (cur s)) /\
        timeTracking (cur s') = filter (fun e => negb (tt_user e =? u)) (timeTracking (cur s)) /\
        match find_tt u (timeTracking (cur s)) with
        | Some e =>
            if isActive e then
              exists tmid, db s' = cur s' :: tmid :: db s /\
                find_tt u (timeTracking tmid)
                = Some (stop_entry now "Removed from task"%string e)
            else db s' = cur s' :: db s
        | None => db s' = cur s' :: db s
        end) /\
  (forall (now u : Z) (s : St) (e : TimeTracking),
      (2 <= List.length (assignedTo (cur s)))%nat ->
      find_tt u (timeTracking (cur s)) = Some e -> isActive e = true ->
      currentSessionStart e = None ->
      exists s1, removeAssignee now u s = inl (ValidationError, s1) /\ reload s s1 = s).
Proof.
  split; [|split].
  - intros now u s Hlen. unfold removeAssignee, bind, get_task, throw.
    apply Nat.leb_le in Hlen. rewrite Hlen. reflexivity.
  - intros now u s Hlen Hstart.
    assert (Hl : Nat.leb (List.length (assignedTo (cur s))) 1 = false)
      by (apply Nat.leb_gt; lia).
    unfold removeAssignee. rewrite (bind_inr _ _ s s (cur s) eq_refl). rewrite Hl.
    destruct (find_tt u (timeTracking (cur s))) as [e|] eqn:Hf.
    + destruct (isActive e) eqn:Ha.
      * destruct (currentSessionStart e) as [st|] eqn:Hst;
          [|exfalso; exact (Hstart e eq_refl Ha Hst)].
        rewrite (bind_inr _ _ _ _ tt (stopTimeTracking_run now u "Removed from task"%string s e st Hf Ha Hst)).
        rewrite removeAssignee_tail.
        eexists. split; [reflexivity|]. cbn [cur db].
        destruct (save_doc_fields now
          (set_timeTracking (filter (fun e => negb (tt_user e =? u))
             (timeTracking (save_doc now (set_timeTracking
                (update_first u (stop_entry now "Removed from task"%string) (timeTracking (cur s)))
                (cur s)))))
           (set_assignedTo (filter (fun a => negb (a_user a =? u))
             (assignedTo (save_doc now (set_timeTracking
                (update_first u (stop_entry now "Removed from task"%string) (timeTracking (cur s)))
                (cur s))))) (save_doc now (set_timeTracking
                (update_first u (stop_entry now "Removed from task"%string) (timeTracking (cur s)))
                (cur s)))))) as [H1 H2].
        rewrite H1, H2. cbn [timeTracking assignedTo set_timeTracking set_assignedTo].
        destruct (save_doc_fields now (set_timeTracking
                (update_first u (stop_entry now "Removed from task"%string) (timeTracking (cur s)))
                (cur s))) as [H3 H4].
        rewrite H3, H4. cbn [timeTracking assignedTo set_timeTracking].
        rewrite filter_update_first by reflexivity.
        split; [reflexivity|split; [reflexivity|]].
        eexists. split; [reflexivity|].
        rewrite H3. cbn [timeTracking set_timeTracking].
        rewrite find_tt_update_first by reflexivity. rewrite Hf. reflexivity.
      * rewrite (bind_inr _ _ s s tt eq_refl), removeAssignee_tail.
        eexists. split; [reflexivity|]. cbn [cur db].
        rewrite (proj1 (save_doc_fields _ _)), (proj2 (save_doc_fields _ _)).
        cbn [timeTracking assignedTo set_timeTracking set_assignedTo]. auto.
    + rewrite (bind_inr _ _ s s tt eq_refl), removeAssignee_tail.
      eexists. split; [reflexivity|]. cbn [cur db].
      rewrite (proj1 (save_doc_fields _ _)), (proj2 (save_doc_fields _ _)).
      cbn [timeTracking assignedTo set_timeTracking set_assignedTo]. auto.
  - intros now u s e Hlen Hf Ha Hst.
    assert (Hl : Nat.leb (List.length (assignedTo (cur s))) 1 = false)
      by (apply Nat.leb_gt; lia).
    unfold removeAssignee. rewrite (bind_inr _ _ s s (cur s) eq_refl). rewrite Hl, Hf, Ha.
    rewrite (bind_inl _ _ _ _ _ (stopTimeTracking_nostart now u "Removed from task"%string s e Hf Ha Hst)).
    eexists. split; [reflexivity|]. apply reload_same. reflexivity.
Qed.

(** ** Completing a task *)

Lemma find_tt_app_notin (u : Z) (l1 l2 : list TimeTracking) :
  ~ In u (map tt_user l1) -> find_tt u (l1 ++ l2) = find_tt u l2.
Proof.
  induction l1 as [|e l1 IH]; simpl; intros Hn; [reflexivity|].
  destruct (Z.eqb_spec (tt_user e) u); [exfalso; auto|]. apply IH. auto.
Qed.

Lemma update_first_app_notin (u : Z) (f : TimeTracking -> TimeTracking) (l1 l2 : list TimeTracking) :
  ~ In u (map tt_user l1) -> update_first u f (l1 ++ l2) = l1 ++ update_first u f l2.
Proof.
  induction l1 as [|e l1 IH]; simpl; intros Hn; [reflexivity|].
  destruct (Z.eqb_spec (tt_user e) u); [exfalso; auto|]. rewrite IH; auto.
Qed.

Lemma nth_error_split_at {X} (l : list X) (i : nat) (x : X) :
  nth_error l i = Some x ->
  firstn (S i) l = firstn i l ++ [x] /\ skipn i l = x :: skipn (S i) l /\
  List.length (firstn i l) = i.
Proof.
  revert i; induction l as [|y l IH]; intros [|i] H; simpl in *; try discriminate.
  - injection H as ->. auto.
  - destruct (IH i H) as (H1 & H2 & H3). rewrite H1, H2, H3. auto.
Qed.

Lemma nodup_prefix_user (l0 : list TimeTracking) (i : nat) (e : TimeTracking)
  (g : TimeTracking -> TimeTracking) :
  (forall x, tt_user (g x) = tt_user x) ->
  NoDup (map tt_user l0) -> nth_error l0 i = Some e ->
  ~ In (tt_user e) (map tt_user (map g (firstn i l0))).
Proof.
  intros Hg Hnd Hi. rewrite map_map.
  rewrite (map_ext _ _ Hg).
  destruct (nth_error_split_at l0 i e Hi) as (_ & Hs & _).
  rewrite <- (firstn_skipn i l0), Hs, map_app in Hnd. simpl in Hnd.
  apply NoDup_remove_2 in Hnd. intros Hin. apply Hnd. apply in_or_app. now left.
Qed.

Lemma save_doc_completed (now : Z) (t : Task) :
  status t = COMPLETED -> completedDate t = Some now ->
  status (save_doc now t) = COMPLETED /\ completedDate (save_doc now t) = Some now /\
  progress (save_doc now t) = progress t /\ timeTracking (save_doc now t) = timeTracking t.
Proof.
  intros Hs Hc. unfold save_doc.
  assert (Hh : status (preSaveHistory now t) = COMPLETED)
    by (rewrite status_preSaveHistory; exact Hs).
  unfold preSaveOverdue. rewrite Hh. simpl. rewrite !Bool.andb_false_r. simpl.
  rewrite Hh. split; [reflexivity|].
  destruct t; simpl in Hs, Hc; subst.
  unfold preSaveHistory, status_isModified; simpl.
  split_ifs; simpl; auto.
Qed.

Section CompleteLoop.

Variable now : Z.
Variable l0 : list TimeTracking.
Hypothesis Hnd : NoDup (map tt_user l0).
Hypothesis Hstarts : Forall (fun e => isActive e = true -> currentSessionStart e <> None) l0.

Lemma complete_entry_user (e : TimeTracking) : tt_user (complete_entry now e) = tt_user e.
Proof. unfold complete_entry. destruct (isActive e); reflexivity. Qed.

Lemma stop_all_active_inv (n : nat) :
  forall (i : nat) (s : St), (i + n = List.length l0)%nat -> loop_inv now l0 i s ->
  exists s', stop_all_active now i n s = inr (tt, s') /\ loop_inv now l0 (List.length l0) s'.
Proof.
  induction n as [|n IH]; intros i s Hlen Hinv.
  - exists s. split; [reflexivity|]. rewrite Nat.add_0_r in Hlen. subst i. exact Hinv.
  - destruct (nth_error l0 i) as [e|] eqn:Hi;
      [|apply nth_error_None in Hi; lia].
    destruct (nth_error_split_at l0 i e Hi) as (Hf & Hs & Hl).
    destruct Hinv as (Htt & Hst & Hcd & Hpr).
    assert (Hnth : nth_error (timeTracking (cur s)) i = Some e).
    { rewrite Htt, Hs, nth_error_app2; rewrite length_map, Hl; [|lia].
      rewrite Nat.sub_diag. reflexivity. }
    assert (Hni : ~ In (tt_user e) (map tt_user (map (complete_entry now) (firstn i l0))))
      by (apply nodup_prefix_user; [exact complete_entry_user|exact Hnd|exact Hi]).
    simpl. rewrite (bind_inr _ _ s s (cur s) eq_refl). rewrite Hnth.
    destruct (isActive e) eqn:Ha.
    + assert (Hfind : find_tt (tt_user e) (timeTracking (cur s)) = Some e).
      { rewrite Htt, Hs, find_tt_app_notin by exact Hni. simpl. rewrite Z.eqb_refl. reflexivity. }
      assert (Hse : currentSessionStart e <> None)
        by (rewrite Forall_forall in Hstarts; apply (Hstarts e (nth_error_In l0 i Hi)), Ha).
      destruct (currentSessionStart e) as [st|] eqn:Hst0; [|exfalso; apply Hse; reflexivity].
      rewrite (bind_inr _ _ _ _ tt (stopTimeTracking_run now (tt_user e) _ s e st Hfind Ha Hst0)).
      apply (IH (S i)); [lia|].
      unfold loop_inv; cbn [cur].
      set (t1 := set_timeTracking _ (cur s)).
      destruct (save_doc_completed now t1) as (H1 & H2 & H3 & H4); [exact Hst|exact Hcd|].
      split; [|split; [exact H1|split; [exact H2|rewrite H3; exact Hpr]]].
      rewrite H4. unfold t1. cbn [timeTracking set_timeTracking].
      rewrite Htt, Hs, update_first_app_notin by exact Hni. cbn [update_first].
      rewrite Z.eqb_refl.
      rewrite Hf, map_app, <- app_assoc. cbn [map app].
      replace (complete_entry now e) with (stop_entry now "Task completed"%string e)
        by (unfold complete_entry; rewrite Ha; reflexivity).
      reflexivity.
    + rewrite (bind_inr _ _ s s tt eq_refl).
      apply (IH (S i)); [lia|].
      split; [|split; [exact Hst|split; [exact Hcd|exact Hpr]]].
      rewrite Htt, Hs, Hf, map_app, <- app_assoc. cbn [map app].
      replace (complete_entry now e) with e by (unfold complete_entry; rewrite Ha; reflexivity).
      reflexivity.
Qed.

End CompleteLoop.

Lemma markAsCompleted_run (now u : Z) (s : St) :
  NoDup (map tt_user (timeTracking (cur s))) ->
  Forall (fun e => isActive e = true -> currentSessionStart e <> None) (timeTracking (cur s)) ->
  exists s', markAsCompleted now u s = inr (tt, s') /\
    status (cur s') = COMPLETED /\ completedDate (cur s') = Some now /\
    currentPhase (progress (cur s')) = completed /\ percentage (progress (cur s')) = 100%Q /\
    timeTracking (cur s') = map (complete_entry now) (timeTracking (cur s)).
Proof.
  intros Hnd Hstarts. unfold markAsCompleted.
  rewrite (bind_inr _ _ s s (cur s) eq_refl).
  set (t1 := set_progress _ _).
  rewrite (bind_inr _ _ s (mkSt t1 (db s)) tt eq_refl).
  destruct (stop_all_active_inv now (timeTracking (cur s)) Hnd Hstarts
              (List.length (timeTracking t1)) 0 (mkSt t1 (db s)))
    as (s2 & Hrun & Htt & Hst & Hcd & Hpr).
  - reflexivity.
  - split; [reflexivity|]. split; [reflexivity|]. split; reflexivity.
  - rewrite (bind_inr _ _ _ _ tt Hrun).
    destruct (save_doc_completed now (cur s2) Hst Hcd) as (H1 & H2 & H3 & H4).
    eexists. split; [reflexivity|]. cbn [cur].
    rewrite H1, H2, H3, H4, Htt, Hpr. simpl.
    rewrite firstn_all, skipn_all, app_nil_r. auto.
Qed.

Lemma updateStatus_completed (now : Z) (s : St) :
  savedStatus (cur s) <> COMPLETED -> isNew (cur s) = false ->
  exists s', updateStatus now COMPLETED s = inr (tt, s') /\
    status (cur s') = COMPLETED /\ completedDate (cur s') = Some now /\
    progress (cur s') = progress (cur s).
Proof.
  intros Hsv Hn. eexists. split; [reflexivity|]. cbn [cur].
  destruct (cur s) as [a b st p d sd cd eh tt0 sh ca mb nw sv]; simpl in Hsv, Hn; subst nw.
  unfold save_doc, preSaveOverdue. rewrite status_preSaveHistory. simpl.
  rewrite !Bool.andb_false_r. simpl. rewrite status_preSaveHistory. split; [reflexivity|].
  unfold preSaveHistory, status_isModified. simpl.
  destruct sv; try (exfalso; apply Hsv; reflexivity); simpl; split; reflexivity.
Qed.

(** C5, counterexample: an explicit status update to completed.  Through
    [TaskController.updateTask] ([findByIdAndUpdate], no middleware) the
    in-progress, half-done [demo_task], with user 1 tracking time, becomes
    completed with completedDate still null, phase 'development',
    percentage 50 and user 1's session still open.  Setting the status on
    the document and saving it sets completedDate through the pre-save
    hook, but likewise stops no session and leaves the progress as it was. *)
Lemma status_update_completion_counterexample :
  match TaskController_updateTask_status 1 true COMPLETED (Some (mkSt demo_task [])) with
  | (HTTP_OK, Some s1) =>
      status (cur s1) = COMPLETED /\ completedDate (cur s1) = None /\
      currentPhase (progress (cur s1)) = development /\
      ~ (percentage (progress (cur s1)) == 100)%Q /\
      option_map isActive (find_tt 1 (timeTracking (cur s1))) = Some true
  | _ => False
  end /\
  match updateStatus 100 COMPLETED (mkSt demo_task []) with
  | inr (_, s1) =>
      status (cur s1) = COMPLETED /\ completedDate (cur s1) = Some 100 /\
      currentPhase (progress (cur s1)) = development /\
      ~ (percentage (progress (cur s1)) == 100)%Q /\
      option_map isActive (find_tt 1 (timeTracking (cur s1))) = Some true
  | inl _ => False
  end.
Proof.
  split; vm_compute; (split; [reflexivity|split; [reflexivity|split; [reflexivity|split]]]);
    solve [discriminate | reflexivity].
Qed.

(** ** Scoring engine *)

Lemma es_user_accumulate_pair (task : Task) (s : EmpScore) :
  es_user (accumulate_pair task s) = es_user s.
Proof.
  unfold accumulate_pair.
  destruct (status_eqb (status task) COMPLETED); [|destruct (status_eqb (status task) IN_PROGRESS)];
  destruct (Qltb 0 (percentage (progress task))); reflexivity.
Qed.

Lemma lookup_upd_score (u v : Z) (task : Task) (m : list EmpScore) :
  lookup_score u (upd_score v (accumulate_pair task) m)
  = if v =? u
    then Some (accumulate_pair task (match lookup_score u m with Some s => s | None => init_score u end))
    else lookup_score u m.
Proof.
  unfold lookup_score. induction m as [|x m IH]; simpl.
  - rewrite es_user_accumulate_pair. simpl.
    destruct (Z.eqb_spec v u) as [->|Hne]; [reflexivity|reflexivity].
  - destruct (Z.eqb_spec (es_user x) v) as [Hx|Hx]; simpl.
    + rewrite es_user_accumulate_pair.
      destruct (Z.eqb_spec (es_user x) u) as [Hxu|Hxu];
        destruct (Z.eqb_spec v u); try congruence; reflexivity.
    + destruct (Z.eqb_spec (es_user x) u) as [Hxu|Hxu]; [|exact IH].
      destruct (Z.eqb_spec v u); [congruence|reflexivity].
Qed.

Lemma lookup_score_user (u : Z) (m : list EmpScore) (s : EmpScore) :
  lookup_score u m = Some s -> es_user s = u.
Proof.
  unfold lookup_score. intros H. apply find_some in H. destruct H as [_ H].
  apply Z.eqb_eq. exact H.
Qed.

Section FieldAccumulation.

Variable A : Type.
Variable g : EmpScore -> A.
Variable step : Z -> A -> Task -> A.
Variable tasks : list Task.
Hypothesis Hg : forall task s, In task tasks ->
  g (accumulate_pair task s) = step (es_user s) (g s) task.

Lemma field_of_upd_score (u v : Z) (task : Task) (m : list EmpScore) :
  In task tasks ->
  field_of g u (upd_score v (accumulate_pair task) m)
  = if v =? u then step u (field_of g u m) task else field_of g u m.
Proof.
  intros Hin. unfold field_of at 1. rewrite lookup_upd_score.
  destruct (Z.eqb_spec v u) as [->|Hne]; [|reflexivity].
  rewrite Hg by exact Hin. unfold field_of.
  destruct (lookup_score u m) as [x|] eqn:Hl.
  - rewrite (lookup_score_user u m x Hl). reflexivity.
  - reflexivity.
Qed.

Lemma field_of_accumulate_task (u : Z) (task : Task) :
  In task tasks ->
  forall (assignees : list Assignee) (m : list EmpScore),
  field_of g u (fold_left (fun m a => upd_score (a_user a) (accumulate_pair task) m) assignees m)
  = fold_left (fun acc a => if a_user a =? u then step u acc task else acc) assignees (field_of g u m).
Proof.
  intros Hin assignees. induction assignees as [|a rest IH]; intros m; simpl; [reflexivity|].
  rewrite IH. rewrite field_of_upd_score by exact Hin. reflexivity.
Qed.

Lemma field_of_accumulate (u : Z) :
  forall (ts : list Task) (m : list EmpScore), incl ts tasks ->
  field_of g u (fold_left accumulate_task ts m) = pair_fold (step u) u ts (field_of g u m).
Proof.
  induction ts as [|task ts IH]; intros m Hincl; simpl; [reflexivity|].
  unfold pair_fold in *. simpl. rewrite IH by (intros x Hx; apply Hincl; right; exact Hx).
  unfold accumulate_task. rewrite field_of_accumulate_task by (apply Hincl; left; reflexivity).
  reflexivity.
Qed.

End FieldAccumulation.

Lemma find_tt_In (u : Z) (l : list TimeTracking) (e : TimeTracking) :
  find_tt u l = Some e -> In e l.
Proof.
  induction l as [|x l IH]; simpl; [discriminate|].
  destruct (tt_user x =? u); [intros H; injection H as <-; now left|].
  intros H; right; auto.
Qed.

Lemma efficient_claim (task : Task) (e : TimeTracking) (h : Q) :
  0 <= totalTimeSpent e ->
  (negb (Qeq_bool h 0) && Qltb (inject_Z (totalTimeSpent e) / inject_Z ms_per_hour)%Q h)
  = Qltb (inject_Z (totalTimeSpent e) / inject_Z ms_per_hour)%Q h.
Proof.
  intros Hnn. destruct (Qeq_bool h 0) eqn:Hh; [|reflexivity].
  apply Qeq_bool_iff in Hh. simpl. unfold Qltb.
  assert (Hle : (h <= inject_Z (totalTimeSpent e) / inject_Z ms_per_hour)%Q).
  { rewrite Hh. apply Qle_shift_div_l; [reflexivity|].
    rewrite Qmult_0_l. change 0%Q with (inject_Z 0). rewrite <- Zle_Qle. exact Hnn. }
  apply Qle_bool_iff in Hle. rewrite Hle. reflexivity.
Qed.

Lemma totalScore_accumulate_pair (task : Task) (s : EmpScore) :
  totalScore (accumulate_pair task s)
  = totalScore s + code_status_points task (es_user s) + progress_points task.
Proof.
  unfold accumulate_pair, code_status_points, progress_points.
  destruct (status_eqb (status task) COMPLETED); [|destruct (status_eqb (status task) IN_PROGRESS)];
  destruct (Qltb 0 (percentage (progress task))); cbv beta iota zeta;
  destruct (on_time task); destruct (efficient task (find_tt (es_user s) (timeTracking task)));
  cbn [totalScore]; lia.
Qed.

Lemma code_status_points_claim (task : Task) (u : Z) :
  (status task = COMPLETED \/ status task = IN_PROGRESS) ->
  Forall (fun e => 0 <= totalTimeSpent e) (timeTracking task) ->
  code_status_points task u = claim_status_points task u.
Proof.
  intros Hst Hnn. unfold code_status_points, claim_status_points, on_time, efficient.
  destruct Hst as [-> | ->]; simpl; [|reflexivity].
  assert (Hot : (if match completedDate task with
                     | Some c => c <=? dueDate task | None => false end then 30 else 10)
                = match completedDate task with
                  | Some c => if c <=? dueDate task then 30 else 10 | None => 10 end)
    by (destruct (completedDate task); reflexivity).
  rewrite Hot. clear Hot.
  destruct (estimatedHours task) as [h|]; [|reflexivity].
  destruct (find_tt u (timeTracking task)) as [e|] eqn:Hf; [|reflexivity].
  rewrite (efficient_claim task e h); [reflexivity|].
  rewrite Forall_forall in Hnn. apply Hnn. eapply find_tt_In; exact Hf.
Qed.

Lemma window_tasks_status (startD endD : Z) (store : list Task) (task : Task) :
  In task (window_tasks startD endD store) ->
  In task store /\ (status task = COMPLETED \/ status task = IN_PROGRESS).
Proof.
  unfold window_tasks. rewrite filter_In. intros [Hin Hc]. split; [exact Hin|].
  apply andb_prop in Hc. destruct Hc as [_ Hc].
  destruct (status task); simpl in Hc; try discriminate; auto.
Qed.

Lemma totalScore_accumulate (startD endD : Z) (store : list Task) (u : Z) :
  field_of totalScore u (accumulate (window_tasks startD endD store))
  = pair_fold (fun acc task => acc + code_status_points task u + progress_points task)
              u (window_tasks startD endD store) 0.
Proof.
  unfold accumulate.
  apply (field_of_accumulate Z totalScore
           (fun u acc task => acc + code_status_points task u + progress_points task)
           (window_tasks startD endD store)).
  - intros task s _. apply totalScore_accumulate_pair.
  - intros x Hx; exact Hx.
Qed.

Lemma pair_fold_ext {A} (f1 f2 : A -> Task -> A) (u : Z) (tasks : list Task) (a0 : A) :
  (forall acc task, In task tasks -> f1 acc task = f2 acc task) ->
  pair_fold f1 u tasks a0 = pair_fold f2 u tasks a0.
Proof.
  unfold pair_fold. revert a0.
  induction tasks as [|task ts IH]; intros a0 H; simpl; [reflexivity|].
  rewrite <- IH by (intros; apply H; right; assumption).
  f_equal. generalize a0. induction (assignedTo task) as [|a rest IHa]; intros acc; simpl; [reflexivity|].
  rewrite H by (left; reflexivity). destruct (a_user a =? u); apply IHa.
Qed.

Lemma averageProgress_accumulate_pair (task : Task) (s : EmpScore) :
  averageProgress (accumulate_pair task s)
  = if Qltb 0 (percentage (progress task))
    then (averageProgress s + percentage (progress task))%Q else averageProgress s.
Proof.
  unfold accumulate_pair.
  destruct (status_eqb (status task) COMPLETED); [|destruct (status_eqb (status task) IN_PROGRESS)];
  destruct (Qltb 0 (percentage (progress task))); reflexivity.
Qed.

Lemma progressCount_accumulate_pair (task : Task) (s : EmpScore) :
  progressCount (accumulate_pair task s)
  = if Qltb 0 (percentage (progress task)) then progressCount s + 1 else progressCount s.
Proof.
  unfold accumulate_pair.
  destruct (status_eqb (status task) COMPLETED); [|destruct (status_eqb (status task) IN_PROGRESS)];
  destruct (Qltb 0 (percentage (progress task))); reflexivity.
Qed.

(** C1: over the tasks of the window, each employee's totalScore is the sum,
    over the employee's task-assignee pairs, of the completion points (+50,
    then +30 when completedDate <= dueDate and +10 otherwise, then +20 when
    estimatedHours is set and the employee's ledger time in hours is below
    it), or +10 for a task in progress, plus the task's progress bonus; the
    scenario employee 7 (one completed task, completed 2024-01-09, due
    2024-01-10, estimate 5 hours, 4 hours tracked, no progress) scores 100. *)
Theorem completion_points_per_assignee (startD endD : Z) (store : list Task) (u : Z) :
  Forall (fun task => Forall (fun e => 0 <= totalTimeSpent e) (timeTracking task)) store ->
  field_of totalScore u (accumulate (window_tasks startD endD store))
  = pair_fold (fun acc task => acc + claim_status_points task u + progress_points task)
              u (window_tasks startD endD store) 0 /\
  option_map totalScore
    (employeeOfTheMonth (calculateEmployeeOfTheMonth 1704067200000 1706745599999 [scenario_task]))
  = Some 100 /\
  option_map es_user
    (employeeOfTheMonth (calculateEmployeeOfTheMonth 1704067200000 1706745599999 [scenario_task]))
  = Some 7.
Proof.
  intros Hnn. split; [|split; vm_compute; reflexivity].
  rewrite totalScore_accumulate. apply pair_fold_ext.
  intros acc task Hin. f_equal. f_equal. apply code_status_points_claim.
  - exact (proj2 (window_tasks_status startD endD store task Hin)).
  - rewrite Forall_forall in Hnn. apply Hnn.
    exact (proj1 (window_tasks_status startD endD store task Hin)).
Qed.

Lemma completion_points_per_assignee_witness :
  Forall (fun task => Forall (fun e => 0 <= totalTimeSpent e) (timeTracking task)) [scenario_task] /\
  field_of totalScore 7 (accumulate (window_tasks 1704067200000 1706745599999 [scenario_task]))
  = pair_fold (fun acc task => acc + claim_status_points task 7 + progress_points task)
              7 (window_tasks 1704067200000 1706745599999 [scenario_task]) 0.
Proof.
  assert (H : Forall (fun task => Forall (fun e => 0 <= totalTimeSpent e) (timeTracking task))
                [scenario_task]).
  { constructor; [|constructor]. constructor; [|constructor]. cbn. lia. }
  split; [exact H|].
  exact (proj1 (completion_points_per_assignee 1704067200000 1706745599999 [scenario_task] 7 H)).
Defined.

(** ** Ranking *)

Definition score_desc (a b : EmpScore) : Prop := totalScore b <= totalScore a.

Lemma insert_desc_perm (x : EmpScore) (l : list EmpScore) :
  Permutation (insert_desc x l) (x :: l).
Proof.
  induction l as [|y l IH]; simpl; [reflexivity|].
  destruct (totalScore y <? totalScore x); [reflexivity|].
  rewrite IH. apply perm_swap.
Qed.

Lemma sort_desc_perm_acc (l acc : list EmpScore) :
  Permutation (fold_left (fun acc x => insert_desc x acc) l acc) (l ++ acc).
Proof.
  revert acc. induction l as [|x l IH]; intros acc; simpl; [reflexivity|].
  rewrite IH, insert_desc_perm. symmetry. apply Permutation_middle.
Qed.

Lemma insert_desc_hdrel (x y : EmpScore) (l : list EmpScore) :
  HdRel score_desc y l -> score_desc y x -> HdRel score_desc y (insert_desc x l).
Proof.
  intros Hh Hyx. destruct l as [|z l]; simpl; [constructor; exact Hyx|].
  destruct (totalScore z <? totalScore x); constructor; [exact Hyx|].
  exact (HdRel_inv Hh).
Qed.

Lemma insert_desc_sorted (x : EmpScore) (l : list EmpScore) :
  Sorted score_desc l -> Sorted score_desc (insert_desc x l).
Proof.
  induction l as [|y l IH]; intros Hs; simpl; [repeat constructor|].
  destruct (totalScore y <? totalScore x) eqn:Hlt.
  - constructor; [exact Hs|]. constructor. unfold score_desc. apply Z.ltb_lt in Hlt. lia.
  - apply Sorted_inv in Hs. destruct Hs as [Hs Hh].
    constructor; [exact (IH Hs)|]. apply insert_desc_hdrel; [exact Hh|].
    unfold score_desc. apply Z.ltb_ge in Hlt. lia.
Qed.

Lemma sort_desc_sorted_acc (l acc : list EmpScore) :
  Sorted score_desc acc -> Sorted score_desc (fold_left (fun acc x => insert_desc x acc) l acc).
Proof.
  revert acc. induction l as [|x l IH]; intros acc Hs; simpl; [exact Hs|].
  apply IH, insert_desc_sorted, Hs.
Qed.

(** C2: [allRankings] is a permutation of the accumulated employees (after the
    post-pass, which keeps totalScore and tasksCompleted) that have
    tasksCompleted > 0, ordered by totalScore descending;
    [employeeOfTheMonth] is its first entry (none when it is empty) and
    [topPerformers] its first five entries. *)
Theorem rankings_completed_sorted (startD endD : Z) (store : list Task) :
  let scores := accumulate (window_tasks startD endD store) in
  let r := calculateEmployeeOfTheMonth startD endD store in
  Permutation (allRankings r) (filter (fun s => 0 <? tasksCompleted s) (map post_pass scores)) /\
  (forall s, In s (allRankings r) <->
     exists s0, In s0 scores /\ s = post_pass s0 /\ 0 < tasksCompleted s0) /\
  (forall s0, totalScore (post_pass s0) = totalScore s0 /\
              tasksCompleted (post_pass s0) = tasksCompleted s0 /\
              es_user (post_pass s0) = es_user s0) /\
  Sorted (fun a b => totalScore b <= totalScore a) (allRankings r) /\
  employeeOfTheMonth r = hd_error (allRankings r) /\
  (allRankings r = [] -> employeeOfTheMonth r = None) /\
  topPerformers r = firstn 5 (allRankings r) /\
  periodStart r = startD /\ periodEnd r = endD.
Proof.
  intros scores r.
  assert (Hp : Permutation (allRankings r)
                 (filter (fun s => 0 <? tasksCompleted s) (map post_pass scores))).
  { unfold r, calculateEmployeeOfTheMonth, sort_desc. cbn [allRankings].
    rewrite sort_desc_perm_acc, app_nil_r. reflexivity. }
  split; [exact Hp|]. split.
  { intros s. split.
    - intros Hin. apply (Permutation_in _ Hp) in Hin.
      apply filter_In in Hin. destruct Hin as [Hin Hc].
      apply in_map_iff in Hin. destruct Hin as (s0 & <- & Hs0).
      exists s0. split; [exact Hs0|]. split; [reflexivity|]. apply Z.ltb_lt. exact Hc.
    - intros (s0 & Hs0 & -> & Hc). apply (Permutation_in _ (Permutation_sym Hp)).
      apply filter_In. split; [apply in_map, Hs0|]. apply Z.ltb_lt. exact Hc. }
  split; [intros s0; repeat split; reflexivity|].
  split.
  { unfold r, calculateEmployeeOfTheMonth, sort_desc. cbn [allRankings].
    apply sort_desc_sorted_acc. constructor. }
  split; [reflexivity|]. split; [intros He; unfold r in *; cbn in He |- *; rewrite He; reflexivity|].
  repeat split; reflexivity.
Qed.

(** ** Progress bonus *)

Lemma js_round_tenth_bounds (p : Q) :
  (0 <= p <= 100)%Q -> 0 <= js_round (p / inject_Z 10)%Q <= 10.
Proof.
  intros [H0 H1]. unfold js_round. split.
  - change 0 with (Qfloor 0). apply Qfloor_resp_le.
    destruct p as [n d]. unfold Qlt, Qle, Qdiv, Qmult, Qplus, Qinv in *; simpl in *. nia.
  - change 10 with (Qfloor (21 # 2)). apply Qfloor_resp_le.
    destruct p as [n d]. unfold Qlt, Qle, Qdiv, Qmult, Qplus, Qinv in *; simpl in *. nia.
Qed.

(** C3, counterexample: employee 3's only task is in progress at 15 percent;
    the code adds Math.round(15 / 10) = 2 progress points, for a totalScore
    of 12, where floor(15 / 10) = 1 would give 11. *)
Lemma progress_bonus_floor_counterexample :
  field_of totalScore 3 (accumulate (window_tasks 0 100 [progress15_task])) = 12 /\
  pair_fold (fun acc task => acc + code_status_points task 3 + claim_floor_progress_points task)
            3 (window_tasks 0 100 [progress15_task]) 0 = 11 /\
  progress_points progress15_task = 2 /\ claim_floor_progress_points progress15_task = 1.
Proof. vm_compute. repeat split. Qed.

(** C3 (as amended): for each task-assignee pair with progress.percentage > 0
    the employee's totalScore receives Math.round(percentage / 10) points
    (halves rounded up, between 0 and 10 for a percentage in [0, 100]), the
    percentage is added to the employee's average-progress accumulator and
    the progress count goes up by one. *)
Theorem progress_bonus_rounded (startD endD : Z) (store : list Task) (u : Z) :
  let W := window_tasks startD endD store in
  field_of totalScore u (accumulate W)
  = pair_fold (fun acc task => acc + code_status_points task u + progress_points task) u W 0 /\
  field_of averageProgress u (accumulate W)
  = pair_fold (fun acc task => if Qltb 0 (percentage (progress task))
                               then (acc + percentage (progress task))%Q else acc) u W 0%Q /\
  field_of progressCount u (accumulate W)
  = pair_fold (fun acc task => if Qltb 0 (percentage (progress task)) then acc + 1 else acc)
              u W 0 /\
  (forall task, progress_points task
     = if Qltb 0 (percentage (progress task))
       then Qfloor (percentage (progress task) / inject_Z 10 + (1 # 2))%Q else 0) /\
  (forall task, (0 <= percentage (progress task) <= 100)%Q ->
     0 <= progress_points task <= 10).
Proof.
  intros W. split; [apply totalScore_accumulate|]. split.
  { unfold accumulate.
    apply (field_of_accumulate Q averageProgress
             (fun _ acc task => if Qltb 0 (percentage (progress task))
                                then (acc + percentage (progress task))%Q else acc) W).
    - intros task s _. apply averageProgress_accumulate_pair.
    - intros x Hx; exact Hx. }
  split.
  { unfold accumulate.
    apply (field_of_accumulate Z progressCount
             (fun _ acc task => if Qltb 0 (percentage (progress task)) then acc + 1 else acc) W).
    - intros task s _. apply progressCount_accumulate_pair.
    - intros x Hx; exact Hx. }
  split; [intros task; reflexivity|].
  intros task Hb. unfold progress_points.
  destruct (Qltb 0 (percentage (progress task))); [apply js_round_tenth_bounds, Hb|lia].
Qed.

Lemma progress_bonus_rounded_witness :
  (0 <= percentage (progress progress15_task) <= 100)%Q /\
  0 <= progress_points progress15_task <= 10.
Proof.
  assert (Hb : (0 <= percentage (progress progress15_task) <= 100)%Q)
    by (split; vm_compute; discriminate).
  split; [exact Hb|].
  exact (proj2 (proj2 (proj2 (proj2 (progress_bonus_rounded 0 100 [progress15_task] 3))))
           progress15_task Hb).
Defined.

(** ** Instances of the claims' conditional parts *)

Lemma overdue_recomputation_on_save_witness :
  status (set_status PENDING demo_task) = PENDING /\ dueDate (set_status PENDING demo_task) < 2000 /\
  status (save_doc 2000 (set_status PENDING demo_task)) = OVERDUE /\
  status (save_docs [3000; 4000] (save_doc 2000 (set_status PENDING demo_task))) = OVERDUE.
Proof.
  assert (Hd : dueDate (set_status PENDING demo_task) < 2000) by (cbn; lia).
  split; [reflexivity|]. split; [exact Hd|].
  exact (proj1 (proj2 overdue_recomputation_on_save) 2000 [3000; 4000]
           (set_status PENDING demo_task) eq_refl Hd).
Defined.

Lemma ledger_total_is_sum_of_sessions_witness :
  ledger_ok demo_task /\
  ledger_ok (cur (run_calls [CallStop 50 1 "done"%string; CallStart 60 2; CallStart 70 2;
                             CallStop 90 2 "later"%string; CallStart 95 4]
                            (mkSt demo_task []))).
Proof.
  assert (Hok : ledger_ok demo_task) by (repeat constructor).
  split; [exact Hok|].
  exact (proj1 ledger_total_is_sum_of_sessions _ (mkSt demo_task []) Hok).
Defined.

Lemma removeAssignee_roster_witness :
  ((2 <= List.length (assignedTo demo_task))%nat /\
   (forall e, find_tt 1 (timeTracking demo_task) = Some e -> isActive e = true ->
              currentSessionStart e <> None) /\
   exists s', removeAssignee 100 1 (mkSt demo_task []) = inr (tt, s') /\
     assignedTo (cur s') = filter (fun a => negb (a_user a =? 1)) (assignedTo demo_task) /\
     timeTracking (cur s') = filter (fun e => negb (tt_user e =? 1)) (timeTracking demo_task)) /\
  ((2 <= List.length (assignedTo demo_task_nostart))%nat /\
   find_tt 1 (timeTracking demo_task_nostart) = Some (mkTT 1 0 [] true None 10) /\
   exists s1, removeAssignee 100 1 (mkSt demo_task_nostart []) = inl (ValidationError, s1) /\
     reload (mkSt demo_task_nostart []) s1 = mkSt demo_task_nostart []).
Proof.
  assert (Hl : (2 <= List.length (assignedTo demo_task))%nat) by (cbn; lia).
  assert (Hs : forall e, find_tt 1 (timeTracking demo_task) = Some e -> isActive e = true ->
                         currentSessionStart e <> None)
    by (intros e He _; cbn in He; injection He as <-; discriminate).
  split.
  - split; [exact Hl|split; [exact Hs|]].
    destruct (proj1 (proj2 removeAssignee_roster) 100 1 (mkSt demo_task []) Hl Hs)
      as (s' & H1 & H2 & H3 & _).
    exists s'. split; [exact H1|]. split; [exact H2|exact H3].
  - assert (Hl' : (2 <= List.length (assignedTo demo_task_nostart))%nat) by (cbn; lia).
    split; [exact Hl'|split; [reflexivity|]].
    exact (proj2 (proj2 removeAssignee_roster) 100 1 (mkSt demo_task_nostart [])
             (mkTT 1 0 [] true None 10) Hl' eq_refl eq_refl eq_refl).
Defined.

(** C9, counterexample: user 1 of [demo_task_nostart] is active without a
    session start; removing that user from the two-user roster throws a
    validation error and the stored task still lists user 1, with the entry
    still active. *)
Lemma removeAssignee_roster_counterexample :
  (2 <= List.length (assignedTo demo_task_nostart))%nat /\
  match removeAssignee 100 1 (mkSt demo_task_nostart []) with
  | inl (ValidationError, s1) =>
      let s2 := reload (mkSt demo_task_nostart []) s1 in
      In 1 (map a_user (assignedTo (cur s2))) /\
      option_map isActive (find_tt 1 (timeTracking (cur s2))) = Some true /\ db s2 = []
  | _ => False
  end.
Proof.
  split; [cbn; lia|]. vm_compute. split; [left; reflexivity|split; reflexivity].
Qed.

Lemma performance_employee_of_month_witness :
  (1 <> 0 /\ 2024 <> 0) /\
  PerformanceController_calculateEmployeeOfTheMonth demo_local_date 1 2024 []
  = match Performance.calculateEmployeeOfTheMonth demo_local_date 1 2024 [] with
    | None => NotFound
    | Some p => Ok p
    end.
Proof.
  assert (Hm : 1 <> 0) by lia. assert (Hy : 2024 <> 0) by lia.
  split; [split; assumption|].
  exact (proj1 (performance_employee_of_month demo_local_date 1 2024 []) Hm Hy).
Defined.

(** * Further properties of the code *)

(** ** Shapes of the instance methods *)

Lemma bind_inv {A B} (m : M A) (k : A -> M B) (s : St) (b : B) (s' : St) :
  bind m k s = inr (b, s') -> exists a s1, m s = inr (a, s1) /\ k a s1 = inr (b, s').
Proof. unfold bind. destruct (m s) as [e|[a s1]]; [discriminate|]. eauto. Qed.

Lemma is_assigned_In (u : Z) (t : Task) :
  is_assigned u t = true <-> In u (map a_user (assignedTo t)).
Proof.
  unfold is_assigned. rewrite existsb_exists, in_map_iff. split.
  - intros (a & Ha & He). exists a. split; [apply Z.eqb_eq; exact He|exact Ha].
  - intros (a & <- & Ha). exists a. split; [exact Ha|apply Z.eqb_refl].
Qed.

Lemma find_tt_None (u : Z) (l : list TimeTracking) :
  find_tt u l = None <-> ~ In u (map tt_user l).
Proof.
  induction l as [|e l IH]; simpl; [tauto|].
  destruct (Z.eqb_spec (tt_user e) u) as [He|He].
  - split; [discriminate|]. intros H; exfalso; apply H; left; exact He.
  - rewrite IH. intuition.
Qed.

Lemma stop_all_active_assignedTo (now : Z) (n : nat) :
  forall (i : nat) (s s' : St) (x : unit),
  stop_all_active now i n s = inr (x, s') -> assignedTo (cur s') = assignedTo (cur s).
Proof.
  induction n as [|n IH]; intros i s s' x H; simpl in H.
  - unfold ret in H. injection H as _ <-. reflexivity.
  - apply bind_inv in H. destruct H as (t & s1 & Hg & H).
    unfold get_task in Hg. injection Hg as <- <-.
    destruct (nth_error (timeTracking (cur s)) i) as [e|].
    + apply bind_inv in H. destruct H as (y & s2 & Hs & H).
      rewrite (IH _ _ _ _ H).
      destruct (isActive e).
      * exact (proj1 (proj2 (stopTimeTracking_shape _ _ _ _ _ _ Hs))).
      * unfold ret in Hs. injection Hs as _ <-. reflexivity.
    + unfold ret in H. injection H as _ <-. reflexivity.
Qed.

Lemma removeAssignee_shape (now u : Z) (s s' : St) :
  removeAssignee now u s = inr (tt, s') ->
  (2 <= List.length (assignedTo (cur s)))%nat /\
  exists s1, (s1 = s \/ stopTimeTracking now u "Removed from task"%string s = inr (tt, s1)) /\
    assignedTo (cur s') = filter (fun a => negb (a_user a =? u)) (assignedTo (cur s1)) /\
    timeTracking (cur s') = filter (fun e => negb (tt_user e =? u)) (timeTracking (cur s1)).
Proof.
  unfold removeAssignee. intros H.
  apply bind_inv in H. destruct H as (t & s0 & Hg & H).
  unfold get_task in Hg. injection Hg as <- <-.
  destruct (Nat.leb (List.length (assignedTo (cur s))) 1) eqn:Hl; [discriminate|].
  apply Nat.leb_gt in Hl. split; [lia|].
  apply bind_inv in H. destruct H as ([] & s1 & Hs & H).
  rewrite removeAssignee_tail in H. injection H as <-. cbn [cur].
  rewrite (proj1 (save_doc_fields _ _)), (proj2 (save_doc_fields _ _)).
  cbn [timeTracking assignedTo set_timeTracking set_assignedTo].
  exists s1. split; [|split; reflexivity].
  destruct (find_tt u (timeTracking (cur s))) as [e|];
    [destruct (isActive e)|]; unfold ret in Hs; try (injection Hs as <-; left; reflexivity).
  right; exact Hs.
Qed.

Lemma addAssignee_shape (now u : Z) (r : Role) (s s' : St) :
  addAssignee now u r s = inr (tt, s') ->
  is_assigned u (cur s) = false /\
  assignedTo (cur s') = assignedTo (cur s) ++ [mkAssignee u r now] /\
  timeTracking (cur s') = timeTracking (cur s) ++ [new_tt u now].
Proof.
  unfold addAssignee, bind, get_task, throw, put_task, save; simpl.
  destruct (is_assigned u (cur s)); [discriminate|].
  intros H; injection H as <-. cbn [cur].
  rewrite timeTracking_save_doc, assignedTo_save_doc. auto.
Qed.

Lemma updateProgress_shape (now : Z) (pct : option Q) (ph : option string) (u : Z) (s s' : St) :
  updateProgress now pct ph u s = inr (tt, s') ->
  assignedTo (cur s') = assignedTo (cur s) /\ timeTracking (cur s') = timeTracking (cur s).
Proof.
  unfold updateProgress, bind, get_task, throw, put_task, save; simpl.
  destruct pct as [q|]; [|discriminate].
  destruct ph as [p|];
    [destruct (String.eqb p EmptyString); [|destruct (phase_of_string p)]|];
    try discriminate;
    intros H; injection H as <-; cbn [cur];
    rewrite timeTracking_save_doc, assignedTo_save_doc; auto.
Qed.

Lemma updateStatus_shape (now : Z) (st : TaskStatus) (s s' : St) :
  updateStatus now st s = inr (tt, s') ->
  assignedTo (cur s') = assignedTo (cur s) /\ timeTracking (cur s') = timeTracking (cur s).
Proof.
  unfold updateStatus, bind, get_task, put_task, save; simpl.
  intros H; injection H as <-. cbn [cur].
  rewrite timeTracking_save_doc, assignedTo_save_doc. auto.
Qed.

(** ** Well-formedness is kept by every method *)

Lemma active_ok_start (now : Z) (e : TimeTracking) : active_ok (start_entry now e).
Proof. unfold active_ok; simpl. split; [discriminate|reflexivity]. Qed.

Lemma active_ok_stop (now : Z) (nts : string) (e : TimeTracking) : active_ok (stop_entry now nts e).
Proof. unfold active_ok; simpl. split; [discriminate|intros H; exfalso; apply H; reflexivity]. Qed.

Lemma active_ok_new (u now : Z) : active_ok (new_tt u now).
Proof. unfold active_ok; simpl. split; [discriminate|intros H; exfalso; apply H; reflexivity]. Qed.

Lemma map_filter_user {X} (g : X -> Z) (u : Z) (l : list X) :
  map g (filter (fun x => negb (g x =? u)) l) = filter (fun y => negb (y =? u)) (map g l).
Proof.
  induction l as [|x l IH]; simpl; [reflexivity|].
  destruct (g x =? u); simpl; rewrite IH; reflexivity.
Qed.

Lemma incl_filter_same {X} (p : X -> bool) (l1 l2 : list X) :
  incl l1 l2 -> incl (filter p l1) (filter p l2).
Proof.
  intros H x Hx. apply filter_In in Hx. apply filter_In. destruct Hx as [Hx Hp].
  split; [apply H, Hx|exact Hp].
Qed.

Lemma Forall_filter_same {X} (P : X -> Prop) (p : X -> bool) (l : list X) :
  Forall P l -> Forall P (filter p l).
Proof.
  rewrite !Forall_forall. intros H x Hx. apply filter_In in Hx. apply H, Hx.
Qed.

Lemma wf_task_lists (t t' : Task) :
  assignedTo t' = assignedTo t -> timeTracking t' = timeTracking t -> wf_task t -> wf_task t'.
Proof. intros Ha Ht. unfold wf_task. rewrite Ha, Ht. tauto. Qed.

Lemma wf_task_update_first (t t' : Task) (u : Z) (f : TimeTracking -> TimeTracking) :
  (forall e, tt_user (f e) = tt_user e) -> (forall e, active_ok (f e)) ->
  assignedTo t' = assignedTo t -> timeTracking t' = update_first u f (timeTracking t) ->
  wf_task t -> wf_task t'.
Proof.
  intros Hu Hok Ha Ht (H1 & H2 & H3 & H4). unfold wf_task. rewrite Ha, Ht.
  rewrite (map_update_first tt_user u f _ Hu).
  split; [exact H1|split; [exact H2|split; [exact H3|]]].
  apply Forall_update_first; [intros e _; apply Hok|exact H4].
Qed.

Lemma markAsCompleted_assignedTo (now u : Z) (s s' : St) (x : unit) :
  markAsCompleted now u s = inr (x, s') -> assignedTo (cur s') = assignedTo (cur s).
Proof.
  unfold markAsCompleted. intros H.
  apply bind_inv in H. destruct H as (t & s0 & Hg & H).
  unfold get_task in Hg. injection Hg as <- <-.
  apply bind_inv in H. destruct H as ([] & s1 & Hp & H).
  unfold put_task in Hp. injection Hp as <-.
  apply bind_inv in H. destruct H as ([] & s2 & Hs & H).
  unfold save in H. injection H as _ <-. cbn [cur].
  rewrite assignedTo_save_doc. rewrite (stop_all_active_assignedTo _ _ _ _ _ _ Hs).
  reflexivity.
Qed.

Lemma wf_stop_step (now u : Z) (nts : string) (s s' : St) (x : unit) :
  wf_task (cur s) -> stopTimeTracking now u nts s = inr (x, s') -> wf_task (cur s').
Proof.
  intros Hw H. destruct (stopTimeTracking_shape _ _ _ _ _ _ H) as (_ & Ha & _ & Ht).
  exact (wf_task_update_first _ _ u (stop_entry now nts) (fun e => eq_refl) (active_ok_stop now nts) Ha Ht Hw).
Qed.

Lemma wf_starts (t : Task) :
  wf_task t -> Forall (fun e => isActive e = true -> currentSessionStart e <> None) (timeTracking t).
Proof. intros (_ & _ & _ & H4). eapply Forall_impl; [|exact H4]. intros e He. apply He. Qed.

Lemma wf_run_task_call (c : TaskCall) (s s' : St) :
  wf_task (cur s) -> run_task_call c s = inr (tt, s') -> wf_task (cur s').
Proof.
  intros Hw. destruct c as [now u|now u nts|now u|now u r|now u|now pct ph u|now st]; simpl.
  - intros H. destruct (startTimeTracking_shape _ _ _ _ _ H) as (Hia & Ha & _ & _ & Ht).
    destruct (find_tt u (timeTracking (cur s))) as [e|] eqn:Hf.
    + exact (wf_task_update_first _ _ u (start_entry now) (fun e => eq_refl) (active_ok_start now) Ha Ht Hw).
    + destruct Hw as (H1 & H2 & H3 & H4). unfold wf_task. rewrite Ha, Ht.
      apply find_tt_None in Hf. apply is_assigned_In in Hia.
      rewrite map_app. cbn [map tt_user new_tt].
      split; [exact H1|split; [|split]].
      * apply NoDup_app; [exact H2|repeat constructor; auto|].
        intros y Hy1 Hy2. destruct Hy2 as [<-|[]]. exact (Hf Hy1).
      * intros y Hy. apply in_app_or in Hy. destruct Hy as [Hy|[<-|[]]]; [apply H3, Hy|exact Hia].
      * apply Forall_app. split; [exact H4|constructor; [apply active_ok_new|constructor]].
  - apply wf_stop_step. exact Hw.
  - intros H. pose proof (wf_starts _ Hw) as Hs0. destruct Hw as (H1 & H2 & H3 & H4).
    destruct (markAsCompleted_run now u s H2 Hs0) as (s2 & Hrun & _ & _ & _ & _ & Ht).
    rewrite H in Hrun. injection Hrun as <-.
    pose proof (markAsCompleted_assignedTo _ _ _ _ _ H) as Ha.
    unfold wf_task. rewrite Ha, Ht, map_map.
    rewrite (map_ext (fun x => tt_user (complete_entry now x)) tt_user (complete_entry_user now)).
    split; [exact H1|split; [exact H2|split; [exact H3|]]].
    apply Forall_map. rewrite Forall_forall in H4 |- *. intros e He.
    unfold complete_entry. destruct (isActive e); [apply active_ok_stop|apply H4, He].
  - intros H. destruct (addAssignee_shape _ _ _ _ _ H) as (Hia & Ha & Ht).
    destruct Hw as (H1 & H2 & H3 & H4).
    assert (Hn : ~ In u (map a_user (assignedTo (cur s)))).
    { intros Hin. apply is_assigned_In in Hin. congruence. }
    unfold wf_task. rewrite Ha, Ht, !map_app. cbn [map a_user tt_user new_tt].
    split; [|split; [|split]].
    + apply NoDup_app; [exact H1|repeat constructor; auto|].
      intros y Hy1 [<-|[]]. exact (Hn Hy1).
    + apply NoDup_app; [exact H2|repeat constructor; auto|].
      intros y Hy1 [<-|[]]. exact (Hn (H3 _ Hy1)).
    + apply incl_app; [apply incl_appl, H3|apply incl_appr, incl_refl].
    + apply Forall_app. split; [exact H4|constructor; [apply active_ok_new|constructor]].
  - intros H. destruct (removeAssignee_shape _ _ _ _ H) as (_ & s1 & Hs1 & Ha & Ht).
    assert (Hw1 : wf_task (cur s1)) by (destruct Hs1 as [->|Hs1]; [exact Hw|exact (wf_stop_step _ _ _ _ _ _ Hw Hs1)]).
    destruct Hw1 as (H1 & H2 & H3 & H4).
    unfold wf_task. rewrite Ha, Ht, !map_filter_user.
    split; [apply NoDup_filter, H1|split; [apply NoDup_filter, H2|split]].
    + apply incl_filter_same, H3.
    + apply Forall_filter_same, H4.
  - intros H. destruct (updateProgress_shape _ _ _ _ _ _ H) as [Ha Ht].
    exact (wf_task_lists _ _ Ha Ht Hw).
  - intros H. destruct (updateStatus_shape _ _ _ _ H) as [Ha Ht].
    exact (wf_task_lists _ _ Ha Ht Hw).
Qed.

Lemma wf_demo_task : wf_task demo_task.
Proof.
  unfold wf_task; simpl. split; [|split; [|split]].
  - constructor; [intros [H|[]]; lia|constructor; [intros []|constructor]].
  - constructor; [intros [H|[]]; lia|constructor; [intros []|constructor]].
  - apply incl_refl.
  - constructor; [|constructor; [|constructor]]; unfold active_ok; simpl;
      split; congruence.
Qed.

Lemma run_task_call_err_db (c : TaskCall) (s : St) (err : TaskError) (s1 : St) :
  wf_task (cur s) -> run_task_call c s = inl (err, s1) -> db s1 = db s.
Proof.
  intros Hw. destruct c as [now u|now u nts|now u|now u r|now u|now pct ph u|now st]; simpl.
  - intros H. rewrite (startTimeTracking_err _ _ _ _ _ H). reflexivity.
  - intros H. exact (proj1 (stopTimeTracking_err _ _ _ _ _ _ H)).
  - intros H. pose proof (wf_starts _ Hw) as Hs0. destruct Hw as (_ & H2 & _).
    destruct (markAsCompleted_run now u s H2 Hs0) as (s2 & Hrun & _).
    rewrite H in Hrun. discriminate.
  - unfold addAssignee, bind, get_task, throw, put_task, save; simpl.
    destruct (is_assigned u (cur s)); [intros H; injection H as _ <-; reflexivity|discriminate].
  - unfold removeAssignee, bind, get_task, throw, ret; simpl.
    destruct (Nat.leb (List.length (assignedTo (cur s))) 1);
      [intros H; injection H as _ <-; reflexivity|].
    destruct (find_tt u (timeTracking (cur s))) as [e|];
      [destruct (isActive e)|]; [|unfold put_task, save; discriminate|unfold put_task, save; discriminate].
    destruct (stopTimeTracking now u "Removed from task"%string s) as [[e2 s2]|[[] s2]] eqn:Hs;
      [|unfold put_task, save; discriminate].
    intros H; injection H as _ <-. exact (proj1 (stopTimeTracking_err _ _ _ _ _ _ Hs)).
  - unfold updateProgress, bind, get_task, throw, put_task, save; simpl.
    destruct pct as [q|]; [|intros H; injection H as _ <-; reflexivity].
    destruct ph as [p|];
      [destruct (String.eqb p EmptyString); [|destruct (phase_of_string p)]|];
      solve [discriminate | intros H; injection H as _ <-; reflexivity].
  - unfold updateStatus, bind, get_task, put_task, save; simpl. discriminate.
Qed.

Lemma two_users_other (l : list Z) (u : Z) :
  NoDup l -> (2 <= List.length l)%nat -> exists x, In x l /\ x <> u.
Proof.
  intros Hnd Hl. destruct l as [|a [|b l]]; simpl in Hl; try lia.
  destruct (Z.eq_dec a u) as [->|Ha].
  - exists b. split; [right; left; reflexivity|].
    intros ->. inversion Hnd as [|? ? Hn _]. apply Hn. left; reflexivity.
  - exists a. split; [left; reflexivity|exact Ha].
Qed.

(** X1: every sequence of instance-method calls (a call that throws leaves
    the document as it was) keeps a task document well formed: distinct
    roster users, ledger entries of distinct assigned users, and each entry
    active exactly when it has an open session start. *)
Theorem task_methods_keep_wf (cs : list TaskCall) (s : St) :
  wf_task (cur s) -> wf_task (cur (run_task_calls cs s)).
Proof.
  revert s. induction cs as [|c cs IH]; intros s Hw; simpl; [exact Hw|].
  apply IH. destruct (run_task_call c s) as [[e s1]|[[] s']] eqn:Hc.
  - rewrite (reload_same _ _ (run_task_call_err_db c s e s1 Hw Hc)). exact Hw.
  - exact (wf_run_task_call c s s' Hw Hc).
Qed.

Lemma task_methods_keep_wf_witness :
  wf_task (cur (run_task_calls
    [TStop 50 1 "done"%string; TAddAssignee 60 3 reviewer; TStart 70 3; TRemoveAssignee 80 3;
     TUpdateProgress 90 (Some (120 # 1)) (Some "testing"%string) 2; TStart 95 2; TComplete 100 2]
    (mkSt demo_task []))).
Proof. apply task_methods_keep_wf. exact wf_demo_task. Defined.

(** X2: on a well-formed task the virtual [isBeingTracked] holds exactly when
    the virtual [activeTimeTrackers] is non-empty. *)
Theorem isBeingTracked_iff_active (t : Task) :
  wf_task t -> (isBeingTracked t = true <-> activeTimeTrackers t <> []).
Proof.
  intros (_ & _ & _ & H4). unfold isBeingTracked, activeTimeTrackers.
  induction H4 as [|e l He Hl IH]; simpl; [split; [discriminate|intros H; exfalso; apply H; reflexivity]|].
  unfold active_ok in He.
  destruct (isActive e) eqn:Ha; simpl.
  - destruct (currentSessionStart e) as [z|]; [|exfalso; apply (proj1 He); reflexivity].
    split; [intros _; discriminate|reflexivity].
  - exact IH.
Qed.

Lemma isBeingTracked_iff_active_witness :
  wf_task demo_task /\ (isBeingTracked demo_task = true <-> activeTimeTrackers demo_task <> []).
Proof. split; [exact wf_demo_task|apply isBeingTracked_iff_active, wf_demo_task]. Defined.

(** X3: [TaskController.completeTask] by an assigned user on a well-formed
    task always answers 200 (the completion loop never throws), leaves the
    task completed with completedDate now, and keeps it well formed. *)
Theorem completeTask_always_ok (now uid : Z) (s : St) :
  wf_task (cur s) -> is_assigned uid (cur s) = true ->
  exists s', TaskController_completeTask now uid (Some s) = (HTTP_OK, Some s') /\
    status (cur s') = COMPLETED /\ completedDate (cur s') = Some now /\ wf_task (cur s').
Proof.
  intros Hw Hia. pose proof Hw as (_ & H2 & _).
  destruct (markAsCompleted_run now uid s H2 (wf_starts _ Hw)) as (s' & Hrun & Hst & Hcd & _).
  exists s'. unfold TaskController_completeTask. rewrite Hia, Hrun. simpl.
  split; [reflexivity|split; [exact Hst|split; [exact Hcd|]]].
  exact (wf_run_task_call (TComplete now uid) s s' Hw Hrun).
Qed.

Lemma completeTask_always_ok_witness :
  wf_task demo_task /\ is_assigned 2 demo_task = true /\
  exists s', TaskController_completeTask 100 2 (Some (mkSt demo_task [])) = (HTTP_OK, Some s') /\
    status (cur s') = COMPLETED /\ completedDate (cur s') = Some 100 /\ wf_task (cur s').
Proof.
  split; [exact wf_demo_task|split; [reflexivity|]].
  apply completeTask_always_ok; [exact wf_demo_task|reflexivity].
Defined.

(** X4: on a task whose roster users are distinct, a successful
    [removeAssignee] never leaves the task without an assignee, so the
    virtual [primaryAssignee] stays defined. *)
Theorem removeAssignee_keeps_primary (now u : Z) (s s' : St) :
  NoDup (map a_user (assignedTo (cur s))) ->
  removeAssignee now u s = inr (tt, s') ->
  assignedTo (cur s') <> [] /\ primaryAssignee (cur s') <> None.
Proof.
  intros Hnd H. destruct (removeAssignee_shape _ _ _ _ H) as (Hl & s1 & Hs1 & Ha & _).
  assert (Ha1 : assignedTo (cur s1) = assignedTo (cur s))
    by (destruct Hs1 as [->|Hs1]; [reflexivity|exact (proj1 (proj2 (stopTimeTracking_shape _ _ _ _ _ _ Hs1)))]).
  rewrite Ha1 in Ha.
  destruct (two_users_other (map a_user (assignedTo (cur s))) u Hnd) as (x & Hx & Hxu);
    [rewrite length_map; exact Hl|].
  apply in_map_iff in Hx. destruct Hx as (a & <- & Hin).
  assert (Hf : In a (assignedTo (cur s'))).
  { rewrite Ha. apply filter_In. split; [exact Hin|]. apply Z.eqb_neq in Hxu. rewrite Hxu. reflexivity. }
  assert (Hne : assignedTo (cur s') <> []) by (intros He; rewrite He in Hf; destruct Hf).
  split; [exact Hne|]. unfold primaryAssignee.
  destruct (find _ _); [discriminate|].
  destruct (assignedTo (cur s')); [exfalso; apply Hne; reflexivity|discriminate].
Qed.

Lemma removeAssignee_keeps_primary_witness :
  NoDup (map a_user (assignedTo demo_task)) /\
  exists s', removeAssignee 100 1 (mkSt demo_task []) = inr (tt, s') /\
    assignedTo (cur s') <> [] /\ primaryAssignee (cur s') <> None.
Proof.
  assert (Hnd : NoDup (map a_user (assignedTo demo_task))) by exact (proj1 wf_demo_task).
  split; [exact Hnd|].
  destruct (removeAssignee 100 1 (mkSt demo_task [])) as [e|[[] s']] eqn:H;
    [vm_compute in H; discriminate|].
  exists s'. split; [reflexivity|].
  exact (removeAssignee_keeps_primary 100 1 (mkSt demo_task []) s' Hnd H).
Defined.

(** ** Controllers *)

Lemma find_tt_user (u : Z) (l : list TimeTracking) (e : TimeTracking) :
  find_tt u l = Some e -> tt_user e = u.
Proof.
  induction l as [|x l IH]; simpl; [discriminate|].
  destruct (Z.eqb_spec (tt_user x) u) as [Hx|Hx]; [intros H; injection H as <-; exact Hx|exact IH].
Qed.

(** X5: [TaskController.startTask] answers 404 for a missing task, 403 (the
    task untouched) when the user is not an assignee, 400 (the task
    untouched) when the user's ledger entry is already active, and otherwise
    200 after saving the task once.  After the 200 an existing entry of the
    user is active with its session started now; a user without an entry
    gets a new entry that stays inactive, with no session start (the method
    sets the flags on the plain object it pushed, not on the stored
    subdocument). *)
Theorem startTask_responses (now uid : Z) (s : St) :
  TaskController_startTask now uid None = (HTTP_NOT_FOUND, None) /\
  (is_assigned uid (cur s) = false ->
     TaskController_startTask now uid (Some s) = (HTTP_FORBIDDEN, Some s)) /\
  (forall e, is_assigned uid (cur s) = true ->
     find_tt uid (timeTracking (cur s)) = Some e -> isActive e = true ->
     TaskController_startTask now uid (Some s) = (HTTP_BAD_REQUEST, Some s)) /\
  (is_assigned uid (cur s) = true ->
     (forall e, find_tt uid (timeTracking (cur s)) = Some e -> isActive e = false) ->
     exists s', TaskController_startTask now uid (Some s) = (HTTP_OK, Some s') /\
       db s' = cur s' :: db s /\
       find_tt uid (timeTracking (cur s'))
       = match find_tt uid (timeTracking (cur s)) with
         | Some e => Some (mkTT (tt_user e) (totalTimeSpent e) (sessions e) true (Some now) now)
         | None => Some (mkTT uid 0 [] false None now)
         end).
Proof.
  assert (Hr : reload s s = s) by (apply reload_same; reflexivity).
  split; [reflexivity|]. split.
  { intros Hn. unfold TaskController_startTask. rewrite Hn. reflexivity. }
  split.
  { intros e Hia Hf Ha. unfold TaskController_startTask. rewrite Hia. simpl.
    unfold startTimeTracking, bind, get_task, throw. rewrite Hia. simpl. rewrite Hf, Ha.
    simpl. rewrite Hr. reflexivity. }
  intros Hia Hin.
  assert (Hok : exists s', startTimeTracking now uid s = inr (tt, s')).
  { unfold startTimeTracking, bind, get_task, throw, put_task, save. rewrite Hia. simpl.
    destruct (find_tt uid (timeTracking (cur s))) as [e|] eqn:Hf;
      [rewrite (Hin e eq_refl)|]; simpl; eexists; reflexivity. }
  destruct Hok as (s' & Hs').
  destruct (startTimeTracking_shape _ _ _ _ _ Hs') as (_ & _ & Hdb & _ & Ht).
  exists s'. unfold TaskController_startTask. rewrite Hia, Hs'. simpl.
  split; [reflexivity|split; [exact Hdb|]]. rewrite Ht.
  destruct (find_tt uid (timeTracking (cur s))) as [e|] eqn:Hf.
  - rewrite find_tt_update_first by reflexivity. rewrite Hf. reflexivity.
  - apply find_tt_app_none; [exact Hf|reflexivity].
Qed.

Lemma startTask_responses_witness :
  is_assigned 2 demo_task = true /\
  (forall e, find_tt 2 (timeTracking demo_task) = Some e -> isActive e = false) /\
  exists s', TaskController_startTask 100 2 (Some (mkSt demo_task [])) = (HTTP_OK, Some s') /\
    db s' = cur s' :: [] /\
    find_tt 2 (timeTracking (cur s')) = Some (mkTT 2 0 [] true (Some 100) 100).
Proof.
  assert (Hin : forall e, find_tt 2 (timeTracking demo_task) = Some e -> isActive e = false).
  { intros e He. simpl in He. injection He as <-. reflexivity. }
  split; [reflexivity|split; [exact Hin|]].
  exact (proj2 (proj2 (proj2 (startTask_responses 100 2 (mkSt demo_task [])))) eq_refl Hin).
Defined.

(** X6: [TaskController.stopTask] answers 404 for a missing task and 403
    (task untouched) for a non-assignee.  For an assignee it answers 500 when
    the user has no ledger entry at all (the error message does not contain
    'No active time tracking'), 400 when the entry is not active, 500 when
    the entry is active without a currentSessionStart (the save fails
    validation; these three leave the task untouched), and otherwise 200
    with the entry's session closed: duration now minus the start, added to
    the total, and the request's notes trimmed (the empty string when
    absent). *)
Theorem stopTask_responses (now uid : Z) (notes : option string) (s : St) :
  TaskController_stopTask now uid notes None = (HTTP_NOT_FOUND, None) /\
  (is_assigned uid (cur s) = false ->
     TaskController_stopTask now uid notes (Some s) = (HTTP_FORBIDDEN, Some s)) /\
  (is_assigned uid (cur s) = true -> find_tt uid (timeTracking (cur s)) = None ->
     TaskController_stopTask now uid notes (Some s) = (HTTP_INTERNAL_SERVER_ERROR, Some s)) /\
  (forall e, is_assigned uid (cur s) = true ->
     find_tt uid (timeTracking (cur s)) = Some e -> isActive e = false ->
     TaskController_stopTask now uid notes (Some s) = (HTTP_BAD_REQUEST, Some s)) /\
  (forall e, is_assigned uid (cur s) = true ->
     find_tt uid (timeTracking (cur s)) = Some e -> isActive e = true ->
     currentSessionStart e = None ->
     TaskController_stopTask now uid notes (Some s) = (HTTP_INTERNAL_SERVER_ERROR, Some s)) /\
  (forall e st, is_assigned uid (cur s) = true ->
     find_tt uid (timeTracking (cur s)) = Some e -> isActive e = true ->
     currentSessionStart e = Some st ->
     exists s', TaskController_stopTask now uid notes (Some s) = (HTTP_OK, Some s') /\
       db s' = cur s' :: db s /\
       find_tt uid (timeTracking (cur s'))
       = Some (mkTT uid (totalTimeSpent e + (now - st))
                 (sessions e ++ [mkSession (Some st) now (now - st)
                                   (js_trim (match notes with Some n => n | None => EmptyString end))])
                 false None now)).
Proof.
  assert (Hr : reload s s = s) by (apply reload_same; reflexivity).
  unfold TaskController_stopTask.
  split; [reflexivity|]. split; [intros Hn; rewrite Hn; reflexivity|].
  split; [intros Hia Hf; rewrite Hia; simpl; unfold stopTimeTracking, bind, get_task, throw;
          rewrite Hf; simpl; rewrite Hr; reflexivity|].
  split; [intros e Hia Hf Ha; rewrite Hia; simpl; unfold stopTimeTracking, bind, get_task, throw;
          rewrite Hf, Ha; simpl; rewrite Hr; reflexivity|].
  split.
  { intros e Hia Hf Ha Hst. rewrite Hia. simpl.
    rewrite (stopTimeTracking_nostart now uid _ s e Hf Ha Hst).
    rewrite reload_same by reflexivity. reflexivity. }
  intros e st Hia Hf Ha Hst. rewrite Hia. simpl.
  rewrite (stopTimeTracking_run now uid _ s e st Hf Ha Hst).
  eexists. split; [reflexivity|]. cbn [cur db]. split; [reflexivity|].
  rewrite timeTracking_save_doc. cbn [set_timeTracking timeTracking].
  rewrite find_tt_update_first by reflexivity. rewrite Hf. simpl.
  unfold stop_entry. rewrite Hst, (find_tt_user _ _ _ Hf). reflexivity.
Qed.

Lemma stopTask_responses_witness :
  is_assigned 1 demo_task = true /\ find_tt 1 (timeTracking demo_task) = Some (mkTT 1 0 [] true (Some 10) 10) /\
  isActive (mkTT 1 0 [] true (Some 10) 10) = true /\ currentSessionStart (mkTT 1 0 [] true (Some 10) 10) = Some 10 /\
  exists s', TaskController_stopTask 100 1 (Some "  done  "%string) (Some (mkSt demo_task [])) = (HTTP_OK, Some s') /\
    db s' = cur s' :: [] /\
    find_tt 1 (timeTracking (cur s'))
    = Some (mkTT 1 (0 + (100 - 10)) ([] ++ [mkSession (Some 10) 100 (100 - 10) (js_trim "  done  "%string)])
              false None 100).
Proof.
  split; [reflexivity|split; [reflexivity|split; [reflexivity|split; [reflexivity|]]]].
  exact (proj2 (proj2 (proj2 (proj2 (proj2 (stopTask_responses 100 1 (Some "  done  "%string) (mkSt demo_task []))))))
           (mkTT 1 0 [] true (Some 10) 10) 10 eq_refl eq_refl eq_refl eq_refl).
Defined.

(** ** Round trips and compositions of the instance methods *)

(** X7: after a successful start, a stop of the same user at a later call
    depends on whether the user had a ledger entry before the start.  With
    an entry, the stop succeeds and leaves the entry inactive, with one more
    closed session from the start instant to the stop instant (notes
    trimmed) whose duration is added to the previous total.  Without one, the
    start left the new entry inactive, so the stop throws
    NoActiveSessionError with nothing changed. *)
Theorem start_then_stop (now1 now2 u : Z) (nts : string) (s s1 : St) :
  startTimeTracking now1 u s = inr (tt, s1) ->
  match find_tt u (timeTracking (cur s)) with
  | Some e =>
      exists s2, stopTimeTracking now2 u nts s1 = inr (tt, s2) /\
        find_tt u (timeTracking (cur s2))
        = Some (mkTT u (totalTimeSpent e + (now2 - now1))
                  (sessions e ++ [mkSession (Some now1) now2 (now2 - now1) (js_trim nts)])
                  false None now2)
  | None => stopTimeTracking now2 u nts s1 = inl (NoActiveSessionError, s1)
  end.
Proof.
  intros H. destruct (startTimeTracking_shape _ _ _ _ _ H) as (_ & _ & _ & _ & Ht).
  destruct (find_tt u (timeTracking (cur s))) as [e|] eqn:Hf.
  - assert (Hf1 : find_tt u (timeTracking (cur s1)) = Some (start_entry now1 e)).
    { rewrite Ht, find_tt_update_first by reflexivity. rewrite Hf. reflexivity. }
    rewrite (stopTimeTracking_run now2 u nts s1 (start_entry now1 e) now1 Hf1 eq_refl eq_refl).
    eexists. split; [reflexivity|]. cbn [cur].
    rewrite timeTracking_save_doc. cbn [set_timeTracking timeTracking].
    rewrite find_tt_update_first by reflexivity. rewrite Hf1. simpl.
    unfold stop_entry, start_entry. cbn [tt_user totalTimeSpent sessions currentSessionStart js_date_num].
    rewrite (find_tt_user _ _ _ Hf). reflexivity.
  - assert (Hf1 : find_tt u (timeTracking (cur s1)) = Some (new_tt u now1)).
    { rewrite Ht. apply find_tt_app_none; [exact Hf|reflexivity]. }
    unfold stopTimeTracking, bind, get_task, throw. rewrite Hf1. reflexivity.
Qed.

Lemma start_then_stop_witness :
  startTimeTracking 20 2 (mkSt demo_task []) = inr (tt, mkSt (save_doc 20
     (set_timeTracking (update_first 2 (start_entry 20) (timeTracking demo_task)) demo_task))
     [save_doc 20 (set_timeTracking (update_first 2 (start_entry 20) (timeTracking demo_task)) demo_task)]) /\
  exists s2, stopTimeTracking 80 2 " review "%string
     (mkSt (save_doc 20 (set_timeTracking (update_first 2 (start_entry 20) (timeTracking demo_task)) demo_task))
           [save_doc 20 (set_timeTracking (update_first 2 (start_entry 20) (timeTracking demo_task)) demo_task)])
     = inr (tt, s2) /\
   find_tt 2 (timeTracking (cur s2))
   = Some (mkTT 2 (0 + (80 - 20)) ([] ++ [mkSession (Some 20) 80 (80 - 20) (js_trim " review "%string)]) false None 80).
Proof.
  assert (H : startTimeTracking 20 2 (mkSt demo_task []) = inr (tt, mkSt (save_doc 20
     (set_timeTracking (update_first 2 (start_entry 20) (timeTracking demo_task)) demo_task))
     [save_doc 20 (set_timeTracking (update_first 2 (start_entry 20) (timeTracking demo_task)) demo_task)]))
    by reflexivity.
  split; [exact H|].
  exact (start_then_stop 20 80 2 " review "%string _ _ H).
Defined.

Lemma filter_not_in_user {X} (g : X -> Z) (u : Z) (l : list X) :
  ~ In u (map g l) -> filter (fun x => negb (g x =? u)) l = l.
Proof.
  induction l as [|x l IH]; simpl; intros Hn; [reflexivity|].
  destruct (Z.eqb_spec (g x) u) as [He|He]; [exfalso; apply Hn; left; exact He|].
  simpl. rewrite IH; [reflexivity|]. intros Hi; apply Hn; right; exact Hi.
Qed.

(** X8: on a well-formed task with at least one assignee, adding a user who
    is not assigned and then removing that user both succeed and give back
    the original roster and ledger. *)
Theorem addAssignee_then_removeAssignee (now1 now2 u : Z) (r : Role) (s : St) :
  wf_task (cur s) -> is_assigned u (cur s) = false -> assignedTo (cur s) <> [] ->
  exists s1 s2, addAssignee now1 u r s = inr (tt, s1) /\
    removeAssignee now2 u s1 = inr (tt, s2) /\
    assignedTo (cur s2) = assignedTo (cur s) /\ timeTracking (cur s2) = timeTracking (cur s).
Proof.
  intros (H1 & H2 & H3 & H4) Hia Hne.
  assert (Hn : ~ In u (map a_user (assignedTo (cur s))))
    by (intros Hin; apply is_assigned_In in Hin; congruence).
  assert (Hnt : ~ In u (map tt_user (timeTracking (cur s)))) by (intros Hin; exact (Hn (H3 _ Hin))).
  set (t1 := set_timeTracking (timeTracking (cur s) ++ [new_tt u now1])
               (set_assignedTo (assignedTo (cur s) ++ [mkAssignee u r now1]) (cur s))).
  set (s1 := mkSt (save_doc now1 t1) (save_doc now1 t1 :: db s)).
  assert (Hadd : addAssignee now1 u r s = inr (tt, s1)).
  { unfold addAssignee, bind, get_task, throw, put_task, save. rewrite Hia. reflexivity. }
  destruct (save_doc_fields now1 t1) as [Ht1 Ha1].
  cbn [t1 set_timeTracking set_assignedTo timeTracking assignedTo] in Ht1, Ha1.
  assert (Hl : Nat.leb (List.length (assignedTo (cur s1))) 1 = false).
  { cbn [s1 cur]. rewrite Ha1, length_app. apply Nat.leb_gt.
    destruct (assignedTo (cur s)); [exfalso; apply Hne; reflexivity|simpl; lia]. }
  assert (Hf : find_tt u (timeTracking (cur s1)) = Some (new_tt u now1)).
  { cbn [s1 cur]. rewrite Ht1. apply find_tt_app_none; [apply find_tt_None; exact Hnt|reflexivity]. }
  exists s1. eexists. split; [exact Hadd|].
  unfold removeAssignee. rewrite (bind_inr _ _ s1 s1 (cur s1) eq_refl), Hl, Hf. cbn [isActive new_tt].
  rewrite (bind_inr _ _ s1 s1 tt eq_refl), removeAssignee_tail.
  split; [reflexivity|]. cbn [cur].
  rewrite (proj1 (save_doc_fields _ _)), (proj2 (save_doc_fields _ _)).
  cbn [timeTracking assignedTo set_timeTracking set_assignedTo].
  cbn [s1 cur]. rewrite Ht1, Ha1, !filter_app.
  rewrite (filter_not_in_user a_user u _ Hn), (filter_not_in_user tt_user u _ Hnt).
  cbn. rewrite Z.eqb_refl. simpl. rewrite !app_nil_r. split; reflexivity.
Qed.

Lemma addAssignee_then_removeAssignee_witness :
  wf_task demo_task /\ is_assigned 3 demo_task = false /\ assignedTo demo_task <> [] /\
  exists s1 s2, addAssignee 10 3 reviewer (mkSt demo_task []) = inr (tt, s1) /\
    removeAssignee 20 3 s1 = inr (tt, s2) /\
    assignedTo (cur s2) = assignedTo demo_task /\ timeTracking (cur s2) = timeTracking demo_task.
Proof.
  assert (Hne : assignedTo demo_task <> []) by discriminate.
  split; [exact wf_demo_task|split; [reflexivity|split; [exact Hne|]]].
  exact (addAssignee_then_removeAssignee 10 20 3 reviewer (mkSt demo_task []) wf_demo_task eq_refl Hne).
Defined.

Lemma save_doc_progress (now : Z) (t : Task) :
  progress (save_doc now t) = progress t /\ modifiedBy (save_doc now t) = modifiedBy t.
Proof.
  unfold save_doc, preSaveOverdue, preSaveHistory.
  repeat match goal with |- context [if ?b then _ else _] => destruct b end; split; reflexivity.
Qed.

Lemma updateProgress_step (now : Z) (q : Q) (ph : option string) (u : Z) (s : St) (ph' : Phase) :
  match ph with
  | Some p => if String.eqb p EmptyString then Some (currentPhase (progress (cur s)))
              else phase_of_string p
  | None => Some (currentPhase (progress (cur s)))
  end = Some ph' ->
  let t := set_modifiedBy (Some u)
             (set_progress (mkProgress ph' (js_max 0 (js_min (inject_Z 100) q))) (cur s)) in
  updateProgress now (Some q) ph u s = inr (tt, mkSt (save_doc now t) (save_doc now t :: db s)).
Proof.
  unfold updateProgress, bind, get_task, throw, put_task, save.
  destruct ph as [p|]; [destruct (String.eqb p EmptyString); [|destruct (phase_of_string p)]|];
    intros H; try discriminate; injection H as <-; reflexivity.
Qed.

(** X9: [updateProgress] throws a validation error, with the stored task
    untouched, when no percentage is given (undefined is cast to NaN, which
    the Number field rejects) or when a non-empty phase is not one of the six
    phases of the enum.  Otherwise it saves the task once, storing the
    percentage clamped to [0, 100] (the given value when it lies in that
    range, 0 below it, 100 above it), setting the phase when a non-empty one
    is given, recording the user in modifiedBy, and never completing the
    task: the status is completed afterwards exactly when it was before, even
    at 100 percent. *)
Theorem updateProgress_clamps (now : Z) (pct : option Q) (ph : option string) (u : Z) (s : St) :
  ((pct = None \/ exists p, ph = Some p /\ p <> EmptyString /\ phase_of_string p = None) ->
     exists s1, updateProgress now pct ph u s = inl (ValidationError, s1) /\ reload s s1 = s) /\
  (forall q, pct = Some q ->
     (forall p, ph = Some p -> p <> EmptyString -> phase_of_string p <> None) ->
     exists s', updateProgress now pct ph u s = inr (tt, s') /\ db s' = cur s' :: db s /\
       (0 <= percentage (progress (cur s')) <= 100)%Q /\
       ((0 <= q <= 100)%Q -> percentage (progress (cur s')) == q)%Q /\
       ((q < 0)%Q -> percentage (progress (cur s')) == 0)%Q /\
       ((100 < q)%Q -> percentage (progress (cur s')) == 100)%Q /\
       Some (currentPhase (progress (cur s')))
       = match ph with
         | Some p => if String.eqb p EmptyString then Some (currentPhase (progress (cur s)))
                     else phase_of_string p
         | None => Some (currentPhase (progress (cur s)))
         end /\
       modifiedBy (cur s') = Some u /\
       (status (cur s') = COMPLETED <-> status (cur s) = COMPLETED)).
Proof.
  split.
  { intros [->|(p & -> & Hne & Hp)].
    - unfold updateProgress, bind, get_task, throw.
      eexists. split; [reflexivity|]. apply reload_same. reflexivity.
    - assert (He : String.eqb p EmptyString = false) by (apply String.eqb_neq; exact Hne).
      unfold updateProgress, bind, get_task, throw. rewrite He, Hp.
      destruct pct; (eexists; split; [reflexivity|]); apply reload_same; reflexivity. }
  intros q -> Hph.
  assert (Hph' : exists ph', match ph with
    | Some p => if String.eqb p EmptyString then Some (currentPhase (progress (cur s)))
                else phase_of_string p
    | None => Some (currentPhase (progress (cur s)))
    end = Some ph').
  { destruct ph as [p|]; [|eexists; reflexivity].
    destruct (String.eqb p EmptyString) eqn:He; [eexists; reflexivity|].
    destruct (phase_of_string p) as [ph'|] eqn:Hp; [eexists; reflexivity|].
    exfalso. apply (Hph p eq_refl); [apply String.eqb_neq; exact He|exact Hp]. }
  destruct Hph' as (ph' & Hph').
  rewrite (updateProgress_step now q ph u s ph' Hph'), Hph'.
  eexists. split; [reflexivity|]. cbn [cur db]. split; [reflexivity|].
  destruct (save_doc_progress now
    (set_modifiedBy (Some u)
       (set_progress (mkProgress ph' (js_max 0 (js_min (inject_Z 100) q))) (cur s)))) as [Hp Hm].
  rewrite Hp, Hm. rewrite status_save_doc.
  cbn [set_modifiedBy set_progress progress modifiedBy status dueDate percentage currentPhase].
  assert (Hmin : forall a b, (js_min a b <= a /\ js_min a b <= b /\ (js_min a b == a \/ js_min a b == b))%Q).
  { intros a b. unfold js_min. destruct (Qle_bool a b) eqn:Hab.
    - apply Qle_bool_iff in Hab. split; [lra|split; [exact Hab|left; reflexivity]].
    - assert (~ (a <= b)%Q) by (intros Hc; apply Qle_bool_iff in Hc; congruence).
      split; [lra|split; [lra|right; reflexivity]]. }
  assert (Hmax : forall a b, (a <= js_max a b /\ b <= js_max a b /\ (js_max a b == a \/ js_max a b == b))%Q).
  { intros a b. unfold js_max. destruct (Qle_bool b a) eqn:Hab.
    - apply Qle_bool_iff in Hab. split; [lra|split; [exact Hab|left; reflexivity]].
    - assert (~ (b <= a)%Q) by (intros Hc; apply Qle_bool_iff in Hc; congruence).
      split; [lra|split; [lra|right; reflexivity]]. }
  destruct (Hmin (inject_Z 100) q) as (Hm1 & Hm2 & Hm3).
  destruct (Hmax 0 (js_min (inject_Z 100) q))%Q as (Hx1 & Hx2 & Hx3).
  assert (H100 : inject_Z 100 == 100 # 1) by reflexivity.
  split; [split; destruct Hm3, Hx3; lra|].
  split; [intros [Ha Hb]; destruct Hm3, Hx3; lra|].
  split; [intros Ha; destruct Hm3, Hx3; lra|].
  split; [intros Ha; destruct Hm3, Hx3; lra|].
  split; [reflexivity|split; [reflexivity|]].
  destruct (_ && _ && _ && _) eqn:Hc; [|tauto].
  split; [discriminate|]. intros Hs. rewrite Hs in Hc. simpl in Hc.
  rewrite !Bool.andb_false_r in Hc. discriminate.
Qed.

Lemma updateProgress_clamps_witness :
  (exists s1, updateProgress 90 (Some (50 # 1)) (Some "qa"%string) 2 (mkSt demo_task [])
              = inl (ValidationError, s1) /\ reload (mkSt demo_task []) s1 = mkSt demo_task []) /\
  (forall p, Some "testing"%string = Some p -> p <> EmptyString -> phase_of_string p <> None) /\
  exists s', updateProgress 90 (Some (120 # 1)) (Some "testing"%string) 2 (mkSt demo_task [])
             = inr (tt, s') /\ db s' = cur s' :: [] /\
    (0 <= percentage (progress (cur s')) <= 100)%Q /\
    ((0 <= 120 # 1 <= 100)%Q -> percentage (progress (cur s')) == 120 # 1)%Q /\
    ((120 # 1 < 0)%Q -> percentage (progress (cur s')) == 0)%Q /\
    ((100 < 120 # 1)%Q -> percentage (progress (cur s')) == 100)%Q /\
    Some (currentPhase (progress (cur s'))) = Some testing /\
    modifiedBy (cur s') = Some 2 /\
    (status (cur s') = COMPLETED <-> status demo_task = COMPLETED).
Proof.
  assert (Hph : forall p, Some "testing"%string = Some p -> p <> EmptyString -> phase_of_string p <> None).
  { intros p Hp _. injection Hp as <-. discriminate. }
  split.
  - apply (proj1 (updateProgress_clamps 90 (Some (50 # 1)) (Some "qa"%string) 2 (mkSt demo_task []))).
    right. exists "qa"%string. split; [reflexivity|split; [discriminate|reflexivity]].
  - split; [exact Hph|].
    exact (proj2 (updateProgress_clamps 90 (Some (120 # 1)) (Some "testing"%string) 2 (mkSt demo_task []))
             (120 # 1) eq_refl Hph).
Defined.

(** ** Overdue tasks *)

(** X10: [findOverdueTasks] lists exactly the stored tasks whose virtual
    [isOverdue] holds at the same instant, and each listed task, saved at
    that instant or later, has status overdue after the save. *)
Theorem findOverdueTasks_overdue (now : Z) (store : list Task) :
  (forall t, In t (findOverdueTasks now store) <-> In t store /\ isOverdue now t = true) /\
  (forall t now', In t (findOverdueTasks now store) -> now <= now' ->
     status (save_doc now' t) = OVERDUE).
Proof.
  unfold findOverdueTasks, isOverdue. split.
  - intros t. rewrite filter_In.
    destruct (status t); simpl; rewrite ?Bool.andb_true_r, ?Bool.andb_false_r; intuition discriminate.
  - intros t now' Hin Hle. apply filter_In in Hin. destruct Hin as [_ Hc].
    rewrite status_save_doc.
    destruct (Z.ltb_spec (dueDate t) now) as [Hd|Hd]; [|discriminate].
    assert (Hd' : (dueDate t <? now') = true) by (apply Z.ltb_lt; lia).
    rewrite Hd'.
    destruct (status t); simpl in Hc |- *; try discriminate; reflexivity.
Qed.

(** ** Per-status statistics of a user's tasks *)

Lemma status_eqb_true (a b : TaskStatus) : status_eqb a b = true <-> a = b.
Proof. destruct a, b; simpl; split; congruence. Qed.

Lemma stats_lookup_bump (k k' : TaskStatus) (h : float) (m : list (TaskStatus * (Z * float))) :
  stats_lookup k (stats_bump k' h m)
  = if status_eqb k' k
    then Some (match stats_lookup k m with
               | Some (c, hh) => (c + 1, (hh + h)%float) | None => (0 + 1, (0 + h)%float) end)
    else stats_lookup k m.
Proof.
  unfold stats_lookup. induction m as [|[k0 [c hh]] m IH]; simpl.
  - destruct (status_eqb k' k); reflexivity.
  - destruct (status_eqb k0 k') eqn:H0.
    + apply status_eqb_true in H0. subst k0. simpl.
      destruct (status_eqb k' k); reflexivity.
    + simpl. destruct (status_eqb k0 k) eqn:H1; [|exact IH].
      apply status_eqb_true in H1. subst k0. destruct (status_eqb k' k) eqn:H2; [|reflexivity].
      apply status_eqb_true in H2. subst k'. rewrite (proj2 (status_eqb_true k k) eq_refl) in H0. discriminate.
Qed.

Lemma filter_andb {X} (f g : X -> bool) (l : list X) :
  filter (fun x => f x && g x) l = filter g (filter f l).
Proof.
  induction l as [|x l IH]; simpl; [reflexivity|].
  destruct (f x); simpl; [destruct (g x); simpl; rewrite IH; reflexivity|exact IH].
Qed.

Lemma stats_fold_lookup (u : Z) (k : TaskStatus) (l : list Task) (m : list (TaskStatus * (Z * float))) :
  stats_lookup k (fold_left (fun m task => stats_bump (status task) (task_hours u task) m) l m)
  = fold_left (fun o t => Some (match o with
                               | Some (c, hh) => (c + 1, (hh + task_hours u t)%float)
                               | None => (0 + 1, (0 + task_hours u t)%float) end))
              (filter (fun t => status_eqb (status t) k) l) (stats_lookup k m).
Proof.
  revert m. induction l as [|t l IH]; intros m; simpl; [reflexivity|].
  rewrite IH, stats_lookup_bump. destruct (status_eqb (status t) k); reflexivity.
Qed.

Lemma stats_fold_some (u : Z) (ts : list Task) (c : Z) (q : float) :
  fold_left (fun o t => Some (match o with
                             | Some (c, hh) => (c + 1, (hh + task_hours u t)%float)
                             | None => (0 + 1, (0 + task_hours u t)%float) end)) ts (Some (c, q))
  = Some (c + Z.of_nat (List.length ts), fold_left (fun acc t => (acc + task_hours u t)%float) ts q).
Proof.
  revert c q. induction ts as [|t ts IH]; intros c q; simpl.
  - rewrite Z.add_0_r. reflexivity.
  - rewrite IH. f_equal. f_equal. lia.
Qed.

Lemma stats_bump_keys (k : TaskStatus) (h : float) (m : list (TaskStatus * (Z * float))) :
  NoDup (map fst m) -> NoDup (map fst (stats_bump k h m)) /\
  (forall k0, In k0 (map fst (stats_bump k h m)) <-> k = k0 \/ In k0 (map fst m)).
Proof.
  induction m as [|[k' [c hh]] m IH]; simpl; intros Hn.
  - split; [constructor; [intros []|constructor]|]. intros k0; tauto.
  - inversion Hn as [|? ? Hnin Hn']; subst.
    destruct (status_eqb k' k) eqn:Hk.
    + apply status_eqb_true in Hk. subst k'. simpl. split; [exact Hn|]. intros k0; tauto.
    + destruct (IH Hn') as [IH1 IH2]. simpl. split.
      * constructor; [|exact IH1]. rewrite IH2. intros [He|Hi]; [|contradiction].
        subst k. rewrite (proj2 (status_eqb_true k' k') eq_refl) in Hk. discriminate.
      * intros k0. rewrite IH2. tauto.
Qed.

(** X11: [getTaskStats] has one key per task status, with no repeats; the
    entry of a status is absent when none of the user's tasks has that status,
    and otherwise holds the number of the user's tasks with that status and
    the double-precision sum, in store order and starting from 0, of their
    hours (each the double quotient of the entry's milliseconds by 3600000,
    rounded to two decimals as Math.round(x * 100) / 100 does).  For
    instance 522000 ms, exactly 0.145 hours, gives the double nearest 0.14:
    the product by 100 is just below 14.5. *)
Theorem getTaskStats_per_status (u : Z) (store : list Task) :
  NoDup (map fst (getTaskStats u store)) /\
  (forall k,
    stats_lookup k (getTaskStats u store)
    = match filter (fun t => is_assigned u t && status_eqb (status t) k) store with
      | [] => None
      | ts => Some (Z.of_nat (List.length ts),
                    fold_left (fun acc t => (acc + task_hours u t)%float) ts 0%float)
      end) /\
  (forall t, option_map totalTimeSpent (find_tt u (timeTracking t)) = Some 522000 ->
     task_hours u t = 0x1.1eb851eb851ecp-3%float).
Proof.
  split; [|split].
  - unfold getTaskStats.
    assert (Hg : forall l m, NoDup (map fst m) ->
              NoDup (map fst (fold_left (fun m task => stats_bump (status task) (task_hours u task) m) l m))).
    { induction l as [|t l IH]; intros m Hm; simpl; [exact Hm|].
      apply IH, stats_bump_keys, Hm. }
    apply Hg. constructor.
  - intros k. unfold getTaskStats. rewrite stats_fold_lookup, filter_andb. cbn [stats_lookup find].
    destruct (filter (fun t => status_eqb (status t) k) (filter (is_assigned u) store)) as [|t ts];
      [reflexivity|]. simpl. rewrite stats_fold_some. f_equal. f_equal. lia.
  - intros t H. unfold task_hours.
    destruct (find_tt u (timeTracking t)) as [e|]; [|discriminate].
    injection H as ->. vm_compute. reflexivity.
Qed.

Lemma getTaskStats_per_status_witness :
  option_map totalTimeSpent (find_tt 1 (timeTracking (set_timeTracking [mkTT 1 522000 [] false None 0] demo_task)))
  = Some 522000 /\
  task_hours 1 (set_timeTracking [mkTT 1 522000 [] false None 0] demo_task) = 0x1.1eb851eb851ecp-3%float.
Proof.
  split; [reflexivity|].
  exact (proj2 (proj2 (getTaskStats_per_status 1 [])) (set_timeTracking [mkTT 1 522000 [] false None 0] demo_task) eq_refl).
Defined.

(** ** Invariants of the monthly rankings *)

Definition cnt_ok (s : EmpScore) : Prop :=
  0 <= tasksCompleted s /\ 0 <= tasksInProgress s /\ 0 <= onTimeCompletions s /\
  0 <= overdueCompletions s /\ onTimeCompletions s + overdueCompletions s = tasksCompleted s.

Lemma cnt_ok_pair (task : Task) (s : EmpScore) : cnt_ok s -> cnt_ok (accumulate_pair task s).
Proof.
  unfold cnt_ok, accumulate_pair. intros H.
  destruct (status_eqb (status task) COMPLETED); [|destruct (status_eqb (status task) IN_PROGRESS)];
  [destruct (on_time task)| |]; destruct (Qltb 0 (percentage (progress task))); cbn; unfold b2z; lia.
Qed.

Lemma upd_score_keys (u : Z) (f : EmpScore -> EmpScore) (m : list EmpScore) :
  (forall s, es_user (f s) = es_user s) -> NoDup (map es_user m) ->
  NoDup (map es_user (upd_score u f m)) /\
  (forall v, In v (map es_user (upd_score u f m)) <-> u = v \/ In v (map es_user m)).
Proof.
  intros Hf. induction m as [|x m IH]; simpl; intros Hn.
  - rewrite Hf. simpl. split; [constructor; [intros []|constructor]|]. intros v; tauto.
  - inversion Hn as [|? ? Hnin Hn']; subst.
    destruct (Z.eqb_spec (es_user x) u) as [Hx|Hx].
    + simpl. rewrite Hf. split; [exact Hn|]. intros v. rewrite Hx. tauto.
    + destruct (IH Hn') as [IH1 IH2]. simpl. split.
      * constructor; [|exact IH1]. rewrite IH2. intros [He|Hi]; [congruence|contradiction].
      * intros v. rewrite IH2. tauto.
Qed.

Lemma Forall_upd_score (P : EmpScore -> Prop) (u : Z) (f : EmpScore -> EmpScore) (m : list EmpScore) :
  P (init_score u) -> (forall s, P s -> P (f s)) -> Forall P m -> Forall P (upd_score u f m).
Proof.
  intros H0 Hf. induction m as [|x m IH]; simpl; intros Hm.
  - constructor; [apply Hf, H0|constructor].
  - inversion Hm; subst. destruct (es_user x =? u); constructor; auto.
Qed.

Lemma accumulate_inv (tasks : list Task) (m : list EmpScore) :
  NoDup (map es_user m) -> Forall cnt_ok m ->
  NoDup (map es_user (fold_left accumulate_task tasks m)) /\
  Forall cnt_ok (fold_left accumulate_task tasks m).
Proof.
  revert m. induction tasks as [|task tasks IH]; intros m Hn Hf; simpl; [split; assumption|].
  apply IH; unfold accumulate_task;
    (assert (Hg : forall (l : list Assignee) m, NoDup (map es_user m) -> Forall cnt_ok m ->
       NoDup (map es_user (fold_left (fun m a => upd_score (a_user a) (accumulate_pair task) m) l m)) /\
       Forall cnt_ok (fold_left (fun m a => upd_score (a_user a) (accumulate_pair task) m) l m));
     [induction l as [|a l IHl]; intros m0 Hn0 Hf0; simpl; [split; assumption|];
      apply IHl;
      [apply (upd_score_keys _ _ _ (es_user_accumulate_pair task) Hn0)
      |apply Forall_upd_score; [unfold cnt_ok, init_score; cbn; lia|apply cnt_ok_pair|exact Hf0]]
     |exact (proj1 (Hg _ _ Hn Hf)) || exact (proj2 (Hg _ _ Hn Hf))]).
Qed.

Lemma js_round_bounds (q : Q) (n : Z) : (0 <= q <= inject_Z n)%Q -> 0 <= js_round q <= n.
Proof.
  intros [H0 H1]. unfold js_round. split.
  - change 0 with (Qfloor 0). apply Qfloor_resp_le. lra.
  - assert (Hf := Qfloor_le (q + (1 # 2))).
    assert (Hlt : (inject_Z (Qfloor (q + (1 # 2))) < inject_Z (n + 1))%Q)
      by (rewrite inject_Z_plus; change (inject_Z 1) with 1%Q; lra).
    rewrite <- Zlt_Qlt in Hlt. lia.
Qed.

Lemma ratio_percent_bounds (a b : Z) :
  0 <= a <= b -> 0 < b -> (0 <= inject_Z a / inject_Z b * inject_Z 100 <= inject_Z 100)%Q.
Proof.
  intros [Ha Hab] Hb.
  assert (Hb' : (0 < inject_Z b)%Q) by (change 0%Q with (inject_Z 0); rewrite <- Zlt_Qlt; exact Hb).
  assert (Ha' : (0 <= inject_Z a)%Q) by (change 0%Q with (inject_Z 0); rewrite <- Zle_Qle; exact Ha).
  assert (Hab' : (inject_Z a <= inject_Z b)%Q) by (rewrite <- Zle_Qle; exact Hab).
  assert (Hl : (0 <= inject_Z a / inject_Z b)%Q)
    by (apply Qle_shift_div_l; [exact Hb'|lra]).
  assert (Hu : (inject_Z a / inject_Z b <= 1)%Q)
    by (apply Qle_shift_div_r; [exact Hb'|lra]).
  assert (H100 : inject_Z 100 == 100 # 1) by reflexivity.
  split; [|rewrite H100]; nra.
Qed.

Lemma NoDup_map_filter {X Y} (g : X -> Y) (p : X -> bool) (l : list X) :
  NoDup (map g l) -> NoDup (map g (filter p l)).
Proof.
  induction l as [|x l IH]; simpl; intros Hn; [constructor|].
  inversion Hn as [|? ? Hnin Hn']; subst.
  destruct (p x); simpl; [|apply IH, Hn'].
  constructor; [|apply IH, Hn'].
  intros Hi. apply Hnin. apply in_map_iff in Hi. destruct Hi as (y & Hy & Hi).
  apply filter_In in Hi. apply in_map_iff. exists y. split; [exact Hy|exact (proj1 Hi)].
Qed.

(** X12: in the rankings of [calculateEmployeeOfTheMonth] each employee
    appears once; every ranked employee has completed at least one task,
    has non-negative counters whose on-time and overdue completions add up
    to the completed tasks, and has a completion rate and an on-time rate
    between 0 and 100. *)
Theorem rankings_invariants (startD endD : Z) (store : list Task) :
  NoDup (map es_user (allRankings (calculateEmployeeOfTheMonth startD endD store))) /\
  Forall (fun s => 0 < tasksCompleted s /\ 0 <= tasksInProgress s /\
                   0 <= onTimeCompletions s /\ 0 <= overdueCompletions s /\
                   onTimeCompletions s + overdueCompletions s = tasksCompleted s /\
                   0 <= completionRate s <= 100 /\ 0 <= onTimeRate s <= 100)
         (allRankings (calculateEmployeeOfTheMonth startD endD store)).
Proof.
  unfold calculateEmployeeOfTheMonth. cbn [allRankings]. unfold sort_desc.
  set (l := filter (fun s => 0 <? tasksCompleted s) (map post_pass (accumulate (window_tasks startD endD store)))).
  assert (Hp := sort_desc_perm_acc l []). rewrite app_nil_r in Hp.
  destruct (accumulate_inv (window_tasks startD endD store) [] (NoDup_nil _) (Forall_nil _)) as [Hn Hf].
  fold (accumulate (window_tasks startD endD store)) in Hn, Hf.
  split.
  - eapply Permutation_NoDup; [symmetry; apply Permutation_map, Hp|].
    unfold l. apply NoDup_map_filter. rewrite map_map. exact Hn.
  - apply Forall_forall. intros x Hx.
    apply (Permutation_in _ Hp) in Hx. unfold l in Hx. apply filter_In in Hx.
    destruct Hx as [Hx Hpos]. apply Z.ltb_lt in Hpos. apply in_map_iff in Hx.
    destruct Hx as (s & <- & Hs). rewrite Forall_forall in Hf.
    destruct (Hf s Hs) as (H1 & H2 & H3 & H4 & H5). unfold post_pass in Hpos |- *.
    cbn [tasksCompleted tasksInProgress onTimeCompletions overdueCompletions completionRate onTimeRate] in Hpos |- *.
    split; [exact Hpos|split; [exact H2|split; [exact H3|split; [exact H4|split; [exact H5|]]]]].
    split.
    + destruct (Z.ltb_spec 0 (tasksCompleted s + tasksInProgress s)); [|lia].
      apply js_round_bounds, ratio_percent_bounds; lia.
    + destruct (Z.ltb_spec 0 (tasksCompleted s)); [|lia].
      apply js_round_bounds, ratio_percent_bounds; lia.
Qed.

Lemma lookup_score_In_nodup (m : list EmpScore) (s : EmpScore) :
  NoDup (map es_user m) -> In s m -> lookup_score (es_user s) m = Some s.
Proof.
  unfold lookup_score. induction m as [|x m IH]; simpl; intros Hn Hi; [contradiction|].
  inversion Hn as [|? ? Hnin Hn']; subst.
  destruct Hi as [<-|Hi]; [rewrite Z.eqb_refl; reflexivity|].
  destruct (Z.eqb_spec (es_user x) (es_user s)) as [He|He]; [|apply IH; assumption].
  exfalso. apply Hnin. rewrite He. apply in_map. exact Hi.
Qed.

Lemma tasksCompleted_accumulate_pair (task : Task) (s : EmpScore) :
  tasksCompleted (accumulate_pair task s)
  = tasksCompleted s + b2z (status_eqb (status task) COMPLETED).
Proof.
  unfold accumulate_pair.
  destruct (status_eqb (status task) COMPLETED); [|destruct (status_eqb (status task) IN_PROGRESS)];
  destruct (Qltb 0 (percentage (progress task))); cbn; unfold b2z; lia.
Qed.

Lemma inner_count_fold (u c : Z) (l : list Assignee) (a0 : Z) :
  0 <= c ->
  a0 <= fold_left (fun acc a => if a_user a =? u then acc + c else acc) l a0 /\
  (a0 < fold_left (fun acc a => if a_user a =? u then acc + c else acc) l a0
   <-> 0 < c /\ In u (map a_user l)).
Proof.
  intros Hc. revert a0. induction l as [|a l IH]; intros a0; simpl.
  - split; [lia|]. split; [lia|tauto].
  - destruct (Z.eqb_spec (a_user a) u) as [Hu|Hu].
    + destruct (IH (a0 + c)) as [IH1 IH2]. split; [lia|].
      split; [intros Hlt; split; [|left; exact Hu]|intros [Hc' _]; lia].
      destruct (Z.eq_dec c 0) as [->|]; [|lia].
      rewrite <- (Z.add_0_r a0) in Hlt at 1. apply IH2 in Hlt. lia.
    + destruct (IH a0) as [IH1 IH2]. split; [exact IH1|]. rewrite IH2.
      split; intros [H1 H2]; split; try exact H1; [right; exact H2|].
      destruct H2 as [H2|H2]; [congruence|exact H2].
Qed.

Lemma completed_pair_fold (u : Z) (ts : list Task) (a0 : Z) :
  a0 <= pair_fold (fun acc task => acc + b2z (status_eqb (status task) COMPLETED)) u ts a0 /\
  (a0 < pair_fold (fun acc task => acc + b2z (status_eqb (status task) COMPLETED)) u ts a0
   <-> exists task, In task ts /\ status task = COMPLETED /\ In u (map a_user (assignedTo task))).
Proof.
  unfold pair_fold. revert a0. induction ts as [|task ts IH]; intros a0; simpl.
  - split; [lia|]. split; [lia|]. intros (? & [] & _).
  - assert (Hb : 0 <= b2z (status_eqb (status task) COMPLETED)) by (unfold b2z; destruct (status_eqb _ _); lia).
    destruct (inner_count_fold u _ (assignedTo task) a0 Hb) as [Hi1 Hi2].
    set (a1 := fold_left _ (assignedTo task) a0) in *.
    destruct (IH a1) as [IH1 IH2]. split; [lia|].
    split.
    + intros Hlt. destruct (Z.lt_ge_cases a0 a1) as [Hl|Hl].
      * apply Hi2 in Hl. destruct Hl as [Hc Hin]. exists task. split; [left; reflexivity|].
        split; [|exact Hin]. unfold b2z in Hc. destruct (status_eqb (status task) COMPLETED) eqn:Hs; [|lia].
        apply status_eqb_true in Hs. exact Hs.
      * destruct IH2 as [IH2 _]. destruct IH2 as (t & Ht & Hs & Hu); [lia|].
        exists t. split; [right; exact Ht|split; assumption].
    + intros (t & [<-|Ht] & Hs & Hu).
      * assert (a0 < a1); [|lia]. apply Hi2. split; [|exact Hu].
        rewrite Hs. simpl. lia.
      * assert (a1 < fold_left (fun acc task0 => fold_left (fun acc0 a => if a_user a =? u
                  then acc0 + b2z (status_eqb (status task0) COMPLETED) else acc0) (assignedTo task0) acc) ts a1);
          [apply IH2; exists t; auto|lia].
Qed.

(** X13: an employee appears in the rankings of [calculateEmployeeOfTheMonth]
    exactly when the store holds a completed task created within the period
    [startDate, endDate] on which the employee is an assignee. *)
Theorem rankings_members (startD endD u : Z) (store : list Task) :
  In u (map es_user (allRankings (calculateEmployeeOfTheMonth startD endD store)))
  <-> exists task, In task store /\ startD <= createdAt task <= endD /\
                   status task = COMPLETED /\ In u (map a_user (assignedTo task)).
Proof.
  unfold calculateEmployeeOfTheMonth. cbn [allRankings]. unfold sort_desc.
  set (ts := window_tasks startD endD store).
  set (l := filter (fun s => 0 <? tasksCompleted s) (map post_pass (accumulate ts))).
  assert (Hp := sort_desc_perm_acc l []). rewrite app_nil_r in Hp.
  destruct (accumulate_inv ts [] (NoDup_nil _) (Forall_nil _)) as [Hn _].
  fold (accumulate ts) in Hn.
  assert (Hfa : field_of tasksCompleted u (accumulate ts)
                = pair_fold (fun acc task => acc + b2z (status_eqb (status task) COMPLETED)) u ts 0).
  { unfold accumulate.
    exact (field_of_accumulate Z tasksCompleted
             (fun _ acc task => acc + b2z (status_eqb (status task) COMPLETED)) ts
             (fun task s _ => tasksCompleted_accumulate_pair task s) u ts [] (incl_refl ts)). }
  destruct (completed_pair_fold u ts 0) as [_ Hc].
  assert (Hw : (exists task, In task ts /\ status task = COMPLETED /\ In u (map a_user (assignedTo task)))
               <-> exists task, In task store /\ startD <= createdAt task <= endD /\
                   status task = COMPLETED /\ In u (map a_user (assignedTo task))).
  { unfold ts, window_tasks. split.
    - intros (t & Ht & Hs & Hu). apply filter_In in Ht. destruct Ht as [Ht Hb].
      apply andb_true_iff in Hb. destruct Hb as [Hb _]. apply andb_true_iff in Hb.
      destruct Hb as [Hb1 Hb2]. apply Z.leb_le in Hb1, Hb2. exists t. auto.
    - intros (t & Ht & [Hb1 Hb2] & Hs & Hu). exists t. split; [|auto].
      apply filter_In. split; [exact Ht|]. rewrite Hs.
      apply Z.leb_le in Hb1, Hb2. rewrite Hb1, Hb2. reflexivity. }
  rewrite <- Hw, <- Hc, <- Hfa. split.
  - intros Hi. apply in_map_iff in Hi. destruct Hi as (x & Hx & Hi).
    apply (Permutation_in _ Hp) in Hi. unfold l in Hi. apply filter_In in Hi.
    destruct Hi as [Hi Hpos]. apply in_map_iff in Hi. destruct Hi as (s & <- & Hs).
    unfold post_pass in Hx, Hpos. cbn [es_user tasksCompleted] in Hx, Hpos.
    apply Z.ltb_lt in Hpos. unfold field_of. rewrite <- Hx, (lookup_score_In_nodup _ _ Hn Hs).
    exact Hpos.
  - intros Hpos. unfold field_of in Hpos.
    destruct (lookup_score u (accumulate ts)) as [s|] eqn:Hl; [|cbn in Hpos; lia].
    assert (Hs : In s (accumulate ts)) by (apply find_some in Hl; exact (proj1 Hl)).
    apply lookup_score_user in Hl.
    apply in_map_iff. exists (post_pass s). split; [unfold post_pass; cbn; exact Hl|].
    apply (Permutation_in _ (Permutation_sym Hp)). unfold l. apply filter_In. split.
    + apply in_map. exact Hs.
    + unfold post_pass. cbn [tasksCompleted]. apply Z.ltb_lt. exact Hpos.
Qed.

(** ** Bounds of the Performance score *)

Lemma rate_bounds_or_zero (a b : Z) :
  (0 < b -> 0 <= a <= b) ->
  (0 <= (if 0 <? b then inject_Z a / inject_Z b * inject_Z 100 else 0) <= 100)%Q.
Proof.
  intros Hab. destruct (Z.ltb_spec 0 b) as [Hb|Hb]; [|lra].
  pose proof (ratio_percent_bounds a b (Hab Hb) Hb) as H.
  assert (H100 : inject_Z 100 == 100 # 1) by reflexivity. lra.
Qed.

(** X14: when every counter is non-negative and each part is at most its
    whole (completed and overdue tasks at most the assigned ones, attended
    days at most the working days, conversions at most the calls),
    [calculateOverallScore] gives an overallScore between 0 and 100; a record
    with no sales calls gets at most 75, so its grade is never above C+. *)
Theorem overallScore_bounds (p : Performance.Performance) :
  0 <= Performance.tasksCompleted p <= Performance.tasksAssigned p ->
  0 <= Performance.tasksOverdue p <= Performance.tasksAssigned p ->
  0 <= Performance.attendanceDays p <= Performance.totalWorkingDays p ->
  0 <= Performance.salesConversions p <= Performance.salesCalls p \/ Performance.salesCalls p <= 0 ->
  0 <= Performance.overallScore (Performance.calculateOverallScore p) <= 100 /\
  (Performance.salesCalls p <= 0 ->
   Performance.overallScore (Performance.calculateOverallScore p) <= 75 /\
   In (Performance.grade (Performance.calculateOverallScore p)) ["C+"; "C"; "D"; "F"]%string).
Proof.
  intros Htc Hod Hat Hsc.
  unfold Performance.calculateOverallScore. cbn [Performance.overallScore Performance.grade].
  unfold Performance.weighted_score, Performance.taskCompletionRate, Performance.attendanceRate,
    Performance.salesConversionRate.
  pose proof (rate_bounds_or_zero _ _ (fun _ => Htc)) as R1.
  pose proof (rate_bounds_or_zero _ _ (fun _ => Hat)) as R2.
  assert (R3 : (0 <= (if 0 <? Performance.tasksAssigned p
                      then inject_Z (Performance.tasksAssigned p - Performance.tasksOverdue p)
                           / inject_Z (Performance.tasksAssigned p) * inject_Z 100
                      else inject_Z 100) <= 100)%Q).
  { destruct (Z.ltb_spec 0 (Performance.tasksAssigned p)) as [Hb|Hb].
    - pose proof (ratio_percent_bounds (Performance.tasksAssigned p - Performance.tasksOverdue p)
                    (Performance.tasksAssigned p) ltac:(lia) Hb) as H.
      assert (H100 : inject_Z 100 == 100 # 1) by reflexivity. lra.
    - assert (H100 : inject_Z 100 == 100 # 1) by reflexivity. lra. }
  assert (R4 : (0 <= (if 0 <? Performance.salesCalls p
                      then inject_Z (Performance.salesConversions p)
                           / inject_Z (Performance.salesCalls p) * inject_Z 100 else 0) <= 100)%Q)
    by (apply rate_bounds_or_zero; intros; lia).
  set (r1 := if 0 <? Performance.tasksAssigned p then (inject_Z (Performance.tasksCompleted p) / _ * _)%Q else _)
    in R1 |- *.
  set (r2 := if 0 <? Performance.totalWorkingDays p then _ else _) in R2 |- *.
  set (r3 := if 0 <? Performance.tasksAssigned p then _ else _) in R3 |- *.
  set (r4 := if 0 <? Performance.salesCalls p then (inject_Z (Performance.salesConversions p) / _ * _)%Q else _)
    in R4 |- *.
  split.
  - destruct (0 <? Performance.salesCalls p).
    + apply (js_round_bounds _ 100). change (inject_Z 100) with (100 # 1). lra.
    + apply (js_round_bounds _ 100). change (inject_Z 100) with (100 # 1). lra.
  - intros Hs. apply Z.ltb_ge in Hs. rewrite Hs.
    assert (Hb : 0 <= js_round (0 + r1 * (3 # 10) + r2 * (25 # 100) + r3 * (2 # 10))%Q <= 75)
      by (apply (js_round_bounds _ 75); change (inject_Z 75) with (75 # 1); lra).
    split; [exact (proj2 Hb)|].
    set (o := js_round _) in Hb |- *. unfold Performance.grade_of.
    destruct (Z.leb_spec 95 o); [lia|]. destruct (Z.leb_spec 90 o); [lia|].
    destruct (Z.leb_spec 85 o); [lia|]. destruct (Z.leb_spec 80 o); [lia|].
    destruct (Z.leb_spec 75 o); [simpl; tauto|]. destruct (Z.leb_spec 70 o); [simpl; tauto|].
    destruct (Z.leb_spec 60 o); simpl; tauto.
Qed.

Lemma overallScore_bounds_witness :
  0 <= Performance.overallScore (Performance.calculateOverallScore (perf_all 10 10 0 20 20 0 0)) <= 100 /\
  (Performance.salesCalls (perf_all 10 10 0 20 20 0 0) <= 0 ->
   Performance.overallScore (Performance.calculateOverallScore (perf_all 10 10 0 20 20 0 0)) <= 75 /\
   In (Performance.grade (Performance.calculateOverallScore (perf_all 10 10 0 20 20 0 0)))
      ["C+"; "C"; "D"; "F"]%string).
Proof.
  apply overallScore_bounds; cbn; lia.
Defined.

(** ** The SalesCall model *)

(** X15: the SalesCall pre-save hook is idempotent (a second save at any
    instant changes nothing), never clears followUpRequired or dealClosed and
    never replaces a set dealClosedDate; on a deal_closed outcome the call
    leaves it with dealClosed set and a dealClosedDate, and on a
    callback_requested or interested outcome with followUpRequired set. *)
Theorem salesCall_pre_save_props (now now' : Z) (c : SalesCall.SalesCall) :
  SalesCall.pre_save now' (SalesCall.pre_save now c) = SalesCall.pre_save now c /\
  (SalesCall.followUpRequired c = true -> SalesCall.followUpRequired (SalesCall.pre_save now c) = true) /\
  (SalesCall.dealClosed c = true -> SalesCall.dealClosed (SalesCall.pre_save now c) = true) /\
  (forall d, SalesCall.dealClosedDate c = Some d -> SalesCall.dealClosedDate (SalesCall.pre_save now c) = Some d) /\
  (SalesCall.outcome c = Some "deal_closed"%string ->
     SalesCall.dealClosed (SalesCall.pre_save now c) = true /\
     SalesCall.dealClosedDate (SalesCall.pre_save now c)
     = Some (match SalesCall.dealClosedDate c with Some d => d | None => now end)) /\
  (SalesCall.outcome c = Some "callback_requested"%string \/ SalesCall.outcome c = Some "interested"%string ->
     SalesCall.followUpRequired (SalesCall.pre_save now c) = true).
Proof.
  destruct c as [rep st sd dur o od fur fud fun_ dv dc dcd]. unfold SalesCall.pre_save, SalesCall.outcome_is.
  cbn [SalesCall.outcome SalesCall.followUpRequired SalesCall.dealClosed SalesCall.dealClosedDate].
  destruct o as [x|]; [|repeat split; try discriminate; auto; intros [H|H]; discriminate].
  destruct (String.eqb x "callback_requested") eqn:E1, (String.eqb x "interested") eqn:E2,
           (String.eqb x "deal_closed") eqn:E3, dcd as [d0|];
    cbn; rewrite ?E1, ?E2, ?E3; cbn;
    repeat split; intros; try discriminate; try congruence;
    repeat match goal with
           | H : Some _ = Some _ |- _ => injection H as H; subst
           | H : _ \/ _ |- _ => destruct H as [H|H]
           end;
    try (rewrite String.eqb_refl in *; discriminate); try reflexivity.
Qed.

(** X16: [markCompleted] trims the details; it fails validation (nothing
    is saved) when the outcome is not one of the twelve values of the
    outcome enum or the trimmed details exceed 1000 characters.  Otherwise
    it leaves the call completed with the given outcome and the trimmed
    details; with outcome deal_closed the call is successful and its
    dealStatus is closed; with outcome interested it is successful, needs a
    follow-up, and its dealStatus is in_progress unless a deal was closed
    before. *)
Theorem markCompleted_outcomes (now : Z) (details : string) (o : option string) (c : SalesCall.SalesCall) :
  (SalesCall.outcome_valid o && (String.length (js_trim details) <=? 1000)%nat = false ->
     SalesCall.markCompleted now o details c = None) /\
  (SalesCall.outcome_valid o = true -> (String.length (js_trim details) <= 1000)%nat ->
   exists c', SalesCall.markCompleted now o details c = Some c' /\
   SalesCall.status c' = "completed"%string /\
   SalesCall.outcome c' = o /\
   SalesCall.outcomeDetails c' = js_trim details /\
   (o = Some "deal_closed"%string ->
      SalesCall.isSuccessful c' = true /\ SalesCall.dealStatus c' = "closed"%string) /\
   (o = Some "interested"%string ->
      SalesCall.isSuccessful c' = true /\ SalesCall.followUpRequired c' = true /\
      SalesCall.dealStatus c' = if SalesCall.dealClosed c then "closed"%string else "in_progress"%string)).
Proof.
  split.
  { intros Hb. unfold SalesCall.markCompleted. cbv zeta. rewrite Hb. reflexivity. }
  intros Hv Hl. unfold SalesCall.markCompleted. cbv zeta.
  rewrite Hv, (proj2 (Nat.leb_le _ _) Hl). cbn [andb].
  eexists. split; [reflexivity|].
  unfold SalesCall.pre_save, SalesCall.outcome_is.
  cbn [SalesCall.outcome SalesCall.status SalesCall.outcomeDetails].
  split; [destruct o as [x|]; [destruct (_ || _), (String.eqb x "deal_closed")|]; reflexivity|].
  split; [destruct o as [x|]; [destruct (_ || _), (String.eqb x "deal_closed")|]; reflexivity|].
  split; [destruct o as [x|]; [destruct (_ || _), (String.eqb x "deal_closed")|]; reflexivity|].
  split.
  - intros ->. cbn. split; reflexivity.
  - intros ->. cbn. split; [reflexivity|split; [reflexivity|]].
    unfold SalesCall.dealStatus, SalesCall.outcome_is. cbn. destruct (SalesCall.dealClosed c); reflexivity.
Qed.

Lemma markCompleted_outcomes_witness :
  SalesCall.outcome_valid (Some "interested"%string) = true /\
  (String.length (js_trim "  call me  "%string) <= 1000)%nat /\
  (exists c', SalesCall.markCompleted 50 (Some "interested"%string) "  call me  "%string
                (SalesCall.mkSalesCall 7 "scheduled" 10 0 None EmptyString false None EmptyString 0 false None)
              = Some c' /\
   SalesCall.status c' = "completed"%string /\
   SalesCall.outcome c' = Some "interested"%string /\
   SalesCall.outcomeDetails c' = js_trim "  call me  "%string /\
   (Some "interested"%string = Some "deal_closed"%string ->
      SalesCall.isSuccessful c' = true /\ SalesCall.dealStatus c' = "closed"%string) /\
   (Some "interested"%string = Some "interested"%string ->
      SalesCall.isSuccessful c' = true /\ SalesCall.followUpRequired c' = true /\
      SalesCall.dealStatus c' = if false then "closed"%string else "in_progress"%string)) /\
  SalesCall.outcome_valid (Some "won"%string) && (String.length (js_trim EmptyString) <=? 1000)%nat = false /\
  SalesCall.markCompleted 50 (Some "won"%string) EmptyString
    (SalesCall.mkSalesCall 7 "scheduled" 10 0 None EmptyString false None EmptyString 0 false None) = None.
Proof.
  assert (Hl : (String.length (js_trim "  call me  "%string) <= 1000)%nat) by (vm_compute; lia).
  split; [reflexivity|split; [exact Hl|split]].
  - exact (proj2 (markCompleted_outcomes 50 "  call me  "%string (Some "interested"%string)
             (SalesCall.mkSalesCall 7 "scheduled" 10 0 None EmptyString false None EmptyString 0 false None))
             eq_refl Hl).
  - split; [reflexivity|].
    exact (proj1 (markCompleted_outcomes 50 EmptyString (Some "won"%string)
             (SalesCall.mkSalesCall 7 "scheduled" 10 0 None EmptyString false None EmptyString 0 false None))
             eq_refl).
Defined.

Lemma length_filter_le {X} (p : X -> bool) (l : list X) : (List.length (filter p l) <= List.length l)%nat.
Proof.
  induction l as [|x l IH]; simpl; [lia|]. destruct (p x); simpl; lia.
Qed.

(** X17: in [getSalesRepStats] the completed, successful and closed-deal
    counts never exceed the total number of calls, the conversion rate lies
    between 0 and 100, and with no call in the window the total duration, the
    average duration and the conversion rate are all 0. *)
Theorem getSalesRepStats_bounds (rep startD endD : Z) (store : list SalesCall.SalesCall) :
  let st := SalesCall.getSalesRepStats rep startD endD store in
  0 <= SalesCall.completedCalls st <= SalesCall.totalCalls st /\
  0 <= SalesCall.successfulCalls st <= SalesCall.totalCalls st /\
  0 <= SalesCall.dealsClosed st <= SalesCall.totalCalls st /\
  0 <= SalesCall.conversionRate st <= 100 /\
  (SalesCall.totalCalls st = 0 ->
   SalesCall.totalDuration st = 0 /\ SalesCall.avgCallDuration st = 0 /\ SalesCall.conversionRate st = 0).
Proof.
  unfold SalesCall.getSalesRepStats. cbv zeta.
  cbn [SalesCall.completedCalls SalesCall.totalCalls SalesCall.successfulCalls SalesCall.dealsClosed
       SalesCall.conversionRate SalesCall.totalDuration SalesCall.avgCallDuration].
  set (calls := filter _ store).
  pose proof (length_filter_le (fun c => String.eqb (SalesCall.status c) "completed") calls) as L1.
  pose proof (length_filter_le SalesCall.isSuccessful calls) as L2.
  pose proof (length_filter_le SalesCall.dealClosed calls) as L3.
  split; [lia|split; [lia|split; [lia|split]]].
  - destruct (Z.ltb_spec 0 (Z.of_nat (List.length calls))); [|lia].
    apply js_round_bounds, ratio_percent_bounds; lia.
  - intros H0. rewrite H0. cbn. split; [|split; reflexivity].
    destruct calls; [reflexivity|discriminate].
Qed.
